(** * KanMind backend: access control, validation and store model

    The repository holds two parallel Django REST Framework implementations
    of one Kanban backend:

    - [Variant1] embeds [src/KanMind-Backend] (the documented variant);
    - [Variant2] embeds [src/KanMind_Backend] (the compact variant).

    Both run over the relational store of module [Models].  Module [Drf]
    holds the pieces of the web framework the views rely on (exceptions and
    their HTTP mapping, permission checks, built-in field validation). *)

From stdpp Require Import base decidable option list gmap strings sorting pretty.

Local Open Scope string_scope.

(** ** Framework layer *)

Module Drf.

(** Exceptions the code raises (or lets escape) during a request. *)
Inductive Error :=
| ValidationError (errors : list (string * string))
| NotAuthenticated
| PermissionDenied (detail : string)
| NotFound (detail : string)
| Uncaught (exc : string).

(** A computation that returns or raises. *)
Inductive Result (A : Type) :=
| Ok (a : A)
| Raise (e : Error).
Arguments Ok {A} a.
Arguments Raise {A} e.

Definition bind {A B : Type} (m : Result A) (k : A → Result B) : Result B :=
  match m with
  | Ok a => k a
  | Raise e => Raise e
  end.

Declare Scope result_scope.
Notation "x ← y ; z" := (bind y (λ x, z)) (only parsing) : result_scope.
Notation "y ;; z" := (bind y (λ _, z)) (only parsing) : result_scope.
#[local] Open Scope result_scope.

(** HTTP responses: a 2xx response with its payload, or one of the error
    responses the exception handler produces. *)
Inductive Response (A : Type) :=
| Success (status : nat) (data : A)
| BadRequest (errors : list (string * string))
| Unauthorized
| Forbidden (detail : string)
| NotFoundResponse (detail : string)
| ServerError (exc : string).
Arguments Success {A} status data.
Arguments BadRequest {A} errors.
Arguments Unauthorized {A}.
Arguments Forbidden {A} detail.
Arguments NotFoundResponse {A} detail.
Arguments ServerError {A} exc.

Definition HTTP_200_OK : nat := 200.
Definition HTTP_201_CREATED : nat := 201.
Definition HTTP_204_NO_CONTENT : nat := 204.

(** [exception_handler]: API exceptions become their status code, anything
    else is a server error. *)
Definition exception_handler {A : Type} (e : Error) : Response A :=
  match e with
  | ValidationError errors => BadRequest errors
  | NotAuthenticated => Unauthorized
  | PermissionDenied detail => Forbidden detail
  | NotFound detail => NotFoundResponse detail
  | Uncaught exc => ServerError exc
  end.

Definition respond {A : Type} (r : Result (Response A)) : Response A :=
  match r with
  | Ok resp => resp
  | Raise e => exception_handler e
  end.

Definition is_success {A : Type} (r : Response A) : bool :=
  match r with
  | Success _ _ => true
  | _ => false
  end.

Definition is_bad_request {A : Type} (r : Response A) : bool :=
  match r with
  | BadRequest _ => true
  | _ => false
  end.

Definition is_forbidden {A : Type} (r : Response A) : bool :=
  match r with
  | Forbidden _ => true
  | _ => false
  end.

Definition is_not_found {A : Type} (r : Response A) : bool :=
  match r with
  | NotFoundResponse _ => true
  | _ => false
  end.

Definition is_server_error {A : Type} (r : Response A) : bool :=
  match r with
  | ServerError _ => true
  | _ => false
  end.

(** The request as the permission classes see it: the authenticated user
    ([None] is the anonymous user), the HTTP method, the view's action and
    the value of [request.data.get('board')]. *)
Inductive Method := GET | POST | PUT | PATCH | DELETE.

Inductive Action :=
| list_action | create | retrieve | update | partial_update | destroy.

#[global] Instance Method_eq_dec : EqDecision Method.
Proof. solve_decision. Defined.
#[global] Instance Action_eq_dec : EqDecision Action.
Proof. solve_decision. Defined.

(** The router's binding of actions to HTTP methods. *)
Definition method_of (a : Action) : Method :=
  match a with
  | list_action | retrieve => GET
  | create => POST
  | update => PUT
  | partial_update => PATCH
  | destroy => DELETE
  end.

Record Request := {
  user : option nat;
  action : Action;
  data_board : option nat
}.

Definition method (request : Request) : Method := method_of (action request).

Definition is_authenticated (request : Request) : bool :=
  match user request with
  | Some _ => true
  | None => false
  end.

(** [request.user == u] for a stored user with primary key [u]. *)
Definition user_is (request : Request) (u : nat) : bool :=
  bool_decide (user request = Some u).

(** [request.user in qs] for a queryset holding the users [s]. *)
Definition user_in (request : Request) (s : gset nat) : bool :=
  match user request with
  | Some u => bool_decide (u ∈ s)
  | None => false
  end.

(** [permission_denied]: unauthenticated requests get 401, others 403. *)
Definition permission_denied {A : Type} (request : Request) (message : string)
  : Result A :=
  if is_authenticated request
  then Raise (PermissionDenied message)
  else Raise NotAuthenticated.

Definition default_message : string :=
  "You do not have permission to perform this action.".

(** A permission class over a store [S] and objects [O]. *)
Record Permission (S O : Type) := {
  message : string;
  has_permission : S → Request → Result bool;
  has_object_permission : S → Request → O → Result bool
}.
Arguments message {S O} p.
Arguments has_permission {S O} p.
Arguments has_object_permission {S O} p.

(** [BasePermission] grants everything; [IsAuthenticated] and [AllowAny] as
    shipped with the framework. *)
Definition BasePermission {S O : Type} : Permission S O :=
  {| message := default_message;
     has_permission := λ _ _, Ok true;
     has_object_permission := λ _ _ _, Ok true |}.

Definition AllowAny {S O : Type} : Permission S O := BasePermission.

Definition IsAuthenticated {S O : Type} : Permission S O :=
  {| message := default_message;
     has_permission := λ _ request, Ok (is_authenticated request);
     has_object_permission := λ _ _ _, Ok true |}.

(** The [|] combinator on permission classes. *)
Definition OR {S O : Type} (op1 op2 : Permission S O) : Permission S O :=
  {| message := default_message;
     has_permission := λ db request,
       b1 ← has_permission op1 db request;
       if b1 : bool then Ok true else has_permission op2 db request;
     has_object_permission := λ db request obj,
       p1 ← has_permission op1 db request;
       o1 ← (if p1 : bool then has_object_permission op1 db request obj
             else Ok false);
       if o1 : bool then Ok true else
       p2 ← has_permission op2 db request;
       if p2 : bool then has_object_permission op2 db request obj
       else Ok false |}.

Fixpoint check_permissions {S O : Type} (perms : list (Permission S O))
    (db : S) (request : Request) : Result unit :=
  match perms with
  | [] => Ok ()
  | p :: rest =>
      granted ← has_permission p db request;
      if granted : bool then check_permissions rest db request
      else permission_denied request (message p)
  end.

Fixpoint check_object_permissions {S O : Type} (perms : list (Permission S O))
    (db : S) (request : Request) (obj : O) : Result unit :=
  match perms with
  | [] => Ok ()
  | p :: rest =>
      granted ← has_object_permission p db request obj;
      if granted : bool then check_object_permissions rest db request obj
      else permission_denied request (message p)
  end.

(** A serializer with [many=True]: the rows one after the other, the first
    exception ending the run. *)
Fixpoint many {A B : Type} (to_representation : A → Result B) (rows : list A)
  : Result (list B) :=
  match rows with
  | [] => Ok []
  | row :: rest =>
      first ← to_representation row;
      others ← many to_representation rest;
      Ok (first :: others)
  end.

(** [get_object_or_404] on the result of a primary-key lookup.  The detail
    is the one the exception handler of the framework's releases up to 3.14
    gives an [Http404]; later releases pass the text of the [Http404] on.
    The statements about a 404 of this kind leave the detail open. *)
Definition get_object_or_404 {A : Type} (found : option A) : Result A :=
  match found with
  | Some a => Ok a
  | None => Raise (NotFound "Not found.")
  end.

(** [GenericAPIView.get_object]: look the object up, then run the object
    permissions. *)
Definition get_object {S O : Type} (perms : list (Permission S O))
    (db : S) (request : Request) (found : option O) : Result O :=
  obj ← get_object_or_404 found;
  check_object_permissions perms db request obj;;
  Ok obj.

(** *** Built-in field validation

    A Python [str] is modelled by the string of its code points: every
    character of a [string] below is one code point, so the strings of
    the model are the Python strings whose code points lie below 256, and
    [String.length] and [String.substring] are [len] and slicing.  (A
    character is not a byte of an encoding: U+00E9 is the one character
    of code 233.) *)

(** [str.isspace()] on one character: the white space below U+0100 is
    U+0009 to U+000D, U+001C to U+0020, U+0085 and U+00A0. *)
Definition is_space (c : Ascii.ascii) : bool :=
  let n := Ascii.nat_of_ascii c in
  ((9 <=? n)%nat && (n <=? 13)%nat) || ((28 <=? n)%nat && (n <=? 32)%nat)
  || (n =? 133)%nat || (n =? 160)%nat.

Fixpoint lstrip (s : string) : string :=
  match s with
  | EmptyString => EmptyString
  | String c rest => if is_space c then lstrip rest else s
  end.

Fixpoint rstrip (s : string) : string :=
  match s with
  | EmptyString => EmptyString
  | String c rest =>
      match rstrip rest with
      | EmptyString => if is_space c then EmptyString else String c EmptyString
      | kept => String c kept
      end
  end.

(** [str.strip()] *)
Definition strip (s : string) : string := rstrip (lstrip s).

(** What running one field yields: the field is skipped, or it produced a
    value, or it failed with messages. *)
Inductive Field (A : Type) :=
| Skip
| Value (a : A)
| Invalid (messages : list string).
Arguments Skip {A}.
Arguments Value {A} a.
Arguments Invalid {A} messages.

Definition max_length_message (n : nat) : string :=
  "Ensure this field has no more than " +:+ pretty n +:+ " characters.".
Definition min_length_message (n : nat) : string :=
  "Ensure this field has at least " +:+ pretty n +:+ " characters.".

Definition length_errors (max_length min_length : option nat) (s : string)
  : list string :=
  (match max_length with
   | Some n => if (n <? String.length s)%nat then [max_length_message n] else []
   | None => []
   end) ++
  (match min_length with
   | Some n => if (String.length s <? n)%nat then [min_length_message n] else []
   | None => []
   end).

(** [ProhibitNullCharactersValidator], which every [CharField] carries
    after its length validators. *)
Fixpoint has_null (s : string) : bool :=
  match s with
  | EmptyString => false
  | String c rest => (Ascii.nat_of_ascii c =? 0)%nat || has_null rest
  end.

Definition null_errors (s : string) : list string :=
  if has_null s then ["Null characters are not allowed."] else [].

(** [CharField.run_validation]: a missing key is an error when the field is
    required (never on a partial update); input that is blank after
    trimming is rejected unless blanks are allowed; the trimmed value then
    goes through the validators, whose messages are collected: the length
    validators, the null character validator and the validators a
    subclass appends ([validators]). *)
Definition CharFieldWith (validators : string → list string)
    (required allow_blank : bool)
    (max_length min_length : option nat) (partial : bool)
    (input : option string) : Field string :=
  match input with
  | None =>
      if required && negb partial then Invalid ["This field is required."]
      else Skip
  | Some raw =>
      let s := strip raw in
      if bool_decide (s = "") then
        if allow_blank then Value "" else Invalid ["This field may not be blank."]
      else
        match (length_errors max_length min_length s ++ null_errors s
               ++ validators s)%list with
        | [] => Value s
        | messages => Invalid messages
        end
  end.

Definition CharField := CharFieldWith (λ _, []).

(** [EmailField]: a [CharField] with the e-mail format validator,
    [valid_email] being the format check. *)
Definition EmailField (valid_email : string → bool) :=
  CharFieldWith
    (λ s, if valid_email s then [] else ["Enter a valid email address."]).

(** The quotation mark the framework puts around a rejected value. *)
Definition quotation_mark : Ascii.ascii := Ascii.ascii_of_nat 34.

Definition quoted (s : string) : string :=
  String quotation_mark s +:+ String quotation_mark EmptyString.

(** [ChoiceField.run_validation] for an optional choice. *)
Definition ChoiceField (choices : list string) (input : option string)
  : Field string :=
  match input with
  | None => Skip
  | Some s =>
      if bool_decide (s ∈ choices) then Value s
      else Invalid [quoted s +:+ " is not a valid choice."]
  end.

(** A field-level hook [validate_<field>], run on the value the field
    produced. *)
Definition with_validate {A : Type} (f : Field A) (validate : A → Field A)
  : Field A :=
  match f with
  | Value a => validate a
  | other => other
  end.

(** The entries a field contributes to [serializer.errors]. *)
Definition field_errors {A : Type} (name : string) (f : Field A)
  : list (string * string) :=
  match f with
  | Invalid messages => (λ m, (name, m)) <$> messages
  | _ => []
  end.

Definition field_value {A : Type} (f : Field A) : option A :=
  match f with
  | Value a => Some a
  | _ => None
  end.

Definition required_message : string := "This field is required.".

(** [PrimaryKeyRelatedField.run_validation], [lookup] being the field's
    queryset.  The key is a JSON integer or [null]; input of another JSON
    type (a boolean, a string, a list) is outside the requests modelled
    here. *)
Definition PrimaryKeyRelatedField {A : Type} (lookup : nat → option A)
    (required allow_null partial : bool) (input : option (option nat))
  : Field (option A) :=
  match input with
  | None => if required && negb partial then Invalid [required_message] else Skip
  | Some None =>
      if allow_null then Value None else Invalid ["This field may not be null."]
  | Some (Some k) =>
      match lookup k with
      | Some a => Value (Some a)
      | None =>
          Invalid ["Invalid pk " +:+ quoted (pretty k)
                   +:+ " - object does not exist."]
      end
  end.

(** [str.lower()] on the ASCII letters; what the code lowers are the
    ASCII words [Assignee] and [Reviewer]. *)
Definition lower_ascii (c : Ascii.ascii) : Ascii.ascii :=
  let n := Ascii.nat_of_ascii c in
  if (65 <=? n)%nat && (n <=? 90)%nat then Ascii.ascii_of_nat (n + 32) else c.

Fixpoint lower (s : string) : string :=
  match s with
  | EmptyString => EmptyString
  | String c rest => String (lower_ascii c) (lower rest)
  end.

End Drf.

(** ** The relational store

    One schema serves both variants.  The tables are lists of rows in
    insertion order; primary keys come from per-table sequences.  Columns
    that only one variant has: [Task.created_by] (second variant only, [None]
    in the first); [User.fullname] is the [full_name] of the user's
    [UserProfile] row in the first variant ([None] when the user has no
    profile) and the [fullname] column of the user in the second. *)

Module User.
Record t := {
  id : nat;
  username : string;
  email : string;
  password : string;
  is_active : bool;
  fullname : option string
}.
End User.

Module Board.
Record t := {
  id : nat;
  title : string;
  owner : nat;
  members : gset nat
}.
#[global] Instance eq_dec : EqDecision t.
Proof. solve_decision. Defined.
End Board.

Module Task.
Record t := {
  id : nat;
  board : nat;
  title : string;
  description : string;
  status : string;
  priority : string;
  assignee : option nat;
  reviewer : option nat;
  due_date : option string;
  created_by : option nat
}.
End Task.

Module Comment.
Record t := {
  id : nat;
  task : nat;
  author : nat;
  content : string;
  created_at : nat
}.
End Comment.

Module Token.
Record t := {
  user : nat;
  key : string
}.
End Token.

Module Models.

Record Store := {
  users : list User.t;
  boards : list Board.t;
  tasks : list Task.t;
  comments : list Comment.t;
  tokens : list Token.t;
  user_seq : nat;
  board_seq : nat;
  task_seq : nat;
  comment_seq : nat;
  clock : nat
}.

Definition set_users (db : Store) (us : list User.t) (seq : nat) : Store :=
  {| users := us; boards := boards db; tasks := tasks db;
     comments := comments db; tokens := tokens db; user_seq := seq;
     board_seq := board_seq db; task_seq := task_seq db;
     comment_seq := comment_seq db; clock := clock db |}.

Definition set_boards (db : Store) (bs : list Board.t) (seq : nat) : Store :=
  {| users := users db; boards := bs; tasks := tasks db;
     comments := comments db; tokens := tokens db; user_seq := user_seq db;
     board_seq := seq; task_seq := task_seq db;
     comment_seq := comment_seq db; clock := clock db |}.

Definition set_tasks (db : Store) (ts : list Task.t) (seq : nat) : Store :=
  {| users := users db; boards := boards db; tasks := ts;
     comments := comments db; tokens := tokens db; user_seq := user_seq db;
     board_seq := board_seq db; task_seq := seq;
     comment_seq := comment_seq db; clock := clock db |}.

Definition set_comments (db : Store) (cs : list Comment.t) (seq now : nat)
  : Store :=
  {| users := users db; boards := boards db; tasks := tasks db;
     comments := cs; tokens := tokens db; user_seq := user_seq db;
     board_seq := board_seq db; task_seq := task_seq db;
     comment_seq := seq; clock := now |}.

Definition set_tokens (db : Store) (ks : list Token.t) : Store :=
  {| users := users db; boards := boards db; tasks := tasks db;
     comments := comments db; tokens := ks; user_seq := user_seq db;
     board_seq := board_seq db; task_seq := task_seq db;
     comment_seq := comment_seq db; clock := clock db |}.

(** *** Lookups *)

(** Lookup by primary key: primary keys are unique, the first match is the
    match. *)
Definition get {A : Type} (pk : A → nat) (rows : list A) (k : nat) : option A :=
  head (filter (λ r, pk r = k) rows).

Definition get_user (db : Store) (k : nat) : option User.t :=
  get User.id (users db) k.
Definition get_board (db : Store) (k : nat) : option Board.t :=
  get Board.id (boards db) k.
Definition get_task (db : Store) (k : nat) : option Task.t :=
  get Task.id (tasks db) k.
Definition get_comment (db : Store) (k : nat) : option Comment.t :=
  get Comment.id (comments db) k.

(** [User.objects.filter(email=...)] and [User.objects.filter(username=...)]:
    the rows of the queryset. *)
Definition filter_email (db : Store) (value : string) : list User.t :=
  filter (λ u, User.email u = value) (users db).

Definition filter_username (db : Store) (value : string) : list User.t :=
  filter (λ u, User.username u = value) (users db).

(** [.get()] on a queryset: [User.objects.get(email=...)] is
    [objects_get (filter_email db ...)]. *)
Inductive Lookup (A : Type) :=
| DoesNotExist
| Found (a : A)
| MultipleObjectsReturned.
Arguments DoesNotExist {A}.
Arguments Found {A} a.
Arguments MultipleObjectsReturned {A}.

Definition objects_get {A : Type} (queryset : list A) : Lookup A :=
  match queryset with
  | [] => DoesNotExist
  | [a] => Found a
  | _ => MultipleObjectsReturned
  end.

(** [.exists()] on a queryset. *)
Definition exists_ {A : Type} (queryset : list A) : bool :=
  match queryset with
  | [] => false
  | _ => true
  end.

(** [User.objects.filter(id__in=ids)], as the set of primary keys found. *)
Definition users_with_id_in (db : Store) (ids : list nat) : gset nat :=
  list_to_set (filter (λ k, k ∈ ids) (User.id <$> users db)).

(** The tasks of a board and the comments of a task. *)
Definition board_tasks (db : Store) (b : nat) : list Task.t :=
  filter (λ t, Task.board t = b) (tasks db).

Definition task_comments (db : Store) (t : nat) : list Comment.t :=
  filter (λ c, Comment.task c = t) (comments db).

(** [order_by('created_at')]: a stable sort on the creation time. *)
Definition created_before (a b : Comment.t) : Prop :=
  (Comment.created_at a ≤ Comment.created_at b)%nat.
#[global] Instance created_before_dec a b : Decision (created_before a b).
Proof. unfold created_before. apply _. Defined.

Definition order_by_created_at (cs : list Comment.t) : list Comment.t :=
  merge_sort created_before cs.

(** [ordering = ['-id']] on boards. *)
Definition id_desc (a b : Board.t) : Prop := (Board.id b ≤ Board.id a)%nat.
#[global] Instance id_desc_dec a b : Decision (id_desc a b).
Proof. unfold id_desc. apply _. Defined.

Definition order_by_id_desc (bs : list Board.t) : list Board.t :=
  merge_sort id_desc bs.

(** [ordering = ['-id']] on the tasks of the first variant. *)
Definition task_id_desc (a b : Task.t) : Prop := (Task.id b ≤ Task.id a)%nat.
#[global] Instance task_id_desc_dec a b : Decision (task_id_desc a b).
Proof. unfold task_id_desc. apply _. Defined.

Definition order_tasks_by_id_desc (ts : list Task.t) : list Task.t :=
  merge_sort task_id_desc ts.

(** *** Deletion

    [on_delete=CASCADE] on [Task.board] and on the comment's [task]: deleting
    a row deletes the rows that point at it. *)

Definition delete_comment (db : Store) (c : Comment.t) : Store :=
  set_comments db
    (filter (λ x, Comment.id x ≠ Comment.id c) (comments db))
    (comment_seq db) (clock db).

Definition delete_task (db : Store) (t : Task.t) : Store :=
  let db1 :=
    set_comments db
      (filter (λ c, Comment.task c ≠ Task.id t) (comments db))
      (comment_seq db) (clock db) in
  set_tasks db1 (filter (λ x, Task.id x ≠ Task.id t) (tasks db1)) (task_seq db1).

Definition delete_board (db : Store) (b : Board.t) : Store :=
  let doomed := Task.id <$> board_tasks db (Board.id b) in
  let db1 :=
    set_comments db
      (filter (λ c, Comment.task c ∉ doomed) (comments db))
      (comment_seq db) (clock db) in
  let db2 :=
    set_tasks db1 (filter (λ t, Task.board t ≠ Board.id b) (tasks db1))
      (task_seq db1) in
  set_boards db2 (filter (λ x, Board.id x ≠ Board.id b) (boards db2))
    (board_seq db2).

(** *** Tokens: [Token.objects.get_or_create(user=user)] *)

Definition get_token (db : Store) (u : nat) : option Token.t :=
  head (filter (λ k, Token.user k = u) (tokens db)).

Definition get_or_create_token (new_key : string) (db : Store) (u : nat)
  : Token.t * Store :=
  match get_token db u with
  | Some k => (k, db)
  | None =>
      let k := {| Token.user := u; Token.key := new_key |} in
      (k, set_tokens db (tokens db ++ [k]))
  end.

(** *** Store invariant: board ids are unique and below the sequence that
    hands them out. *)
Definition boards_wf (db : Store) : Prop :=
  NoDup (Board.id <$> boards db)
  ∧ Forall (λ b, (Board.id b < board_seq db)%nat) (boards db).

End Models.

(** ** Services outside the repository

    Password hashing, token key generation, [slugify], the e-mail format
    check and date parsing are not code of this repository; the views are
    stated over any implementation of them. *)
Class Externals := {
  make_password : string → string;
  check_password : string → string → bool;
  generate_key : nat → string;
  slugify : string → string;
  valid_email : string → bool;
  parse_date : string → option string
}.

(** A view's body either raises or returns a response and the new store;
    a raised exception leaves the store as it was. *)
Definition run {A : Type} (db : Models.Store)
    (body : Drf.Result (Drf.Response A * Models.Store))
  : Drf.Response A * Models.Store :=
  match body with
  | Drf.Ok out => out
  | Drf.Raise e => (Drf.exception_handler e, db)
  end.

(** [Response(serializer.data)] after a save.  The payload is built once
    the rows are written: an exception raised while it is built is
    answered by the exception handler, and the rows stay written, every
    save being committed as it is made (Django's default; the settings
    are not among the sources). *)
Definition respond_after_save {A : Type} (status : nat) (db' : Models.Store)
    (data : Drf.Result A) : Drf.Response A * Models.Store :=
  match data with
  | Drf.Ok payload => (Drf.Success status payload, db')
  | Drf.Raise e => (Drf.exception_handler e, db')
  end.

(** Following a foreign key: [task.board] and [comment.task]. *)
Definition task_board (db : Models.Store) (obj : Task.t) : Drf.Result Board.t :=
  match Models.get_board db (Task.board obj) with
  | Some b => Drf.Ok b
  | None => Drf.Raise (Drf.Uncaught "RelatedObjectDoesNotExist")
  end.

Definition comment_task (db : Models.Store) (obj : Comment.t)
  : Drf.Result Task.t :=
  match Models.get_task db (Comment.task obj) with
  | Some t => Drf.Ok t
  | None => Drf.Raise (Drf.Uncaught "RelatedObjectDoesNotExist")
  end.

(** [queryset.filter(owner=user) | queryset.filter(members=user)], and
    equally [filter(Q(owner=user) | Q(members=user))]: the board table is
    joined with the membership rows, a board without members joining once
    with no member, and the joined rows are filtered. *)
Definition join_members (bs : list Board.t) : list (Board.t * option nat) :=
  b ← bs;
  match elements (Board.members b) with
  | [] => [(b, None)]
  | ms => (λ m, (b, Some m)) <$> ms
  end.

Definition owner_or_member_row (u : nat) (row : Board.t * option nat) : Prop :=
  Board.owner row.1 = u ∨ row.2 = Some u.
#[global] Instance owner_or_member_row_dec u row :
  Decision (owner_or_member_row u row).
Proof. unfold owner_or_member_row. apply _. Defined.

Definition filter_owner_or_member (u : nat) (bs : list Board.t)
  : list Board.t :=
  fst <$> filter (owner_or_member_row u) (join_members bs).

(** [.distinct()] *)
Definition distinct (bs : list Board.t) : list Board.t := remove_dups bs.

(** ** First variant: [src/KanMind-Backend] *)

Module Variant1.
Import Drf Models.
#[local] Open Scope result_scope.

Module tasks_app.

(** *** [tasks_app/api/permissions.py] *)

Definition IsBoardOwnerOrMember : Permission Store Task.t :=
  {| message :=
       "You must be the board owner or a member to perform this action.";
     has_permission := λ db request,
       if negb (is_authenticated request) then Ok false
       else if bool_decide (action request = create) then
         match data_board request with
         | None | Some 0 => Ok false
         | Some board_id =>
             match get_board db board_id with
             | Some board =>
                 Ok (user_is request (Board.owner board)
                     || user_in request (Board.members board))
             | None => Raise (NotFound "Board with this ID does not exist.")
             end
         end
       else Ok true;
     has_object_permission := λ db request obj,
       board ← task_board db obj;
       Ok (user_is request (Board.owner board)
           || user_in request (Board.members board)) |}.

Definition IsBoardOwner : Permission Store Task.t :=
  {| message := "Only the board owner can perform this action.";
     has_permission := λ db request,
       if negb (is_authenticated request) then Ok false
       else if bool_decide (action request = create) then
         match data_board request with
         | None | Some 0 => Ok false
         | Some board_id =>
             match get_board db board_id with
             | Some board => Ok (user_is request (Board.owner board))
             | None => Ok false
             end
         end
       else Ok true;
     has_object_permission := λ db request obj,
       board ← task_board db obj;
       Ok (user_is request (Board.owner board)) |}.

Definition IsTaskOwner : Permission Store Task.t :=
  {| message := "Only the task assignee can perform this action.";
     has_permission := λ _ request, Ok (is_authenticated request);
     has_object_permission := λ _ request obj,
       Ok (match Task.assignee obj with
           | Some a => user_is request a
           | None => false
           end) |}.

Definition IsCreatorOfComment : Permission Store Comment.t :=
  {| message := "Only the comment author can perform this action.";
     has_permission := λ _ request, Ok (is_authenticated request);
     has_object_permission := λ _ request obj,
       Ok (user_is request (Comment.author obj)) |}.

(** *** [tasks_app/models.py] *)

Definition choices_status : list string :=
  ["to-do"; "in-progress"; "review"; "done"].
Definition choices_priority : list string := ["low"; "medium"; "high"].

(** *** [tasks_app/api/serializers.py] *)

(** The request body of the task endpoints: a key is absent ([None]) or
    present; the nullable keys may be present with [null].  The keys of
    the relations hold JSON integers. *)
Module TaskData.
Record t := {
  board : option nat;
  title : option string;
  description : option string;
  status : option string;
  priority : option string;
  assignee_id : option (option nat);
  reviewer_id : option (option nat);
  due_date : option (option string)
}.
End TaskData.

(** A user as the task endpoints show it; the full name is read from the
    user's profile. *)
Module UserSerializer.
Record data := {
  id : nat;
  fullname : string;
  email : string
}.

Definition get_fullname (obj : User.t) : Result string :=
  match User.fullname obj with
  | Some full_name => Ok full_name
  | None => Raise (Uncaught "RelatedObjectDoesNotExist")
  end.

Definition to_representation (obj : User.t) : Result data :=
  full_name ← get_fullname obj;
  Ok {| id := User.id obj; fullname := full_name; email := User.email obj |}.
End UserSerializer.

Module TaskSerializer.

(** The validated attributes: the relational fields hold the rows. *)
Record attrs := {
  board : option Board.t;
  title : option string;
  description : option string;
  status : option string;
  priority : option string;
  assignee : option (option User.t);
  reviewer : option (option User.t);
  due_date : option (option string)
}.

Definition DateField `{!Externals} (input : option (option string))
  : Field (option string) :=
  match input with
  | None => Skip
  | Some None => Value None
  | Some (Some s) =>
      match parse_date s with
      | Some d => Value (Some d)
      | None => Invalid ["Date has wrong format."]
      end
  end.

(** The fields in the order of [Meta.fields]; the read-only ones take no
    input. *)
Definition to_internal_value `{!Externals} (db : Store) (partial : bool)
    (d : TaskData.t) : Result attrs :=
  let f_board :=
    PrimaryKeyRelatedField (get_board db) true false partial
      (Some <$> TaskData.board d) in
  let f_title :=
    CharField true false (Some 200) None partial (TaskData.title d) in
  let f_description :=
    CharField false true None None partial (TaskData.description d) in
  let f_status := ChoiceField choices_status (TaskData.status d) in
  let f_priority := ChoiceField choices_priority (TaskData.priority d) in
  let f_due_date := DateField (TaskData.due_date d) in
  let f_assignee :=
    PrimaryKeyRelatedField (get_user db) false true partial
      (TaskData.assignee_id d) in
  let f_reviewer :=
    PrimaryKeyRelatedField (get_user db) false true partial
      (TaskData.reviewer_id d) in
  match (field_errors "board" f_board ++ field_errors "title" f_title
         ++ field_errors "description" f_description
         ++ field_errors "status" f_status
         ++ field_errors "priority" f_priority
         ++ field_errors "due_date" f_due_date
         ++ field_errors "assignee_id" f_assignee
         ++ field_errors "reviewer_id" f_reviewer)%list with
  | [] =>
      Ok {| board := mjoin (field_value f_board);
            title := field_value f_title;
            description := field_value f_description;
            status := field_value f_status;
            priority := field_value f_priority;
            assignee := field_value f_assignee;
            reviewer := field_value f_reviewer;
            due_date := field_value f_due_date |}
  | errors => Raise (ValidationError errors)
  end.

Definition _validate_board_access (request : option Request) (board : Board.t)
  : Result unit :=
  match request with
  | None => Ok ()
  | Some request =>
      if negb (user_is request (Board.owner board)
               || user_in request (Board.members board))
      then Raise (ValidationError
        [("board", "You do not have access to this board. You must be the owner or a member.")])
      else Ok ()
  end.

Definition _get_board (db : Store) (instance : option Task.t) (a : attrs)
  : Result Board.t :=
  match board a with
  | Some b => Ok b
  | None =>
      match instance with
      | Some i => task_board db i
      | None => Raise (ValidationError [("board", "Board must be provided.")])
      end
  end.

Definition _validate_user_role (user : option User.t) (board : Board.t)
    (role_name : string) : Result unit :=
  match user with
  | None => Ok ()
  | Some user =>
      if negb (bool_decide (User.id user ∈ Board.members board))
      then Raise (ValidationError
        [(lower role_name, role_name +:+ " must be Member of Board.")])
      else Ok ()
  end.

Definition _prevent_board_change (instance : option Task.t) (a : attrs)
  : Result unit :=
  match instance with
  | None => Ok ()
  | Some instance =>
      match board a with
      | Some b =>
          if bool_decide (Board.id b ≠ Task.board instance)
          then Raise (ValidationError
            [("board", "Changing the board of a task is not allowed.")])
          else Ok ()
      | None => Ok ()
      end
  end.

Definition validate (db : Store) (request : option Request)
    (instance : option Task.t) (a : attrs) : Result attrs :=
  board ← _get_board db instance a;
  (if bool_decide (instance = None) then _validate_board_access request board
   else Ok ());;
  _validate_user_role (mjoin (assignee a)) board "Assignee";;
  _validate_user_role (mjoin (reviewer a)) board "Reviewer";;
  _prevent_board_change instance a;;
  Ok a.

(** [is_valid(raise_exception=True)]: the fields, then [validate]. *)
Definition is_valid `{!Externals} (db : Store) (request : option Request)
    (instance : option Task.t) (partial : bool) (d : TaskData.t)
  : Result attrs :=
  a ← to_internal_value db partial d;
  validate db request instance a.

(** [Task.objects.create] on the validated data, with the model's
    defaults. *)
Definition create (db : Store) (a : attrs) : Result (Task.t * Store) :=
  match board a, title a with
  | Some b, Some t =>
      let task :=
        {| Task.id := task_seq db; Task.board := Board.id b; Task.title := t;
           Task.description := default "" (description a);
           Task.status := default "to-do" (status a);
           Task.priority := default "medium" (priority a);
           Task.assignee := User.id <$> mjoin (assignee a);
           Task.reviewer := User.id <$> mjoin (reviewer a);
           Task.due_date := mjoin (due_date a);
           Task.created_by := None |} in
      Ok (task, set_tasks db (tasks db ++ [task])%list (S (task_seq db)))
  | _, _ => Raise (Uncaught "IntegrityError")
  end.

(** [ModelSerializer.update]: every validated attribute is set. *)
Definition update (db : Store) (instance : Task.t) (a : attrs)
  : Task.t * Store :=
  let task :=
    {| Task.id := Task.id instance;
       Task.board := default (Task.board instance) (Board.id <$> board a);
       Task.title := default (Task.title instance) (title a);
       Task.description := default (Task.description instance) (description a);
       Task.status := default (Task.status instance) (status a);
       Task.priority := default (Task.priority instance) (priority a);
       Task.assignee :=
         default (Task.assignee instance) (option_map User.id <$> assignee a);
       Task.reviewer :=
         default (Task.reviewer instance) (option_map User.id <$> reviewer a);
       Task.due_date := default (Task.due_date instance) (due_date a);
       Task.created_by := Task.created_by instance |} in
  (task,
   set_tasks db
     ((λ t, if bool_decide (Task.id t = Task.id instance) then task else t)
        <$> tasks db)
     (task_seq db)).

(** The serialized task: the readable fields of [Meta.fields], in their
    order.  [comments_count] is a key that may have been removed. *)
Module data.
Record t := {
  id : nat;
  board : nat;
  title : string;
  description : string;
  status : string;
  priority : string;
  assignee : option UserSerializer.data;
  reviewer : option UserSerializer.data;
  due_date : option string;
  comments_count : option nat
}.

(** [data.pop("comments_count", None)] *)
Definition pop_comments_count (d : t) : t :=
  {| id := id d; board := board d; title := title d;
     description := description d; status := status d;
     priority := priority d; assignee := assignee d; reviewer := reviewer d;
     due_date := due_date d; comments_count := None |}.
End data.

Definition get_comments_count (db : Store) (obj : Task.t) : nat :=
  length (task_comments db (Task.id obj)).

(** A nested [UserSerializer(read_only=True)] on a nullable foreign key. *)
Definition nested_user (db : Store) (k : option nat)
  : Result (option UserSerializer.data) :=
  match k with
  | None => Ok None
  | Some k =>
      match get_user db k with
      | Some user =>
          shown ← UserSerializer.to_representation user;
          Ok (Some shown)
      | None => Raise (Uncaught "DoesNotExist")
      end
  end.

(** [request] is [self.context.get("request")]. *)
Definition to_representation (db : Store) (request : option Request)
    (instance : Task.t) : Result data.t :=
  shown_assignee ← nested_user db (Task.assignee instance);
  shown_reviewer ← nested_user db (Task.reviewer instance);
  let data :=
    {| data.id := Task.id instance;
       data.board := Task.board instance;
       data.title := Task.title instance;
       data.description := Task.description instance;
       data.status := Task.status instance;
       data.priority := Task.priority instance;
       data.assignee := shown_assignee;
       data.reviewer := shown_reviewer;
       data.due_date := Task.due_date instance;
       data.comments_count := Some (get_comments_count db instance) |} in
  match request with
  | Some request =>
      if bool_decide (method request = PATCH)
      then Ok (data.pop_comments_count data)
      else Ok data
  | None => Ok data
  end.

End TaskSerializer.

Module TaskCommentSerializer.

Definition validate (content : option string) : Result string :=
  let content := default "" content in
  if bool_decide (content = "") || bool_decide (strip content = "")
  then Raise (ValidationError [("content", "Content cannot be empty.")])
  else Ok content.

Definition is_valid (content : option string) : Result string :=
  let f_content := CharField true false None None false content in
  match field_errors "content" f_content with
  | [] => validate (field_value f_content)
  | errors => Raise (ValidationError errors)
  end.

(** [serializer.save(author=..., task=...)]; [created_at] is the clock at
    the insert. *)
Definition save (db : Store) (author : nat) (task : Task.t) (content : string)
  : Comment.t * Store :=
  let comment :=
    {| Comment.id := comment_seq db; Comment.task := Task.id task;
       Comment.author := author; Comment.content := content;
       Comment.created_at := clock db |} in
  (comment,
   set_comments db (comments db ++ [comment])%list (S (comment_seq db))
     (S (clock db))).

End TaskCommentSerializer.

(** *** [tasks_app/api/views.py] *)

Module TaskViewSet.

Definition get_permissions (a : Action) : list (Permission Store Task.t) :=
  if bool_decide (a = create) then [IsBoardOwnerOrMember]
  else if bool_decide (a = update) || bool_decide (a = partial_update)
  then [IsBoardOwnerOrMember]
  else if bool_decide (a = destroy) then [OR IsBoardOwner IsTaskOwner]
  else [IsAuthenticated].

Definition get_object (db : Store) (request : Request) (pk : nat)
  : Result Task.t :=
  Drf.get_object (get_permissions (action request)) db request (get_task db pk).

Definition request_of (u : option nat) (a : Action) (board : option nat)
  : Request :=
  {| user := u; action := a; data_board := board |}.

(** [CreateModelMixin.create]: the payload is [serializer.data], the
    representation of the saved task, built after the save with the request
    in the context. *)
Definition create `{!Externals} (db : Store) (u : option nat) (d : TaskData.t)
  : Response TaskSerializer.data.t * Store :=
  let request := request_of u Drf.create (TaskData.board d) in
  run db (
    check_permissions (get_permissions Drf.create) db request;;
    a ← TaskSerializer.is_valid db (Some request) None false d;
    out ← TaskSerializer.create db a;
    Ok (respond_after_save HTTP_201_CREATED out.2
          (TaskSerializer.to_representation out.2 (Some request) out.1))).

(** [UpdateModelMixin.update], likewise. *)
Definition update_with `{!Externals} (partial : bool) (db : Store)
    (u : option nat) (pk : nat) (d : TaskData.t)
  : Response TaskSerializer.data.t * Store :=
  let request :=
    request_of u (if partial then Drf.partial_update else Drf.update)
      (TaskData.board d) in
  run db (
    check_permissions (get_permissions (action request)) db request;;
    instance ← get_object db request pk;
    a ← TaskSerializer.is_valid db (Some request) (Some instance) partial d;
    let out := TaskSerializer.update db instance a in
    Ok (respond_after_save HTTP_200_OK out.2
          (TaskSerializer.to_representation out.2 (Some request) out.1))).

Definition update `{!Externals} := update_with false.
Definition partial_update `{!Externals} := update_with true.

Definition destroy (db : Store) (u : option nat) (pk : nat)
  : Response unit * Store :=
  let request := request_of u Drf.destroy None in
  run db (
    check_permissions (get_permissions Drf.destroy) db request;;
    instance ← get_object db request pk;
    Ok (Success HTTP_204_NO_CONTENT (), delete_task db instance)).

End TaskViewSet.

(** The comment endpoints declare no permission classes of their own and
    run under the project's default ones, [default_permission_classes],
    which the settings (not part of the sources) fix. *)
Module TaskCommentsViewSet.

Definition get_queryset (db : Store) (request : Request) (task_pk : nat)
  : Result (list Comment.t) :=
  task ← get_object_or_404 (get_task db task_pk);
  board ← task_board db task;
  if negb (user_is request (Board.owner board))
     && negb (user_in request (Board.members board))
  then Raise (PermissionDenied
                "You do not have permission to view comments for this task.")
  else Ok (order_by_created_at (task_comments db (Task.id task))).

Definition get_object
    (default_permission_classes : list (Permission Store Comment.t))
    (db : Store) (request : Request) (task_pk pk : nat) : Result Comment.t :=
  queryset ← get_queryset db request task_pk;
  Drf.get_object default_permission_classes db request
    (get Comment.id queryset pk).

Definition request_of (u : option nat) (a : Action) : Request :=
  {| user := u; action := a; data_board := None |}.

(** The response shows the author's full name, read from the profile only
    after the comment has been saved. *)
Definition create
    (default_permission_classes : list (Permission Store Comment.t))
    (db : Store) (u : option nat) (task_pk : nat) (content : option string)
  : Response (Comment.t * string) * Store :=
  let request := request_of u Drf.create in
  run db (
    check_permissions default_permission_classes db request;;
    task ← get_object_or_404 (get_task db task_pk);
    board ← task_board db task;
    if negb (user_is request (Board.owner board))
       && negb (user_in request (Board.members board))
    then Ok (Forbidden "You do not have permission to perform this action.", db)
    else
      validated ← TaskCommentSerializer.is_valid content;
      match u with
      | Some author =>
          let out := TaskCommentSerializer.save db author task validated in
          match get_user db author ≫= User.fullname with
          | Some full_name =>
              Ok (Success HTTP_201_CREATED (out.1, full_name), out.2)
          | None => Ok (ServerError "RelatedObjectDoesNotExist", out.2)
          end
      | None => Raise (Uncaught "ValueError")
      end).

Definition destroy
    (default_permission_classes : list (Permission Store Comment.t))
    (db : Store) (u : option nat) (task_pk pk : nat)
  : Response unit * Store :=
  let request := request_of u Drf.destroy in
  run db (
    check_permissions default_permission_classes db request;;
    comment ← get_object default_permission_classes db request task_pk pk;
    if negb (user_is request (Comment.author comment))
    then Ok (Forbidden "You do not have permission to delete this comment.", db)
    else Ok (Success HTTP_204_NO_CONTENT (), delete_comment db comment)).

Definition list
    (default_permission_classes : list (Permission Store Comment.t))
    (db : Store) (u : option nat) (task_pk : nat)
  : Response (list Comment.t) * Store :=
  let request := request_of u list_action in
  run db (
    check_permissions default_permission_classes db request;;
    queryset ← get_queryset db request task_pk;
    Ok (Success HTTP_200_OK queryset, db)).

End TaskCommentsViewSet.

(** [TaskAssignedOrReviewerViewSet]: the tasks the caller is assigned to, or
    reviews. *)
Module TaskAssignedOrReviewerViewSet.

Inductive Mode := assigned | reviewer.

(** The model's [ordering = ['-id']] applies to the queryset. *)
Definition get_queryset (db : Store) (mode : option Mode) (u : nat)
  : list Task.t :=
  match mode with
  | Some assigned =>
      order_tasks_by_id_desc (filter (λ t, Task.assignee t = Some u) (tasks db))
  | Some reviewer =>
      order_tasks_by_id_desc (filter (λ t, Task.reviewer t = Some u) (tasks db))
  | None => []
  end.

End TaskAssignedOrReviewerViewSet.

(** *** [tasks_app/admin.py] *)

(** [obj.content[:50] + '...' if len(obj.content) > 50 else obj.content]:
    [len] and the slice count characters, as [String.length] and
    [String.substring] do. *)
Module TaskCommentAdmin.
Definition content_preview (obj : Comment.t) : string :=
  if (50 <? String.length (Comment.content obj))%nat
  then String.substring 0 50 (Comment.content obj) +:+ "..."
  else Comment.content obj.
End TaskCommentAdmin.

End tasks_app.

Module boards_app.

(** *** [boards_app/api/permissions.py] *)

Definition IsBoardMemberOrOwner : Permission Store Board.t :=
  {| message := default_message;
     has_object_permission := λ _ request obj,
       Ok (user_is request (Board.owner obj)
           || user_in request (Board.members obj));
     has_permission := λ _ request, Ok (is_authenticated request) |}.

Definition IsBoardOwner : Permission Store Board.t :=
  {| message := "Only the board owner can perform this action.";
     has_permission := λ _ _, Ok true;
     has_object_permission := λ _ request obj,
       Ok (user_is request (Board.owner obj)) |}.

(** *** [boards_app/api/serializers.py] *)

(** The request body of the board endpoints. *)
Record BoardData := {
  title : option string;
  members : option (list nat)
}.

Module BoardListSerializer.
Record data := {
  id : nat;
  title : string;
  member_count : nat;
  ticket_count : nat;
  tasks_to_do_count : nat;
  tasks_high_prio_count : nat;
  owner_id : nat
}.

Definition get_member_count (obj : Board.t) : nat := size (Board.members obj).

Definition get_ticket_count (db : Store) (obj : Board.t) : nat :=
  length (board_tasks db (Board.id obj)).

Definition get_tasks_to_do_count (db : Store) (obj : Board.t) : nat :=
  length (filter (λ t, Task.status t = "to-do") (board_tasks db (Board.id obj))).

Definition get_tasks_high_prio_count (db : Store) (obj : Board.t) : nat :=
  length (filter (λ t, Task.priority t = "high") (board_tasks db (Board.id obj))).

Definition to_representation (db : Store) (obj : Board.t) : data :=
  {| id := Board.id obj;
     title := Board.title obj;
     member_count := get_member_count obj;
     ticket_count := get_ticket_count db obj;
     tasks_to_do_count := get_tasks_to_do_count db obj;
     tasks_high_prio_count := get_tasks_high_prio_count db obj;
     owner_id := Board.owner obj |}.
End BoardListSerializer.

Module BoardCreateSerializer.
(** [title] comes from the model ([max_length=200]); [members] is a
    required list of integers. *)
Definition is_valid (d : BoardData) : Result (string * list nat) :=
  let f_title := CharField true false (Some 200) None false (title d) in
  let errors :=
    (field_errors "title" f_title ++
     match members d with
     | None => [("members", "This field is required.")]
     | Some _ => []
     end)%list in
  match field_value f_title, members d, errors with
  | Some t, Some ms, [] => Ok (t, ms)
  | _, _, _ => Raise (ValidationError errors)
  end.

Definition create (db : Store) (owner : nat) (validated : string * list nat)
  : Board.t * Store :=
  let users := users_with_id_in db validated.2 in
  let board :=
    {| Board.id := board_seq db; Board.title := validated.1;
       Board.owner := owner; Board.members := users |} in
  (board, set_boards db (boards db ++ [board])%list (S (board_seq db))).
End BoardCreateSerializer.

Module BoardUpdateSerializer.
(** The message names the ids that are not found.  The code joins a
    Python set, whose order of iteration is not fixed; the ids are listed
    here in the order of the request, and no statement depends on it. *)
Definition validate_members (db : Store) (value : list nat)
  : Field (list nat) :=
  let found := users_with_id_in db value in
  let ids := filter (λ k, k ∉ found) (remove_dups value) in
  match ids with
  | [] => Value value
  | _ =>
      Invalid ["Users with IDs " +:+ String.concat ", " (pretty <$> ids)
               +:+ " do not exist."]
  end.

(** Both fields are declared optional. *)
Definition is_valid (db : Store) (partial : bool) (d : BoardData)
  : Result (option string * option (list nat)) :=
  let f_title := CharField false false None None partial (title d) in
  let f_members :=
    with_validate
      (match members d with Some ms => Value ms | None => Skip end)
      (validate_members db) in
  match (field_errors "title" f_title
         ++ field_errors "members" f_members)%list with
  | [] => Ok (field_value f_title, field_value f_members)
  | errors => Raise (ValidationError errors)
  end.

Definition update (db : Store) (instance : Board.t)
    (validated : option string * option (list nat)) : Board.t * Store :=
  let instance1 :=
    match validated.1 with
    | Some t =>
        {| Board.id := Board.id instance; Board.title := t;
           Board.owner := Board.owner instance;
           Board.members := Board.members instance |}
    | None => instance
    end in
  let instance2 :=
    match validated.2 with
    | Some ms =>
        {| Board.id := Board.id instance1; Board.title := Board.title instance1;
           Board.owner := Board.owner instance1;
           Board.members := users_with_id_in db ms |}
    | None => instance1
    end in
  (instance2,
   set_boards db
     ((λ b, if bool_decide (Board.id b = Board.id instance) then instance2
            else b) <$> boards db)
     (board_seq db)).
End BoardUpdateSerializer.

(** A user as the board endpoints show it; the full name is read from the
    user's profile. *)
Module UserSerializer.
Record data := {
  id : nat;
  fullname : string;
  email : string
}.

Definition get_fullname (obj : User.t) : Result string :=
  match User.fullname obj with
  | Some full_name => Ok full_name
  | None => Raise (Uncaught "RelatedObjectDoesNotExist")
  end.

Definition to_representation (obj : User.t) : Result data :=
  full_name ← get_fullname obj;
  Ok {| id := User.id obj; fullname := full_name; email := User.email obj |}.
End UserSerializer.

(** [obj.members.all()]: the users the membership rows point at. *)
Definition board_members (db : Store) (obj : Board.t) : list User.t :=
  filter (λ u, User.id u ∈ Board.members obj) (users db).

(** The detail payload: the fields of [Meta.fields] in their order, the
    members and then the tasks being serialized row by row. *)
Module BoardDetailSerializer.
Record data := {
  id : nat;
  title : string;
  owner_id : nat;
  members : list UserSerializer.data;
  tasks : list tasks_app.TaskSerializer.data.t
}.

(** The tasks of the board in the model's order, serialized without a
    request in the context. *)
Definition get_tasks (db : Store) (obj : Board.t)
  : Result (list tasks_app.TaskSerializer.data.t) :=
  let tasks := order_tasks_by_id_desc (board_tasks db (Board.id obj)) in
  many (tasks_app.TaskSerializer.to_representation db None) tasks.

Definition to_representation (db : Store) (obj : Board.t) : Result data :=
  shown_members ← many UserSerializer.to_representation (board_members db obj);
  shown_tasks ← get_tasks db obj;
  Ok {| id := Board.id obj; title := Board.title obj;
        owner_id := Board.owner obj; members := shown_members;
        tasks := shown_tasks |}.
End BoardDetailSerializer.

(** The payload of an update: the board with its owner and its members. *)
Module BoardUpdatedSerializer.
Record data := {
  id : nat;
  title : string;
  owner_data : UserSerializer.data;
  members_data : list UserSerializer.data
}.

Definition to_representation (db : Store) (obj : Board.t) : Result data :=
  shown_owner ←
    match get_user db (Board.owner obj) with
    | Some owner => UserSerializer.to_representation owner
    | None => Raise (Uncaught "DoesNotExist")
    end;
  shown_members ← many UserSerializer.to_representation (board_members db obj);
  Ok {| id := Board.id obj; title := Board.title obj;
        owner_data := shown_owner; members_data := shown_members |}.
End BoardUpdatedSerializer.

(** *** [boards_app/api/views.py] *)

Module BoardViewSet.

Definition permission_classes : list (Permission Store Board.t) :=
  [IsAuthenticated; IsBoardMemberOrOwner].

(** The model's [ordering = ['-id']] applies to every queryset. *)
Definition get_queryset (db : Store) (request : Request)
  : Result (list Board.t) :=
  let queryset := boards db in
  if bool_decide (action request ∈ [retrieve; update; partial_update; destroy])
  then Ok (order_by_id_desc queryset)
  else
    match user request with
    | Some u =>
        Ok (order_by_id_desc (distinct (filter_owner_or_member u queryset)))
    | None => Raise (Uncaught "TypeError")
    end.

Definition get_object (db : Store) (request : Request) (pk : nat)
  : Result Board.t :=
  queryset ← get_queryset db request;
  Drf.get_object permission_classes db request (get Board.id queryset pk).

Definition request_of (u : option nat) (a : Action) : Request :=
  {| user := u; action := a; data_board := None |}.

Definition create (db : Store) (u : option nat) (d : BoardData)
  : Response BoardListSerializer.data * Store :=
  let request := request_of u Drf.create in
  run db (
    check_permissions permission_classes db request;;
    validated ← BoardCreateSerializer.is_valid d;
    match u with
    | Some owner =>
        let '(board, db') := BoardCreateSerializer.create db owner validated in
        Ok (Success HTTP_201_CREATED
              (BoardListSerializer.to_representation db' board), db')
    | None => Raise (Uncaught "ValueError")
    end).

(** [RetrieveModelMixin.retrieve]: the payload is the data of the detail
    serializer. *)
Definition retrieve (db : Store) (u : option nat) (pk : nat)
  : Response BoardDetailSerializer.data * Store :=
  let request := request_of u Drf.retrieve in
  run db (
    check_permissions permission_classes db request;;
    instance ← get_object db request pk;
    data ← BoardDetailSerializer.to_representation db instance;
    Ok (Success HTTP_200_OK data, db)).

(** The payload is built from the saved board, after the save. *)
Definition update_with (partial : bool) (db : Store) (u : option nat)
    (pk : nat) (d : BoardData) : Response BoardUpdatedSerializer.data * Store :=
  let request :=
    request_of u (if partial then Drf.partial_update else Drf.update) in
  run db (
    check_permissions permission_classes db request;;
    instance ← get_object db request pk;
    validated ← BoardUpdateSerializer.is_valid db partial d;
    let '(board, db') := BoardUpdateSerializer.update db instance validated in
    Ok (respond_after_save HTTP_200_OK db'
          (BoardUpdatedSerializer.to_representation db' board))).

Definition update := update_with false.
Definition partial_update := update_with true.

Definition destroy (db : Store) (u : option nat) (pk : nat)
  : Response unit * Store :=
  let request := request_of u Drf.destroy in
  run db (
    check_permissions permission_classes db request;;
    board ← get_object db request pk;
    if negb (user_is request (Board.owner board))
    then Ok (Forbidden "Just Owner can Delete.", db)
    else Ok (Success HTTP_204_NO_CONTENT (), delete_board db board)).

Definition list (db : Store) (u : option nat)
  : Response (list BoardListSerializer.data) * Store :=
  let request := request_of u list_action in
  run db (
    check_permissions permission_classes db request;;
    queryset ← get_queryset db request;
    Ok (Success HTTP_200_OK
          (BoardListSerializer.to_representation db <$> queryset), db)).

End BoardViewSet.

(** [EmailCheck]: the user with a given e-mail address.  [email] is
    [request.query_params.get('email')]; the view reads the store and
    writes nothing.  Only [User.DoesNotExist] is caught. *)
Module EmailCheck.

Record data := {
  id : nat;
  email : string;
  fullname : string
}.

Definition permission_classes : list (Permission Store unit) :=
  [IsAuthenticated].

Definition get (db : Store) (u : option nat) (email : option string)
  : Response data :=
  let request := BoardViewSet.request_of u list_action in
  respond (
    check_permissions permission_classes db request;;
    match email with
    | None | Some "" =>
        Ok (BadRequest [("Error", "Email Parameter is missing")])
    | Some email =>
        match objects_get (filter_email db email) with
        | Found user =>
            match User.fullname user with
            | Some fullname =>
                Ok (Success HTTP_200_OK
                      {| id := User.id user; email := User.email user;
                         fullname := fullname |})
            | None => Raise (Uncaught "RelatedObjectDoesNotExist")
            end
        | DoesNotExist =>
            Ok (NotFoundResponse "No Profile with this email found !")
        | MultipleObjectsReturned => Raise (Uncaught "MultipleObjectsReturned")
        end
    end).

End EmailCheck.
End boards_app.

Module auth_app.

(** *** [auth_app/api/serializers.py] *)

Module RegistrationData.
Record t := {
  email : option string;
  password : option string;
  repeated_password : option string;
  fullname : option string
}.
End RegistrationData.

Module LoginData.
Record t := {
  email : option string;
  password : option string
}.
End LoginData.

(** The payload of a successful registration or login. *)
Module AuthResponse.
Record t := {
  token : string;
  fullname : string;
  email : string;
  user_id : nat
}.
End AuthResponse.

Module RegistrationSerializer.

Record validated_data := {
  password : string;
  email : option string;
  repeated_password : string;
  fullname : string
}.

Definition validate_email (db : Store) (value : string) : Field string :=
  if exists_ (filter_email db value)
  then Invalid ["Email already in use."]
  else Value value.

Definition validate_fullname `{!Externals} (db : Store) (value : string)
  : Field string :=
  let slug := slugify value in
  if exists_ (filter_username db slug)
  then Invalid ["Username already in use."]
  else Value value.

(** [initial_data] is the request body as received. *)
Definition validate_password (initial_data : RegistrationData.t)
    (value : string) : Field string :=
  let pw := value in
  let repeated_pw := RegistrationData.repeated_password initial_data in
  if bool_decide (Some pw ≠ repeated_pw)
  then Invalid ["Passwords do not match."]
  else Value value.

(** The writable fields in the order of [Meta.fields]: [password] and
    [email] come from the user model ([max_length] 128, and an optional,
    possibly blank e-mail of at most 254 characters). *)
Definition is_valid `{!Externals} (db : Store) (d : RegistrationData.t)
  : Result validated_data :=
  let f_password :=
    with_validate
      (CharField true false (Some 128) None false (RegistrationData.password d))
      (validate_password d) in
  let f_email :=
    with_validate
      (EmailField valid_email false true (Some 254) None false
         (RegistrationData.email d))
      (validate_email db) in
  let f_repeated :=
    CharField true false None None false (RegistrationData.repeated_password d) in
  let f_fullname :=
    with_validate
      (CharField true false (Some 100) None false (RegistrationData.fullname d))
      (validate_fullname db) in
  let errors :=
    (field_errors "password" f_password ++ field_errors "email" f_email
     ++ field_errors "repeated_password" f_repeated
     ++ field_errors "fullname" f_fullname)%list in
  match errors, field_value f_password, field_value f_repeated,
        field_value f_fullname with
  | [], Some pw, Some rpw, Some fn =>
      Ok {| password := pw; email := field_value f_email;
            repeated_password := rpw; fullname := fn |}
  | _, _, _, _ => Raise (ValidationError errors)
  end.

Definition save `{!Externals} (db : Store) (v : validated_data)
  : Result (User.t * Store) :=
  let pw := password v in
  let fullname := fullname v in
  let username_slug := slugify fullname in
  match email v with
  | None => Raise (Uncaught "KeyError")
  | Some email =>
      if exists_ (filter_username db username_slug)
      then Raise (Uncaught "IntegrityError")
      else
        let user :=
          {| User.id := user_seq db; User.username := username_slug;
             User.email := email; User.password := make_password pw;
             User.is_active := true; User.fullname := Some fullname |} in
        Ok (user, set_users db (users db ++ [user])%list (S (user_seq db)))
  end.

End RegistrationSerializer.

Module LoginSerializer.

Definition validate_email (db : Store) (value : string) : Field string :=
  if negb (exists_ (filter_email db value))
  then Invalid ["Invalid Email."]
  else Value value.

Definition is_valid `{!Externals} (db : Store) (d : LoginData.t)
  : Result (string * string) :=
  let f_email :=
    with_validate
      (EmailField valid_email true false None None false (LoginData.email d))
      (validate_email db) in
  let f_password :=
    CharField true false None None false (LoginData.password d) in
  let errors :=
    (field_errors "email" f_email ++ field_errors "password" f_password)%list in
  match errors, field_value f_email, field_value f_password with
  | [], Some e, Some pw => Ok (e, pw)
  | _, _, _ => Raise (ValidationError errors)
  end.

(** The serializer's [get] method. *)
Definition get `{!Externals} (db : Store) (validated : string * string)
  : Result User.t :=
  let email := validated.1 in
  let password := validated.2 in
  match objects_get (filter_email db email) with
  | Found user =>
      if negb (check_password password (User.password user))
      then Raise (ValidationError [("error", "Invalid password.")])
      else Ok user
  | DoesNotExist => Raise (Uncaught "DoesNotExist")
  | MultipleObjectsReturned => Raise (Uncaught "MultipleObjectsReturned")
  end.

End LoginSerializer.

(** *** [auth_app/api/views.py] *)

(** The token and the response payload; the profile's full name is read
    after the token exists. *)
Definition token_response `{!Externals} (status : nat) (db : Store)
    (user : User.t) : Response AuthResponse.t * Store :=
  let out :=
    get_or_create_token (generate_key (length (tokens db))) db (User.id user) in
  match User.fullname user with
  | Some full_name =>
      (Success status
         {| AuthResponse.token := Token.key out.1;
            AuthResponse.fullname := full_name;
            AuthResponse.email := User.email user;
            AuthResponse.user_id := User.id user |}, out.2)
  | None => (ServerError "RelatedObjectDoesNotExist", out.2)
  end.

Module RegistrationView.
Definition create `{!Externals} (db : Store) (d : RegistrationData.t)
  : Response AuthResponse.t * Store :=
  run db (
    v ← RegistrationSerializer.is_valid db d;
    saved ← RegistrationSerializer.save db v;
    Ok (token_response HTTP_201_CREATED saved.2 saved.1)).
End RegistrationView.

Module LoginView.
Definition post `{!Externals} (db : Store) (d : LoginData.t)
  : Response AuthResponse.t * Store :=
  run db (
    validated ← LoginSerializer.is_valid db d;
    user ← LoginSerializer.get db validated;
    Ok (token_response HTTP_200_OK db user)).
End LoginView.

End auth_app.

End Variant1.

(** ** Second variant: [src/KanMind_Backend]

    Its board model is among the sources; its user, task and comment models
    are not.  The rows hold the columns its serializers and views use: a
    task has [board], [title], [description], [status], [priority],
    [assignee], [reviewer], [due_date] and [created_by] (no attribute is
    called [task]); a comment has [task], [author], [content] and
    [created_at]; a user has [username], [email], [fullname]. *)

Module Variant2.
Import Drf Models.
#[local] Open Scope result_scope.

Module auth_app.

Module RegistrationData.
Record t := {
  email : option string;
  password : option string;
  repeated_password : option string;
  fullname : option string
}.
End RegistrationData.

Module LoginData.
Record t := {
  email : option string;
  password : option string
}.
End LoginData.

Module AuthResponse.
Record t := {
  token : string;
  fullname : option string;
  email : string;
  user_id : nat
}.
End AuthResponse.

(** *** [auth_app/api/serializers.py] *)

Module RegistrationSerializer.

Record data := {
  email : string;
  password : string;
  repeated_password : string;
  fullname : string
}.

(** Modelled from the spec: the user model of this variant is missing; the
    spec gives users a unique e-mail ("uniqueness enforced at creation"), so
    the serializer field built from the model is a required e-mail field
    with the uniqueness validator, and [fullname] a required text field. *)
Definition unique_email (db : Store) (value : string) : Field string :=
  if exists_ (filter_email db value)
  then Invalid ["user with this email already exists."]
  else Value value.

Definition validate (d : data) : Result data :=
  if bool_decide (password d ≠ repeated_password d)
  then Raise (ValidationError [("password", "Passwords do not match.")])
  else Ok d.

(** The fields in the order of [Meta.fields]; [validate] runs only when
    every field passed. *)
Definition is_valid `{!Externals} (db : Store) (d : RegistrationData.t)
  : Result data :=
  let f_email :=
    with_validate
      (EmailField valid_email true false (Some 254) None false
         (RegistrationData.email d))
      (unique_email db) in
  let f_password :=
    CharField true false None (Some 8) false (RegistrationData.password d) in
  let f_repeated :=
    CharField true false None None false (RegistrationData.repeated_password d) in
  let f_fullname :=
    CharField true false None None false (RegistrationData.fullname d) in
  let errors :=
    (field_errors "email" f_email ++ field_errors "password" f_password
     ++ field_errors "repeated_password" f_repeated
     ++ field_errors "fullname" f_fullname)%list in
  match errors, field_value f_email, field_value f_password,
        field_value f_repeated, field_value f_fullname with
  | [], Some e, Some pw, Some rpw, Some fn =>
      validate {| email := e; password := pw; repeated_password := rpw;
                  fullname := fn |}
  | _, _, _, _, _ => Raise (ValidationError errors)
  end.

(** [create_user] with the e-mail as user name, then the token. *)
Definition create `{!Externals} (db : Store) (validated_data : data)
  : Result (User.t * Store) :=
  if exists_ (filter_username db (email validated_data))
  then Raise (Uncaught "IntegrityError")
  else
    let user :=
      {| User.id := user_seq db; User.username := email validated_data;
         User.email := email validated_data;
         User.password := make_password (password validated_data);
         User.is_active := true;
         User.fullname := Some (fullname validated_data) |} in
    let db1 := set_users db (users db ++ [user])%list (S (user_seq db)) in
    let out :=
      get_or_create_token (generate_key (length (tokens db1))) db1
        (User.id user) in
    Ok (user, out.2).

End RegistrationSerializer.

(** [UserSerializer]: the columns [id], [email] and [fullname]. *)
Module UserSerializer.
Record data := {
  id : nat;
  email : string;
  fullname : option string
}.

Definition to_representation (obj : User.t) : data :=
  {| id := User.id obj; email := User.email obj;
     fullname := User.fullname obj |}.
End UserSerializer.

(** *** [auth_app/api/views.py] *)

Definition token_response `{!Externals} (status : nat) (db : Store)
    (user : User.t) : Response AuthResponse.t * Store :=
  let out :=
    get_or_create_token (generate_key (length (tokens db))) db (User.id user) in
  (Success status
     {| AuthResponse.token := Token.key out.1;
        AuthResponse.fullname := User.fullname user;
        AuthResponse.email := User.email user;
        AuthResponse.user_id := User.id user |}, out.2).

Definition registration `{!Externals} (db : Store) (d : RegistrationData.t)
  : Response AuthResponse.t * Store :=
  match RegistrationSerializer.is_valid db d with
  | Ok validated =>
      run db (
        saved ← RegistrationSerializer.create db validated;
        Ok (token_response HTTP_201_CREATED saved.2 saved.1))
  | Raise (ValidationError errors) => (BadRequest errors, db)
  | Raise e => (exception_handler e, db)
  end.

(** [LoginSerializer]: an e-mail field and a password field. *)
Definition LoginSerializer_is_valid `{!Externals} (d : LoginData.t)
  : Result (string * string) :=
  let f_email :=
    EmailField valid_email true false None None false (LoginData.email d) in
  let f_password :=
    CharField true false None None false (LoginData.password d) in
  let errors :=
    (field_errors "email" f_email ++ field_errors "password" f_password)%list in
  match errors, field_value f_email, field_value f_password with
  | [], Some e, Some pw => Ok (e, pw)
  | _, _, _ => Raise (ValidationError errors)
  end.

(** [django.contrib.auth.authenticate] with the model backend: the user of
    that name, if the password matches and the account is active. *)
Definition authenticate `{!Externals} (db : Store) (username password : string)
  : option User.t :=
  match head (filter_username db username) with
  | Some user =>
      if check_password password (User.password user) && User.is_active user
      then Some user else None
  | None => None
  end.

Definition login `{!Externals} (db : Store) (d : LoginData.t)
  : Response AuthResponse.t * Store :=
  match LoginSerializer_is_valid d with
  | Ok validated =>
      let email := validated.1 in
      let password := validated.2 in
      match objects_get (filter_email db email) with
      | DoesNotExist => (BadRequest [("error", "Invalid credentials.")], db)
      | MultipleObjectsReturned =>
          (ServerError "MultipleObjectsReturned", db)
      | Found user =>
          match authenticate db (User.username user) password with
          | Some user => token_response HTTP_200_OK db user
          | None => (BadRequest [("error", "Invalid credentials.")], db)
          end
      end
  | Raise (ValidationError errors) => (BadRequest errors, db)
  | Raise e => (exception_handler e, db)
  end.

End auth_app.

Module boards_app.

(** *** [boards_app/models.py] *)

Definition member_count (self : Board.t) : nat := size (Board.members self) + 1.

Definition ticket_count (db : Store) (self : Board.t) : nat :=
  length (board_tasks db (Board.id self)).

Definition tasks_to_do_count (db : Store) (self : Board.t) : nat :=
  length (filter (λ t, Task.status t = "to-do") (board_tasks db (Board.id self))).

Definition tasks_high_prio_count (db : Store) (self : Board.t) : nat :=
  length (filter (λ t, Task.priority t = "high") (board_tasks db (Board.id self))).

(** Modelled from the spec: the task and comment models of this variant are
    missing; the spec makes the board own its tasks and the task its comments
    ("cascade delete"), which is what [board.delete()] does here. *)
Definition board_delete (db : Store) (board : Board.t) : Store :=
  delete_board db board.

(** *** [boards_app/api/permissions.py] *)

Definition IsBoardOwnerOrMember : Permission Store Board.t :=
  {| message := default_message;
     has_permission := λ _ _, Ok true;
     has_object_permission := λ _ request obj,
       Ok (user_is request (Board.owner obj)
           || user_in request (Board.members obj)) |}.

Definition IsBoardOwner : Permission Store Board.t :=
  {| message := default_message;
     has_permission := λ _ _, Ok true;
     has_object_permission := λ _ request obj,
       Ok (user_is request (Board.owner obj)) |}.

(** *** [boards_app/api/serializers.py] *)

Record BoardData := {
  title : option string;
  members : option (list nat)
}.

Module BoardListSerializer.
Record data := {
  id : nat;
  title : string;
  member_count : nat;
  ticket_count : nat;
  tasks_to_do_count : nat;
  tasks_high_prio_count : nat;
  owner_id : nat
}.

Definition to_representation (db : Store) (obj : Board.t) : data :=
  {| id := Board.id obj;
     title := Board.title obj;
     member_count := boards_app.member_count obj;
     ticket_count := boards_app.ticket_count db obj;
     tasks_to_do_count := boards_app.tasks_to_do_count db obj;
     tasks_high_prio_count := boards_app.tasks_high_prio_count db obj;
     owner_id := Board.owner obj |}.
End BoardListSerializer.

Module BoardCreateSerializer.
Definition is_valid (d : BoardData) : Result (string * list nat) :=
  let f_title := CharField true false (Some 255) None false (title d) in
  match field_errors "title" f_title, field_value f_title with
  | [], Some t => Ok (t, default [] (members d))
  | errors, _ => Raise (ValidationError errors)
  end.

Definition create (db : Store) (owner : nat) (validated : string * list nat)
  : Board.t * Store :=
  let members_ids := validated.2 in
  let board :=
    {| Board.id := board_seq db; Board.title := validated.1;
       Board.owner := owner;
       Board.members :=
         match members_ids with
         | [] => ∅
         | _ => users_with_id_in db members_ids
         end |} in
  (board, set_boards db (boards db ++ [board])%list (S (board_seq db))).
End BoardCreateSerializer.

Module BoardUpdateSerializer.
Definition is_valid (d : BoardData) : Result (option string * option (list nat)) :=
  let f_title := CharField true false (Some 255) None true (title d) in
  match field_errors "title" f_title with
  | [] => Ok (field_value f_title, members d)
  | errors => Raise (ValidationError errors)
  end.

Definition update (db : Store) (instance : Board.t)
    (validated : option string * option (list nat)) : Board.t * Store :=
  let instance1 :=
    match validated.1 with
    | Some t =>
        {| Board.id := Board.id instance; Board.title := t;
           Board.owner := Board.owner instance;
           Board.members := Board.members instance |}
    | None => instance
    end in
  let instance2 :=
    match validated.2 with
    | Some members_ids =>
        {| Board.id := Board.id instance1; Board.title := Board.title instance1;
           Board.owner := Board.owner instance1;
           Board.members := users_with_id_in db members_ids |}
    | None => instance1
    end in
  (instance2,
   set_boards db
     ((λ b, if bool_decide (Board.id b = Board.id instance) then instance2
            else b) <$> boards db)
     (board_seq db)).
End BoardUpdateSerializer.

(** *** [boards_app/api/views.py] *)

Module BoardViewSet.

(** No ordering is asked for: the rows come in the order of the table. *)
Definition get_queryset (db : Store) (request : Request)
  : Result (list Board.t) :=
  match user request with
  | Some user => Ok (distinct (filter_owner_or_member user (boards db)))
  | None => Raise (Uncaught "TypeError")
  end.

Definition get_permissions (a : Action) : list (Permission Store Board.t) :=
  if bool_decide (a = destroy) then [IsAuthenticated; IsBoardOwner]
  else if bool_decide (a ∈ [update; partial_update; retrieve])
  then [IsAuthenticated; IsBoardOwnerOrMember]
  else [IsAuthenticated].

Definition get_object (db : Store) (request : Request) (pk : nat)
  : Result Board.t :=
  queryset ← get_queryset db request;
  Drf.get_object (get_permissions (action request)) db request
    (get Board.id queryset pk).

Definition request_of (u : option nat) (a : Action) : Request :=
  {| user := u; action := a; data_board := None |}.

Definition retrieve (db : Store) (u : option nat) (pk : nat)
  : Response (Board.t * list Task.t) * Store :=
  let request := request_of u Drf.retrieve in
  run db (
    check_permissions (get_permissions Drf.retrieve) db request;;
    board ← get_object db request pk;
    Ok (Success HTTP_200_OK (board, board_tasks db (Board.id board)), db)).

Definition create (db : Store) (u : option nat) (d : BoardData)
  : Response BoardListSerializer.data * Store :=
  let request := request_of u Drf.create in
  run db (
    check_permissions (get_permissions Drf.create) db request;;
    match BoardCreateSerializer.is_valid d with
    | Ok validated =>
        match u with
        | Some owner =>
            let out := BoardCreateSerializer.create db owner validated in
            Ok (Success HTTP_201_CREATED
                  (BoardListSerializer.to_representation out.2 out.1), out.2)
        | None => Raise (Uncaught "ValueError")
        end
    | Raise (ValidationError errors) => Ok (BadRequest errors, db)
    | Raise e => Raise e
    end).

(** [update] always validates partially; [partial_update] calls it. *)
Definition update_as (a : Action) (db : Store) (u : option nat) (pk : nat)
    (d : BoardData) : Response Board.t * Store :=
  let request := request_of u a in
  run db (
    check_permissions (get_permissions a) db request;;
    board ← get_object db request pk;
    match BoardUpdateSerializer.is_valid d with
    | Ok validated =>
        let out := BoardUpdateSerializer.update db board validated in
        Ok (Success HTTP_200_OK out.1, out.2)
    | Raise (ValidationError errors) => Ok (BadRequest errors, db)
    | Raise e => Raise e
    end).

Definition update := update_as Drf.update.
Definition partial_update := update_as Drf.partial_update.

Definition destroy (db : Store) (u : option nat) (pk : nat)
  : Response unit * Store :=
  let request := request_of u Drf.destroy in
  run db (
    check_permissions (get_permissions Drf.destroy) db request;;
    board ← get_object db request pk;
    Ok (Success HTTP_204_NO_CONTENT (), board_delete db board)).

Definition list (db : Store) (u : option nat)
  : Response (list BoardListSerializer.data) * Store :=
  let request := request_of u list_action in
  run db (
    check_permissions (get_permissions list_action) db request;;
    queryset ← get_queryset db request;
    Ok (Success HTTP_200_OK
          (BoardListSerializer.to_representation db <$> queryset), db)).

End BoardViewSet.

(** [email_check]: [email] is [request.query_params.get('email', None)].
    Any exception but [User.DoesNotExist] is answered with a 500 that
    carries the text of the exception. *)
Definition email_check (db : Store) (u : option nat) (email : option string)
  : Response auth_app.UserSerializer.data :=
  let request := BoardViewSet.request_of u list_action in
  respond (
    check_permissions [IsAuthenticated (O := unit)] db request;;
    match email with
    | None | Some "" =>
        Ok (BadRequest [("error", "Email parameter is required.")])
    | Some email =>
        match objects_get (filter_email db email) with
        | Found user =>
            Ok (Success HTTP_200_OK
                  (auth_app.UserSerializer.to_representation user))
        | DoesNotExist => Ok (NotFoundResponse "Email not found.")
        | MultipleObjectsReturned => Ok (ServerError "MultipleObjectsReturned")
        end
    end).

End boards_app.

Module tasks_app.

(** The objects the permission classes of this module are handed: the task
    view set hands them tasks, the comment view set comments.  Reading an
    attribute the object does not have raises [AttributeError]. *)
Inductive Obj :=
| TaskObj (t : Task.t)
| CommentObj (c : Comment.t).

Definition obj_task (db : Store) (obj : Obj) : Result Task.t :=
  match obj with
  | CommentObj c => comment_task db c
  | TaskObj _ => Raise (Uncaught "AttributeError")
  end.

Definition obj_board (db : Store) (obj : Obj) : Result Board.t :=
  match obj with
  | TaskObj t => task_board db t
  | CommentObj _ => Raise (Uncaught "AttributeError")
  end.

Definition obj_created_by (obj : Obj) : Result (option nat) :=
  match obj with
  | TaskObj t => Ok (Task.created_by t)
  | CommentObj _ => Raise (Uncaught "AttributeError")
  end.

Definition obj_author (obj : Obj) : Result nat :=
  match obj with
  | CommentObj c => Ok (Comment.author c)
  | TaskObj _ => Raise (Uncaught "AttributeError")
  end.

(** *** [tasks_app/api/permissions.py] *)

Definition IsBoardMember : Permission Store Obj :=
  {| message := default_message;
     has_permission := λ db request,
       if bool_decide (method request = POST) then
         match data_board request with
         | None | Some 0 => Ok true
         | Some board_id =>
             match get_board db board_id with
             | Some board =>
                 Ok (user_is request (Board.owner board)
                     || user_in request (Board.members board))
             | None => Ok false
             end
         end
       else Ok true;
     has_object_permission := λ db request obj,
       task ← obj_task db obj;
       board ← task_board db task;
       Ok (user_is request (Board.owner board)
           || user_in request (Board.members board)) |}.

Definition IsTaskCreatorOrBoardOwner : Permission Store Obj :=
  {| message := default_message;
     has_permission := λ _ _, Ok true;
     has_object_permission := λ db request obj,
       if bool_decide (method request = DELETE) then
         created_by ← obj_created_by obj;
         if match created_by with
            | Some c => user_is request c
            | None => false
            end
         then Ok true
         else
           board ← obj_board db obj;
           Ok (user_is request (Board.owner board))
       else Ok true |}.

Definition IsCommentAuthor : Permission Store Obj :=
  {| message := default_message;
     has_permission := λ _ _, Ok true;
     has_object_permission := λ _ request obj,
       if bool_decide (method request = DELETE) then
         author ← obj_author obj;
         Ok (user_is request author)
       else Ok true |}.

(** *** [tasks_app/api/serializers.py] *)

Module TaskData.
Record t := {
  board : option nat;
  title : option string;
  description : option string;
  status : option string;
  priority : option string;
  assignee_id : option (option nat);
  reviewer_id : option (option nat);
  due_date : option (option string)
}.
End TaskData.

(** Modelled from the spec: the task model of this variant is missing, and
    with it the constraints of the fields built from it.  The spec gives a
    task a title, an optional description, a status among to-do,
    in-progress, review and done (default to-do), a priority among low,
    medium and high (default medium) and an optional due date. *)
Module TaskFields.
Record t := {
  title : option string;
  description : option string;
  status : option string;
  priority : option string;
  due_date : option (option string)
}.

Definition choices_status : list string :=
  ["to-do"; "in-progress"; "review"; "done"].
Definition choices_priority : list string := ["low"; "medium"; "high"].

Definition DateField `{!Externals} (input : option (option string))
  : Field (option string) :=
  match input with
  | None => Skip
  | Some None => Value None
  | Some (Some s) =>
      match parse_date s with
      | Some d => Value (Some d)
      | None => Invalid ["Date has wrong format."]
      end
  end.

Definition run_fields `{!Externals} (partial : bool) (d : TaskData.t)
  : list (string * string) * t :=
  let f_title := CharField true false None None partial (TaskData.title d) in
  let f_description :=
    CharField false true None None partial (TaskData.description d) in
  let f_status := ChoiceField choices_status (TaskData.status d) in
  let f_priority := ChoiceField choices_priority (TaskData.priority d) in
  let f_due_date := DateField (TaskData.due_date d) in
  ((field_errors "title" f_title ++ field_errors "description" f_description
    ++ field_errors "status" f_status ++ field_errors "priority" f_priority
    ++ field_errors "due_date" f_due_date)%list,
   {| title := field_value f_title;
      description := field_value f_description;
      status := field_value f_status;
      priority := field_value f_priority;
      due_date := field_value f_due_date |}).
End TaskFields.

(** An integer field that may be absent or null. *)
Definition IntegerField (input : option (option nat)) : option (option nat) :=
  input.

(** The check both task serializers run on [assignee_id] and
    [reviewer_id]: the user must exist and be the board's owner or one of
    its members. *)
Definition validate_role (db : Store) (board : Board.t) (key role : string)
    (user_id : nat) : Result unit :=
  match get_user db user_id with
  | Some user =>
      if negb (bool_decide (User.id user = Board.owner board))
         && negb (bool_decide (User.id user ∈ Board.members board))
      then Raise (ValidationError
                    [(key, role +:+ " must be a member of the board.")])
      else Ok ()
  | None => Raise (ValidationError [(key, "User does not exist.")])
  end.

Module TaskCreateSerializer.

Record data := {
  board : option Board.t;
  fields : TaskFields.t;
  assignee_id : option (option nat);
  reviewer_id : option (option nat)
}.

Definition validate (db : Store) (d : data) : Result data :=
  let board_id := board d in
  let assignee_id := mjoin (assignee_id d) in
  let reviewer_id := mjoin (reviewer_id d) in
  match board_id with
  | Some board_id =>
      match get_board db (Board.id board_id) with
      | Some board =>
          match assignee_id with
          | None | Some 0 => Ok ()
          | Some a => validate_role db board "assignee_id" "Assignee" a
          end;;
          match reviewer_id with
          | None | Some 0 => Ok ()
          | Some r => validate_role db board "reviewer_id" "Reviewer" r
          end;;
          Ok d
      | None => Raise (ValidationError [("board", "Board does not exist.")])
      end
  | None => Ok d
  end.

Definition is_valid `{!Externals} (db : Store) (d : TaskData.t)
  : Result data :=
  let f_board :=
    PrimaryKeyRelatedField (get_board db) true false false
      (Some <$> TaskData.board d) in
  let scalar := TaskFields.run_fields false d in
  match (field_errors "board" f_board ++ scalar.1)%list with
  | [] =>
      validate db
        {| board := mjoin (field_value f_board); fields := scalar.2;
           assignee_id := IntegerField (TaskData.assignee_id d);
           reviewer_id := IntegerField (TaskData.reviewer_id d) |}
  | errors => Raise (ValidationError errors)
  end.

(** The insert fails when a foreign key points at no row. *)
Definition create (db : Store) (user : nat) (validated_data : data)
  : Result (Task.t * Store) :=
  let assignee_id := mjoin (assignee_id validated_data) in
  let reviewer_id := mjoin (reviewer_id validated_data) in
  let known (k : option nat) :=
    match k with
    | Some k => bool_decide (is_Some (get_user db k))
    | None => true
    end in
  match board validated_data, TaskFields.title (fields validated_data) with
  | Some b, Some t =>
      if known assignee_id && known reviewer_id then
        let f := fields validated_data in
        let task :=
          {| Task.id := task_seq db; Task.board := Board.id b; Task.title := t;
             Task.description := default "" (TaskFields.description f);
             Task.status := default "to-do" (TaskFields.status f);
             Task.priority := default "medium" (TaskFields.priority f);
             Task.assignee := assignee_id;
             Task.reviewer := reviewer_id;
             Task.due_date := mjoin (TaskFields.due_date f);
             Task.created_by := Some user |} in
        Ok (task, set_tasks db (tasks db ++ [task])%list (S (task_seq db)))
      else Raise (Uncaught "IntegrityError")
  | _, _ => Raise (Uncaught "IntegrityError")
  end.

End TaskCreateSerializer.

Module TaskUpdateSerializer.

(** [Meta.fields] has no [board]: a board sent with an update is not
    read. *)
Record data := {
  fields : TaskFields.t;
  assignee_id : option (option nat);
  reviewer_id : option (option nat)
}.

Definition validate (db : Store) (instance : option Task.t) (d : data)
  : Result data :=
  match instance with
  | Some instance =>
      board ← task_board db instance;
      match mjoin (assignee_id d) with
      | Some a => validate_role db board "assignee_id" "Assignee" a
      | None => Ok ()
      end;;
      match mjoin (reviewer_id d) with
      | Some r => validate_role db board "reviewer_id" "Reviewer" r
      | None => Ok ()
      end;;
      Ok d
  | None => Ok d
  end.

Definition is_valid `{!Externals} (db : Store) (instance : option Task.t)
    (d : TaskData.t) : Result data :=
  let scalar := TaskFields.run_fields true d in
  match scalar.1 with
  | [] =>
      validate db instance
        {| fields := scalar.2;
           assignee_id := IntegerField (TaskData.assignee_id d);
           reviewer_id := IntegerField (TaskData.reviewer_id d) |}
  | errors => Raise (ValidationError errors)
  end.

Definition update (db : Store) (instance : Task.t) (validated_data : data)
  : Task.t * Store :=
  let assignee_id := mjoin (assignee_id validated_data) in
  let reviewer_id := mjoin (reviewer_id validated_data) in
  let f := fields validated_data in
  let task :=
    {| Task.id := Task.id instance;
       Task.board := Task.board instance;
       Task.title := default (Task.title instance) (TaskFields.title f);
       Task.description :=
         default (Task.description instance) (TaskFields.description f);
       Task.status := default (Task.status instance) (TaskFields.status f);
       Task.priority := default (Task.priority instance) (TaskFields.priority f);
       Task.assignee :=
         match assignee_id with
         | Some a => Some a
         | None => Task.assignee instance
         end;
       Task.reviewer :=
         match reviewer_id with
         | Some r => Some r
         | None => Task.reviewer instance
         end;
       Task.due_date :=
         default (Task.due_date instance) (TaskFields.due_date f);
       Task.created_by := Task.created_by instance |} in
  (task,
   set_tasks db
     ((λ t, if bool_decide (Task.id t = Task.id instance) then task else t)
        <$> tasks db)
     (task_seq db)).

End TaskUpdateSerializer.

Module CommentSerializer.
(** Modelled from the spec: the comment model of this variant is missing;
    the spec wants the content "non-empty after trimming". *)
Definition is_valid (content : option string) : Result string :=
  let f_content := CharField true false None None false content in
  match field_errors "content" f_content, field_value f_content with
  | [], Some c => Ok c
  | errors, _ => Raise (ValidationError errors)
  end.

Definition create (db : Store) (task : Task.t) (author : nat) (content : string)
  : Comment.t * Store :=
  let comment :=
    {| Comment.id := comment_seq db; Comment.task := Task.id task;
       Comment.author := author; Comment.content := content;
       Comment.created_at := clock db |} in
  (comment,
   set_comments db (comments db ++ [comment])%list (S (comment_seq db))
     (S (clock db))).
End CommentSerializer.

(** *** [tasks_app/api/views.py] *)

Module TaskViewSet.

Definition get_permissions (a : Action) : list (Permission Store Obj) :=
  if bool_decide (a = destroy)
  then [IsAuthenticated; IsBoardMember; IsTaskCreatorOrBoardOwner]
  else if bool_decide (a = create) then [IsAuthenticated; IsBoardMember]
  else [IsAuthenticated; IsBoardMember].

Definition get_object (db : Store) (request : Request) (pk : nat)
  : Result Task.t :=
  task ← get_object_or_404 (get_task db pk);
  check_object_permissions (get_permissions (action request)) db request
    (TaskObj task);;
  Ok task.

Definition request_of (u : option nat) (a : Action) (board : option nat)
  : Request :=
  {| user := u; action := a; data_board := board |}.

Definition create `{!Externals} (db : Store) (u : option nat) (d : TaskData.t)
  : Response Task.t * Store :=
  let request := request_of u Drf.create (TaskData.board d) in
  run db (
    check_permissions (get_permissions Drf.create) db request;;
    match TaskCreateSerializer.is_valid db d with
    | Ok validated =>
        match u with
        | Some user =>
            out ← TaskCreateSerializer.create db user validated;
            Ok (Success HTTP_201_CREATED out.1, out.2)
        | None => Raise (Uncaught "ValueError")
        end
    | Raise (ValidationError errors) => Ok (BadRequest errors, db)
    | Raise e => Raise e
    end).

Definition update_as `{!Externals} (a : Action) (db : Store) (u : option nat)
    (pk : nat) (d : TaskData.t) : Response Task.t * Store :=
  let request := request_of u a (TaskData.board d) in
  run db (
    check_permissions (get_permissions a) db request;;
    task ← get_object db request pk;
    match TaskUpdateSerializer.is_valid db (Some task) d with
    | Ok validated =>
        let out := TaskUpdateSerializer.update db task validated in
        Ok (Success HTTP_200_OK out.1, out.2)
    | Raise (ValidationError errors) => Ok (BadRequest errors, db)
    | Raise e => Raise e
    end).

Definition update `{!Externals} := update_as Drf.update.
Definition partial_update `{!Externals} := update_as Drf.partial_update.

Definition destroy (db : Store) (u : option nat) (pk : nat)
  : Response unit * Store :=
  let request := request_of u Drf.destroy None in
  run db (
    check_permissions (get_permissions Drf.destroy) db request;;
    task ← get_object db request pk;
    Ok (Success HTTP_204_NO_CONTENT (), delete_task db task)).

Definition assigned_to_me (db : Store) (u : nat) : list Task.t :=
  filter (λ t, Task.assignee t = Some u) (tasks db).

Definition reviewing (db : Store) (u : nat) : list Task.t :=
  filter (λ t, Task.reviewer t = Some u) (tasks db).

End TaskViewSet.

Module CommentViewSet.

Definition get_queryset (db : Store) (task_pk : nat) : list Comment.t :=
  order_by_created_at (task_comments db task_pk).

Definition get_permissions (a : Action) : list (Permission Store Obj) :=
  if bool_decide (a = destroy)
  then [IsAuthenticated; IsBoardMember; IsCommentAuthor]
  else [IsAuthenticated; IsBoardMember].

Definition get_object (db : Store) (request : Request) (task_pk pk : nat)
  : Result Comment.t :=
  comment ← get_object_or_404 (get Comment.id (get_queryset db task_pk) pk);
  check_object_permissions (get_permissions (action request)) db request
    (CommentObj comment);;
  Ok comment.

(** A comment request may carry any body; [board] is the value of its
    [board] key, if it has one. *)
Definition request_of (u : option nat) (a : Action) (board : option nat)
  : Request :=
  {| user := u; action := a; data_board := board |}.

Definition create (db : Store) (u : option nat) (task_pk : nat)
    (board : option nat) (content : option string)
  : Response Comment.t * Store :=
  let request := request_of u Drf.create board in
  run db (
    check_permissions (get_permissions Drf.create) db request;;
    match get_task db task_pk with
    | None => Ok (NotFoundResponse "Task not found.", db)
    | Some task =>
        match CommentSerializer.is_valid content with
        | Ok validated =>
            match u with
            | Some author =>
                let out := CommentSerializer.create db task author validated in
                Ok (Success HTTP_201_CREATED out.1, out.2)
            | None => Raise (Uncaught "ValueError")
            end
        | Raise (ValidationError errors) => Ok (BadRequest errors, db)
        | Raise e => Raise e
        end
    end).

Definition destroy (db : Store) (u : option nat) (task_pk pk : nat)
  : Response unit * Store :=
  let request := request_of u Drf.destroy None in
  run db (
    check_permissions (get_permissions Drf.destroy) db request;;
    comment ← get_object db request task_pk pk;
    if negb (user_is request (Comment.author comment))
    then Ok (Forbidden "You can only delete your own comments.", db)
    else Ok (Success HTTP_204_NO_CONTENT (), delete_comment db comment)).

Definition list (db : Store) (u : option nat) (task_pk : nat)
  : Response (list Comment.t) * Store :=
  let request := request_of u list_action None in
  run db (
    check_permissions (get_permissions list_action) db request;;
    match get_task db task_pk with
    | None => Ok (NotFoundResponse "Task not found.", db)
    | Some task =>
        Ok (Success HTTP_200_OK
              (order_by_created_at (task_comments db (Task.id task))), db)
    end).

End CommentViewSet.

End tasks_app.

End Variant2.

(** ** Sample data

    Stand-ins for the outside services and small stores on which the
    statements below are evaluated. *)

Module Fixtures.
Import Models.

Definition has_at (s : string) : bool :=
  match String.index 0 "@" s with
  | Some _ => true
  | None => false
  end.

Definition plain : Externals :=
  {| make_password := λ raw, raw;
     check_password := λ raw encoded, bool_decide (raw = encoded);
     generate_key := λ n, "key" +:+ pretty n;
     slugify := Drf.lower;
     valid_email := has_at;
     parse_date := λ s, Some s |}.

Definition mk_user (k : nat) (mail pw name : string) : User.t :=
  {| User.id := k; User.username := mail; User.email := mail;
     User.password := pw; User.is_active := true;
     User.fullname := Some name |}.

Definition alice : User.t := mk_user 1 "alice@kan.io" "alicepass" "Alice".
Definition bob : User.t := mk_user 2 "bob@kan.io" "bobspass1" "Bob".
Definition carol : User.t := mk_user 3 "carol@kan.io" "carolpass" "Carol".

(** Alice's board with Bob as its only member. *)
Definition sprint : Board.t :=
  {| Board.id := 1; Board.title := "Sprint 1"; Board.owner := 1;
     Board.members := {[2]} |}.

(** A second, later board of Alice, without members. *)
Definition backlog : Board.t :=
  {| Board.id := 2; Board.title := "Backlog"; Board.owner := 1;
     Board.members := ∅ |}.

(** A task on the first board, created by Alice and assigned to Bob. *)
Definition ticket : Task.t :=
  {| Task.id := 1; Task.board := 1; Task.title := "Write the spec";
     Task.description := ""; Task.status := "to-do";
     Task.priority := "medium"; Task.assignee := Some 2;
     Task.reviewer := None; Task.due_date := None;
     Task.created_by := Some 1 |}.

(** Bob's comment on that task. *)
Definition remark : Comment.t :=
  {| Comment.id := 1; Comment.task := 1; Comment.author := 2;
     Comment.content := "On it"; Comment.created_at := 0 |}.

Definition db0 : Store :=
  {| users := [alice; bob; carol]; boards := [sprint; backlog];
     tasks := [ticket]; comments := [remark]; tokens := [];
     user_seq := 4; board_seq := 3; task_seq := 2; comment_seq := 2;
     clock := 1 |}.

(** Task requests: a board, a title and possibly an assignee. *)
Definition task_data_v1 (board : option nat) (title : string)
    (assignee : option nat) : Variant1.tasks_app.TaskData.t :=
  {| Variant1.tasks_app.TaskData.board := board;
     Variant1.tasks_app.TaskData.title := Some title;
     Variant1.tasks_app.TaskData.description := None;
     Variant1.tasks_app.TaskData.status := None;
     Variant1.tasks_app.TaskData.priority := None;
     Variant1.tasks_app.TaskData.assignee_id := Some <$> assignee;
     Variant1.tasks_app.TaskData.reviewer_id := None;
     Variant1.tasks_app.TaskData.due_date := None |}.

Definition task_data_v2 (board : option nat) (title : string)
    (assignee : option nat) : Variant2.tasks_app.TaskData.t :=
  {| Variant2.tasks_app.TaskData.board := board;
     Variant2.tasks_app.TaskData.title := Some title;
     Variant2.tasks_app.TaskData.description := None;
     Variant2.tasks_app.TaskData.status := None;
     Variant2.tasks_app.TaskData.priority := None;
     Variant2.tasks_app.TaskData.assignee_id := Some <$> assignee;
     Variant2.tasks_app.TaskData.reviewer_id := None;
     Variant2.tasks_app.TaskData.due_date := None |}.

(** Board requests that only rename the board. *)
Definition rename_v1 : Variant1.boards_app.BoardData :=
  {| Variant1.boards_app.title := Some "Sprint 2";
     Variant1.boards_app.members := None |}.

Definition rename_v2 : Variant2.boards_app.BoardData :=
  {| Variant2.boards_app.title := Some "Sprint 2";
     Variant2.boards_app.members := None |}.

(** A board request that names Bob and a user who does not exist. *)
Definition invite_v1 : Variant1.boards_app.BoardData :=
  {| Variant1.boards_app.title := None;
     Variant1.boards_app.members := Some [2; 9] |}.

(** A task request that only sets the assignee to [null]. *)
Definition unassign_v1 : Variant1.tasks_app.TaskData.t :=
  {| Variant1.tasks_app.TaskData.board := None;
     Variant1.tasks_app.TaskData.title := None;
     Variant1.tasks_app.TaskData.description := None;
     Variant1.tasks_app.TaskData.status := None;
     Variant1.tasks_app.TaskData.priority := None;
     Variant1.tasks_app.TaskData.assignee_id := Some None;
     Variant1.tasks_app.TaskData.reviewer_id := None;
     Variant1.tasks_app.TaskData.due_date := None |}.

(** Dave signs up. *)
Definition dave_v1 : Variant1.auth_app.RegistrationData.t :=
  {| Variant1.auth_app.RegistrationData.email := Some "dave@kan.io";
     Variant1.auth_app.RegistrationData.password := Some "davepass1";
     Variant1.auth_app.RegistrationData.repeated_password := Some "davepass1";
     Variant1.auth_app.RegistrationData.fullname := Some "Dave" |}.

Definition dave_v2 : Variant2.auth_app.RegistrationData.t :=
  {| Variant2.auth_app.RegistrationData.email := Some "dave@kan.io";
     Variant2.auth_app.RegistrationData.password := Some "davepass1";
     Variant2.auth_app.RegistrationData.repeated_password := Some "davepass1";
     Variant2.auth_app.RegistrationData.fullname := Some "Dave" |}.

End Fixtures.

(** ** Vocabulary of the statements *)

Module Spec.
Import Drf.

(** The caller is the board's owner or one of its members. *)
Definition may_access (u : nat) (b : Board.t) : Prop :=
  Board.owner b = u ∨ u ∈ Board.members b.

(** The response turns the caller away: 401, 403 or 404. *)
Definition turned_away {A : Type} (r : Response A) : bool :=
  match r with
  | Unauthorized | Forbidden _ | NotFoundResponse _ => true
  | _ => false
  end.

(** A task request of the second variant with its [board] key replaced. *)
Definition with_board (board : option nat) (d : Variant2.tasks_app.TaskData.t)
  : Variant2.tasks_app.TaskData.t :=
  {| Variant2.tasks_app.TaskData.board := board;
     Variant2.tasks_app.TaskData.title := Variant2.tasks_app.TaskData.title d;
     Variant2.tasks_app.TaskData.description :=
       Variant2.tasks_app.TaskData.description d;
     Variant2.tasks_app.TaskData.status := Variant2.tasks_app.TaskData.status d;
     Variant2.tasks_app.TaskData.priority :=
       Variant2.tasks_app.TaskData.priority d;
     Variant2.tasks_app.TaskData.assignee_id :=
       Variant2.tasks_app.TaskData.assignee_id d;
     Variant2.tasks_app.TaskData.reviewer_id :=
       Variant2.tasks_app.TaskData.reviewer_id d;
     Variant2.tasks_app.TaskData.due_date :=
       Variant2.tasks_app.TaskData.due_date d |}.

(** The user with this id exists and has a profile, that is a full name. *)
Definition has_profile (db : Models.Store) (k : nat) : Prop :=
  ∃ usr name, Models.get_user db k = Some usr ∧ User.fullname usr = Some name.

(** The assignee and the reviewer of the task, where set, have profiles:
    the first variant can serialize the task. *)
Definition task_shown (db : Models.Store) (t : Task.t) : Prop :=
  (∀ k, Task.assignee t = Some k → has_profile db k)
  ∧ (∀ k, Task.reviewer t = Some k → has_profile db k).

(** The members of the board have profiles. *)
Definition members_shown (db : Models.Store) (b : Board.t) : Prop :=
  ∀ usr, usr ∈ Models.users db → User.id usr ∈ Board.members b →
    is_Some (User.fullname usr).

(** The first variant can serialize the detail of the board: its members
    and its tasks can be shown. *)
Definition detail_shown (db : Models.Store) (b : Board.t) : Prop :=
  members_shown db b
  ∧ ∀ t, t ∈ Models.tasks db → Task.board t = Board.id b → task_shown db t.

(** A request that did not succeed left the store as it was. *)
Definition fail_closed {A : Type} (db : Models.Store)
    (r : Response A * Models.Store) : Prop :=
  is_success r.1 = true ∨ r.2 = db.

(** Foreign keys point at rows: every task is on a board of the table,
    every comment on a task of the table. *)
Definition refs_ok (db : Models.Store) : Prop :=
  Forall (λ t, is_Some (Models.get_board db (Task.board t))) (Models.tasks db)
  ∧ Forall (λ c, is_Some (Models.get_task db (Comment.task c)))
      (Models.comments db).

(** A request that was answered with a client error (a status from 400 to
    499) left the store as it was. *)
Definition refused {A : Type} (r : Response A) : bool :=
  match r with
  | BadRequest _ | Unauthorized | Forbidden _ | NotFoundResponse _ => true
  | _ => false
  end.

Definition refusal_closed {A : Type} (db : Models.Store)
    (r : Response A * Models.Store) : Prop :=
  refused r.1 = true → r.2 = db.

(** Every comment was created before now. *)
Definition comments_in_past (db : Models.Store) : Prop :=
  Forall (λ c, Comment.created_at c < Models.clock db) (Models.comments db).

End Spec.

(** * Properties *)

Import Drf Models Spec.

(** ** Facts about lookups *)

Section get_facts.
Context {A : Type} (pk : A → nat).

Lemma get_Some_inv (rows : list A) (k : nat) (r : A) :
  get pk rows k = Some r → r ∈ rows ∧ pk r = k.
Proof.
  unfold get. intros H. apply head_Some_elem_of in H.
  apply list_elem_of_filter in H. tauto.
Qed.

Lemma get_None_inv (rows : list A) (k : nat) :
  get pk rows k = None → ∀ r, r ∈ rows → pk r ≠ k.
Proof.
  unfold get. intros H r Hr Hk. apply head_None in H.
  assert (r ∈ filter (λ r, pk r = k) rows) as Hin
    by (apply list_elem_of_filter; done).
  rewrite H in Hin. by apply elem_of_nil in Hin.
Qed.

Lemma get_unique (rows : list A) (k : nat) (b : A) :
  b ∈ rows → pk b = k → (∀ x, x ∈ rows → pk x = k → x = b) →
  get pk rows k = Some b.
Proof.
  intros Hin Hk Huniq. unfold get.
  destruct (filter (λ r, pk r = k) rows) as [|x l] eqn:E.
  - assert (b ∈ filter (λ r, pk r = k) rows) as Hb
      by (apply list_elem_of_filter; done).
    rewrite E in Hb. by apply elem_of_nil in Hb.
  - assert (x ∈ filter (λ r, pk r = k) rows) as Hx by (rewrite E; left).
    apply list_elem_of_filter in Hx as [Hxk Hxin].
    simpl. f_equal. by apply Huniq.
Qed.

Lemma NoDup_pk_inj (rows : list A) (x y : A) :
  NoDup (pk <$> rows) → x ∈ rows → y ∈ rows → pk x = pk y → x = y.
Proof.
  induction rows as [|r rows IH]; simpl; intros Hnd Hx Hy Heq.
  - by apply elem_of_nil in Hx.
  - apply NoDup_cons in Hnd as [Hnotin Hnd].
    apply elem_of_cons in Hx as [->|Hx]; apply elem_of_cons in Hy as [->|Hy].
    + done.
    + exfalso. apply Hnotin. rewrite Heq. by apply list_elem_of_fmap_2.
    + exfalso. apply Hnotin. rewrite <- Heq. by apply list_elem_of_fmap_2.
    + by apply IH.
Qed.

Lemma get_NoDup (rows : list A) (b : A) :
  NoDup (pk <$> rows) → b ∈ rows → get pk rows (pk b) = Some b.
Proof.
  intros Hnd Hin. apply get_unique; [done|done|].
  intros x Hx Hk. by apply (NoDup_pk_inj rows).
Qed.
End get_facts.

(** The caller of a request and the two roles on a board. *)
Lemma user_is_spec (a : Action) (bd : option nat) (u k : nat) :
  user_is {| user := Some u; action := a; data_board := bd |} k
  = bool_decide (k = u).
Proof.
  unfold user_is; simpl. apply bool_decide_ext. split; congruence.
Qed.

Lemma user_in_spec (a : Action) (bd : option nat) (u : nat) (s : gset nat) :
  user_in {| user := Some u; action := a; data_board := bd |} s
  = bool_decide (u ∈ s).
Proof. reflexivity. Qed.

(** ** Deleting a task *)

(** C1 (amended).  In the first variant, deleting an existing task succeeds
    exactly when the caller owns the task's board or is the task's assignee;
    every other authenticated caller gets Forbidden and the store is left
    alone.  In the second variant the delete permission
    [IsTaskCreatorOrBoardOwner] admits exactly the task's creator and the
    owner of its board. *)
Theorem delete_task_by_owner_or_assignee
    (db : Store) (t : Task.t) (b : Board.t) (u : nat) :
  get_task db (Task.id t) = Some t →
  get_board db (Task.board t) = Some b →
  let r := Variant1.tasks_app.TaskViewSet.destroy db (Some u) (Task.id t) in
  let allowed := Board.owner b = u ∨ Task.assignee t = Some u in
  (is_success r.1 = true ↔ allowed)
  ∧ (allowed → r = (Success HTTP_204_NO_CONTENT (), delete_task db t))
  ∧ (¬ allowed → is_forbidden r.1 = true ∧ r.2 = db)
  ∧ has_object_permission Variant2.tasks_app.IsTaskCreatorOrBoardOwner db
      (Variant2.tasks_app.TaskViewSet.request_of (Some u) destroy None)
      (Variant2.tasks_app.TaskObj t)
    = Ok (bool_decide (Task.created_by t = Some u ∨ Board.owner b = u)).
Proof.
  intros Ht Hb r allowed. subst r allowed.
  unfold Variant1.tasks_app.TaskViewSet.destroy,
    Variant1.tasks_app.TaskViewSet.get_object, Drf.get_object.
  simpl. rewrite Ht. simpl. unfold task_board. rewrite Hb. simpl.
  rewrite !user_is_spec.
  destruct (Task.assignee t) as [a|] eqn:Ea;
    destruct (Task.created_by t) as [c|] eqn:Ec; simpl;
    rewrite ?user_is_spec;
    repeat case_bool_decide; simpl;
    repeat split; intros; simplify_eq; try done; intuition congruence.
Qed.

Lemma delete_task_by_owner_or_assignee_witness :
  get_task Fixtures.db0 1 = Some Fixtures.ticket
  ∧ get_board Fixtures.db0 1 = Some Fixtures.sprint
  ∧ is_success
      (Variant1.tasks_app.TaskViewSet.destroy Fixtures.db0 (Some 2) 1).1 = true.
Proof.
  split; [reflexivity|]. split; [reflexivity|].
  apply (delete_task_by_owner_or_assignee Fixtures.db0 Fixtures.ticket
           Fixtures.sprint 2 eq_refl eq_refl).
  right. reflexivity.
Defined.

(** The second variant refuses the assignee of a task who neither created it
    nor owns the board: its permission class says no, and the request does
    not end in success. *)
Lemma delete_task_assignee_refused :
  get_task Fixtures.db0 1 = Some Fixtures.ticket
  ∧ Task.assignee Fixtures.ticket = Some 2
  ∧ has_object_permission Variant2.tasks_app.IsTaskCreatorOrBoardOwner
      Fixtures.db0
      (Variant2.tasks_app.TaskViewSet.request_of (Some 2) destroy None)
      (Variant2.tasks_app.TaskObj Fixtures.ticket) = Ok false
  ∧ is_success
      (Variant2.tasks_app.TaskViewSet.destroy Fixtures.db0 (Some 2) 1).1
    = false.
Proof. vm_compute. repeat split; reflexivity. Qed.

(** ** The member count of a board *)

(** C10 (amended).  In the board summaries of the two variants the
    [member_count] of the second is that of the first plus one: the first
    counts the member set, the second counts the owner on top of it.  The
    two are never equal; the other fields of the summary agree. *)
Theorem member_count_differs_by_owner (db : Store) (obj : Board.t) :
  let s1 := Variant1.boards_app.BoardListSerializer.to_representation db obj in
  let s2 := Variant2.boards_app.BoardListSerializer.to_representation db obj in
  Variant1.boards_app.BoardListSerializer.member_count s1
  = size (Board.members obj)
  ∧ Variant2.boards_app.BoardListSerializer.member_count s2
    = Variant1.boards_app.BoardListSerializer.member_count s1 + 1
  ∧ Variant2.boards_app.BoardListSerializer.member_count s2
    ≠ Variant1.boards_app.BoardListSerializer.member_count s1
  ∧ Variant2.boards_app.BoardListSerializer.ticket_count s2
    = Variant1.boards_app.BoardListSerializer.ticket_count s1
  ∧ Variant2.boards_app.BoardListSerializer.tasks_to_do_count s2
    = Variant1.boards_app.BoardListSerializer.tasks_to_do_count s1
  ∧ Variant2.boards_app.BoardListSerializer.tasks_high_prio_count s2
    = Variant1.boards_app.BoardListSerializer.tasks_high_prio_count s1
  ∧ Variant2.boards_app.BoardListSerializer.owner_id s2
    = Variant1.boards_app.BoardListSerializer.owner_id s1.
Proof.
  intros s1 s2. subst s1 s2. simpl.
  unfold Variant2.boards_app.member_count,
    Variant1.boards_app.BoardListSerializer.get_member_count.
  split; [reflexivity|]. split; [reflexivity|]. split; [lia|].
  repeat split; reflexivity.
Qed.

(** On a board without members the first variant reports 0 members, the
    second 1. *)
Lemma member_count_not_equal :
  Variant1.boards_app.BoardListSerializer.get_member_count Fixtures.backlog
  ≠ Variant2.boards_app.member_count Fixtures.backlog.
Proof. vm_compute. discriminate. Qed.

(** ** Creating a task: who may be assignee or reviewer *)

Lemma field_errors_nil_PrimaryKey {A : Type} (lookup : nat → option A)
    (required allow_null partial : bool) (name : string) (k : nat) :
  field_errors name
    (PrimaryKeyRelatedField lookup required allow_null partial (Some (Some k)))
  = [] →
  ∃ a, lookup k = Some a
     ∧ PrimaryKeyRelatedField lookup required allow_null partial (Some (Some k))
       = Value (Some a).
Proof.
  simpl. destruct (lookup k) as [a|]; simpl; [eauto|discriminate].
Qed.

Lemma v1_to_internal_value_inv `{!Externals} (db : Store) (partial : bool)
    (d : Variant1.tasks_app.TaskData.t) :
  match Variant1.tasks_app.TaskSerializer.to_internal_value db partial d with
  | Ok a =>
      (∀ k, Variant1.tasks_app.TaskData.board d = Some k →
         ∃ b, get_board db k = Some b ∧ Variant1.tasks_app.TaskSerializer.board a = Some b)
      ∧ (∀ k, Variant1.tasks_app.TaskData.assignee_id d = Some (Some k) →
         ∃ usr, get_user db k = Some usr
              ∧ Variant1.tasks_app.TaskSerializer.assignee a = Some (Some usr))
      ∧ (∀ k, Variant1.tasks_app.TaskData.reviewer_id d = Some (Some k) →
         ∃ usr, get_user db k = Some usr
              ∧ Variant1.tasks_app.TaskSerializer.reviewer a = Some (Some usr))
  | Raise e => ∃ errors, e = ValidationError errors
  end.
Proof.
  unfold Variant1.tasks_app.TaskSerializer.to_internal_value. cbv zeta.
  destruct (field_errors "board" _ ++ _)%list as [|e es] eqn:E; [|eauto].
  apply app_eq_nil in E as [Eboard E].
  do 5 (apply app_eq_nil in E as [_ E]).
  apply app_eq_nil in E as [Eassignee Ereviewer].
  lazy beta iota. repeat split; intros k Hk.
  - rewrite Hk in Eboard |- *.
    change (Some <$> Some k) with (Some (Some k)) in *.
    apply field_errors_nil_PrimaryKey in Eboard as (b & Hb & ->).
    simpl. eauto.
  - rewrite Hk in Eassignee |- *.
    apply field_errors_nil_PrimaryKey in Eassignee as (b & Hb & ->).
    simpl. eauto.
  - rewrite Hk in Ereviewer |- *.
    apply field_errors_nil_PrimaryKey in Ereviewer as (b & Hb & ->).
    simpl. eauto.
Qed.

Lemma permitted_bool (a : Action) (bd : option nat) (c : nat) (b : Board.t) :
  Board.owner b = c ∨ c ∈ Board.members b →
  user_is {| user := Some c; action := a; data_board := bd |} (Board.owner b)
  || user_in {| user := Some c; action := a; data_board := bd |}
       (Board.members b) = true.
Proof.
  intros [Ho|Hm]; unfold user_is, user_in; simpl.
  - rewrite bool_decide_eq_true_2; [done|congruence].
  - rewrite (bool_decide_eq_true_2 (c ∈ _)); [|done]. apply orb_true_r.
Qed.

Lemma v1_validate_user_role_cases (u : option User.t) (b : Board.t)
    (role : string) :
  Variant1.tasks_app.TaskSerializer._validate_user_role u b role = Ok ()
  ∨ ∃ errors,
      Variant1.tasks_app.TaskSerializer._validate_user_role u b role
      = Raise (ValidationError errors).
Proof.
  unfold Variant1.tasks_app.TaskSerializer._validate_user_role.
  destruct u as [usr|]; [|by left].
  case_bool_decide; simpl; [by left|right; eauto].
Qed.

Lemma v1_validate_user_role_non_member (usr : User.t) (b : Board.t)
    (role : string) :
  User.id usr ∉ Board.members b →
  ∃ errors,
    Variant1.tasks_app.TaskSerializer._validate_user_role (Some usr) b role
    = Raise (ValidationError errors).
Proof.
  intros Hn. unfold Variant1.tasks_app.TaskSerializer._validate_user_role.
  rewrite bool_decide_eq_false_2; [|done]. simpl. eauto.
Qed.

#[local] Arguments Variant1.tasks_app.TaskSerializer._validate_user_role : simpl never.

Lemma v1_create_rejects_non_member `{!Externals} (db : Store) (b : Board.t)
    (c a : nat) (d : Variant1.tasks_app.TaskData.t) :
  get_board db (Board.id b) = Some b →
  Board.id b ≠ 0 →
  Variant1.tasks_app.TaskData.board d = Some (Board.id b) →
  Board.owner b = c ∨ c ∈ Board.members b →
  Variant1.tasks_app.TaskData.assignee_id d = Some (Some a)
  ∨ Variant1.tasks_app.TaskData.reviewer_id d = Some (Some a) →
  a ∉ Board.members b →
  let r := Variant1.tasks_app.TaskViewSet.create db (Some c) d in
  is_bad_request r.1 = true ∧ r.2 = db.
Proof.
  intros Hget Hnz Hboard Hperm Hrole Hnot r. subst r.
  unfold Variant1.tasks_app.TaskViewSet.create. simpl. rewrite Hboard.
  destruct (Board.id b) as [|n] eqn:En; [done|].
  rewrite Hget. rewrite (permitted_bool _ _ _ _ Hperm). simpl.
  unfold Variant1.tasks_app.TaskSerializer.is_valid.
  pose proof (v1_to_internal_value_inv db false d) as Hinv.
  destruct (Variant1.tasks_app.TaskSerializer.to_internal_value db false d) as [at_|e];
    [|destruct Hinv as [errors ->]; done].
  destruct Hinv as (Hb & Ha & Hr).
  destruct (Hb _ Hboard) as (b' & Hb' & Hab).
  assert (b' = b) as -> by congruence.
  simpl. unfold Variant1.tasks_app.TaskSerializer.validate, Variant1.tasks_app.TaskSerializer._get_board.
  rewrite Hab. simpl.
  rewrite (permitted_bool _ _ _ _ Hperm). simpl.
  destruct Hrole as [Hrole|Hrole].
  - destruct (Ha _ Hrole) as (usr & Hu & ->). simpl.
    apply get_Some_inv in Hu as [_ Hid].
    destruct (v1_validate_user_role_non_member usr b "Assignee")
      as [errors ->]; [by rewrite Hid|]. done.
  - destruct (v1_validate_user_role_cases
                (mjoin (Variant1.tasks_app.TaskSerializer.assignee at_)) b "Assignee")
      as [->|[errors ->]]; [|done].
    simpl. destruct (Hr _ Hrole) as (usr & Hu & ->). simpl.
    apply get_Some_inv in Hu as [_ Hid].
    destruct (v1_validate_user_role_non_member usr b "Reviewer")
      as [errors ->]; [by rewrite Hid|]. done.
Qed.

Lemma v2_validate_role_cases (db : Store) (b : Board.t) (key role : string)
    (k : nat) :
  Variant2.tasks_app.validate_role db b key role k = Ok ()
  ∨ ∃ errors, Variant2.tasks_app.validate_role db b key role k = Raise (ValidationError errors).
Proof.
  unfold Variant2.tasks_app.validate_role.
  destruct (get_user db k) as [usr|]; [|right; eauto].
  destruct (negb _ && negb _); [right; eauto|by left].
Qed.

Lemma v2_validate_role_outsider (db : Store) (b : Board.t) (key role : string)
    (k : nat) :
  k ≠ Board.owner b → k ∉ Board.members b →
  ∃ errors, Variant2.tasks_app.validate_role db b key role k = Raise (ValidationError errors).
Proof.
  intros Ho Hm. unfold Variant2.tasks_app.validate_role.
  destruct (get_user db k) as [usr|] eqn:Hu; [|eauto].
  apply get_Some_inv in Hu as [_ Hid]. rewrite Hid.
  rewrite !bool_decide_eq_false_2 by done. simpl. eauto.
Qed.

Lemma v2_validate_role_owner (db : Store) (b : Board.t) (key role : string)
    (usr : User.t) :
  get_user db (Board.owner b) = Some usr →
  Variant2.tasks_app.validate_role db b key role (Board.owner b) = Ok ().
Proof.
  intros Hu. unfold Variant2.tasks_app.validate_role. rewrite Hu.
  apply get_Some_inv in Hu as [_ Hid]. rewrite Hid.
  rewrite bool_decide_eq_true_2 by done. done.
Qed.

#[local] Arguments Variant2.tasks_app.validate_role : simpl never.

Lemma v2_create_rejects_outsider `{!Externals} (db : Store) (b : Board.t)
    (c a : nat) (d : Variant2.tasks_app.TaskData.t) :
  get_board db (Board.id b) = Some b →
  Board.id b ≠ 0 →
  Variant2.tasks_app.TaskData.board d = Some (Board.id b) →
  Board.owner b = c ∨ c ∈ Board.members b →
  Variant2.tasks_app.TaskData.assignee_id d = Some (Some a)
  ∨ Variant2.tasks_app.TaskData.reviewer_id d = Some (Some a) →
  a ≠ 0 → a ≠ Board.owner b → a ∉ Board.members b →
  let r := Variant2.tasks_app.TaskViewSet.create db (Some c) d in
  is_bad_request r.1 = true ∧ r.2 = db.
Proof.
  intros Hget Hnz Hboard Hperm Hrole Ha0 Hao Ham r. subst r.
  unfold Variant2.tasks_app.TaskViewSet.create. simpl. rewrite Hboard.
  destruct (Board.id b) as [|n] eqn:En; [done|].
  rewrite Hget. rewrite (permitted_bool _ _ _ _ Hperm). simpl.
  unfold Variant2.tasks_app.TaskCreateSerializer.is_valid. cbv zeta.
  destruct (Variant2.tasks_app.TaskFields.run_fields false d) as [errs flds].
  rewrite Hboard. simpl. rewrite Hget. simpl.
  destruct errs as [|e es]; [|done].
  unfold Variant2.tasks_app.TaskCreateSerializer.validate, Variant2.tasks_app.IntegerField. simpl.
  rewrite En, Hget.
  destruct a as [|a']; [done|].
  destruct Hrole as [Hrole|Hrole]; rewrite Hrole; simpl.
  - destruct (v2_validate_role_outsider db b "assignee_id" "Assignee" (S a'))
      as [errors ->]; done.
  - destruct (mjoin (Variant2.tasks_app.TaskData.assignee_id d)) as [[|k]|]; simpl.
    1,3: destruct (v2_validate_role_outsider db b "reviewer_id" "Reviewer"
                     (S a')) as [errors ->]; done.
    destruct (v2_validate_role_cases db b "assignee_id" "Assignee" (S k))
      as [->|[errors ->]]; [|done].
    simpl.
    destruct (v2_validate_role_outsider db b "reviewer_id" "Reviewer" (S a'))
      as [errors ->]; done.
Qed.

(** C2 (amended).  A request by an owner or member of board B that names an
    assignee (or a reviewer) A fails with a validation error, and creates no
    task: in the first variant unless A is in B's member set, the owner
    included; in the second variant unless A is B's owner or in B's member
    set.  The second variant's check accepts the owner as such. *)
Theorem task_creation_checks_role `{!Externals} (db : Store) (b : Board.t)
    (c a : nat) (d1 : Variant1.tasks_app.TaskData.t)
    (d2 : Variant2.tasks_app.TaskData.t) :
  get_board db (Board.id b) = Some b →
  Board.id b ≠ 0 →
  Board.owner b = c ∨ c ∈ Board.members b →
  (Variant1.tasks_app.TaskData.board d1 = Some (Board.id b) →
   Variant1.tasks_app.TaskData.assignee_id d1 = Some (Some a)
   ∨ Variant1.tasks_app.TaskData.reviewer_id d1 = Some (Some a) →
   a ∉ Board.members b →
   let r := Variant1.tasks_app.TaskViewSet.create db (Some c) d1 in
   is_bad_request r.1 = true ∧ r.2 = db)
  ∧ (Variant2.tasks_app.TaskData.board d2 = Some (Board.id b) →
     Variant2.tasks_app.TaskData.assignee_id d2 = Some (Some a)
     ∨ Variant2.tasks_app.TaskData.reviewer_id d2 = Some (Some a) →
     a ≠ 0 → a ≠ Board.owner b → a ∉ Board.members b →
     let r := Variant2.tasks_app.TaskViewSet.create db (Some c) d2 in
     is_bad_request r.1 = true ∧ r.2 = db)
  ∧ (is_Some (get_user db (Board.owner b)) →
     ∀ key role,
       Variant2.tasks_app.validate_role db b key role (Board.owner b) = Ok ()).
Proof.
  intros Hget Hnz Hperm. repeat split.
  - intros. by eapply v1_create_rejects_non_member.
  - intros. by eapply v1_create_rejects_non_member.
  - intros. by eapply v2_create_rejects_outsider.
  - intros. by eapply v2_create_rejects_outsider.
  - intros [usr Hu] key role. by eapply v2_validate_role_owner.
Qed.

Lemma task_creation_checks_role_witness :
  get_board Fixtures.db0 (Board.id Fixtures.sprint) = Some Fixtures.sprint
  ∧ Board.id Fixtures.sprint ≠ 0
  ∧ (Board.owner Fixtures.sprint = 1 ∨ 1 ∈ Board.members Fixtures.sprint)
  ∧ is_bad_request
      (Variant1.tasks_app.TaskViewSet.create (H := Fixtures.plain)
         Fixtures.db0 (Some 1)
         (Fixtures.task_data_v1 (Some 1) "Review" (Some 3))).1 = true.
Proof.
  split; [reflexivity|]. split; [discriminate|]. split; [by left|].
  refine (proj1 (proj1 (task_creation_checks_role (H := Fixtures.plain)
    Fixtures.db0 Fixtures.sprint 1 3
    (Fixtures.task_data_v1 (Some 1) "Review" (Some 3))
    (Fixtures.task_data_v2 (Some 1) "Review" (Some 3))
    eq_refl _ (or_introl eq_refl)) eq_refl (or_introl eq_refl) _)).
  - discriminate.
  - apply (bool_decide_unpack _). vm_compute. exact I.
Defined.

(** The first variant turns the owner of a board away as assignee when the
    owner is not in the board's member set. *)
Lemma task_creation_owner_refused :
  Board.owner Fixtures.backlog = 1
  ∧ (Variant1.tasks_app.TaskViewSet.create (H := Fixtures.plain)
       Fixtures.db0 (Some 1)
       (Fixtures.task_data_v1 (Some 2) "Plan" (Some 1))).1
    = BadRequest [("assignee", "Assignee must be Member of Board.")].
Proof. split; vm_compute; reflexivity. Qed.

(** The same request goes through in the second variant. *)
Example task_creation_owner_accepted :
  is_success
    (Variant2.tasks_app.TaskViewSet.create (H := Fixtures.plain)
       Fixtures.db0 (Some 1)
       (Fixtures.task_data_v2 (Some 2) "Plan" (Some 1))).1 = true.
Proof. vm_compute. reflexivity. Qed.

(** ** Updating a task: the board cannot change *)

Lemma v1_is_valid_board_change `{!Externals} (db : Store)
    (request : option Request) (t : Task.t) (partial : bool)
    (d : Variant1.tasks_app.TaskData.t) (k : nat) :
  Variant1.tasks_app.TaskData.board d = Some k →
  k ≠ Task.board t →
  ∃ errors,
    Variant1.tasks_app.TaskSerializer.is_valid db request (Some t) partial d
    = Raise (ValidationError errors).
Proof.
  intros Hk Hne. unfold Variant1.tasks_app.TaskSerializer.is_valid.
  pose proof (v1_to_internal_value_inv db partial d) as Hinv.
  destruct (Variant1.tasks_app.TaskSerializer.to_internal_value db partial d)
    as [a|e]; [|destruct Hinv as [errors ->]; simpl; eauto].
  destruct Hinv as (Hb & _ & _).
  destruct (Hb _ Hk) as (b' & Hb' & Hab).
  apply get_Some_inv in Hb' as [_ Hid].
  simpl. unfold Variant1.tasks_app.TaskSerializer.validate,
    Variant1.tasks_app.TaskSerializer._get_board,
    Variant1.tasks_app.TaskSerializer._prevent_board_change.
  rewrite Hab. simpl.
  destruct (v1_validate_user_role_cases
              (mjoin (Variant1.tasks_app.TaskSerializer.assignee a)) b'
              "Assignee") as [->|[errors ->]]; [|simpl; eauto].
  simpl.
  destruct (v1_validate_user_role_cases
              (mjoin (Variant1.tasks_app.TaskSerializer.reviewer a)) b'
              "Reviewer") as [->|[errors ->]]; [|simpl; eauto].
  simpl. rewrite bool_decide_eq_true_2 by congruence. simpl. eauto.
Qed.

Lemma v1_update_board_change `{!Externals} (partial : bool) (db : Store)
    (t : Task.t) (b : Board.t) (u : option nat)
    (d : Variant1.tasks_app.TaskData.t) (k : nat) :
  get_task db (Task.id t) = Some t →
  get_board db (Task.board t) = Some b →
  Variant1.tasks_app.TaskData.board d = Some k →
  k ≠ Task.board t →
  let r :=
    Variant1.tasks_app.TaskViewSet.update_with partial db u (Task.id t) d in
  is_success r.1 = false ∧ r.2 = db
  ∧ (∀ c, u = Some c → Board.owner b = c ∨ c ∈ Board.members b →
       is_bad_request r.1 = true).
Proof.
  intros Ht Hb Hk Hne r. subst r.
  unfold Variant1.tasks_app.TaskViewSet.update_with,
    Variant1.tasks_app.TaskViewSet.get_object, Drf.get_object.
  pose proof (λ rq, v1_is_valid_board_change db rq t partial d k Hk Hne) as Hv.
  destruct u as [c|]; [|destruct partial; simpl; repeat split; done].
  destruct partial; simpl; rewrite Ht; simpl; unfold task_board; rewrite Hb;
    simpl;
    (destruct (user_is _ (Board.owner b) || user_in _ (Board.members b))
       eqn:Hp; simpl;
     [ match goal with
       | |- context [Variant1.tasks_app.TaskSerializer.is_valid db ?rq _ _ d] =>
           destruct (Hv rq) as [errors ->]
       end; simpl; repeat split; done
     | repeat split; try done;
       intros c0 [= <-] Hperm;
       rewrite (permitted_bool _ _ _ _ Hperm) in Hp; done ]).
Qed.

Lemma v2_update_keeps_board `{!Externals} (a : Action) (db : Store)
    (t : Task.t) (u : option nat) (d : Variant2.tasks_app.TaskData.t) :
  get_task db (Task.id t) = Some t →
  a = update ∨ a = partial_update →
  let r := Variant2.tasks_app.TaskViewSet.update_as a db u (Task.id t) d in
  ∃ t', get_task r.2 (Task.id t) = Some t' ∧ Task.board t' = Task.board t.
Proof.
  intros Ht Ha r. subst r.
  unfold Variant2.tasks_app.TaskViewSet.update_as,
    Variant2.tasks_app.TaskViewSet.get_object.
  destruct Ha as [-> | ->]; destruct u as [c|]; simpl; rewrite ?Ht; simpl;
    eauto.
Qed.

(** C3 (amended).  An update that supplies a board other than the task's
    never changes the task's board.  The first variant makes the update
    fail and leaves the store alone: callers who own the board or are among
    its members get a validation error, the others are turned away before
    validation.  The second variant's update serializer has no board field:
    the value supplied is not looked at by the validation and is never
    written. *)
Theorem task_board_is_immutable `{!Externals} (partial : bool) (db : Store)
    (t : Task.t) (b : Board.t) (u : option nat) (k : nat)
    (d1 : Variant1.tasks_app.TaskData.t)
    (d2 : Variant2.tasks_app.TaskData.t) :
  get_task db (Task.id t) = Some t →
  get_board db (Task.board t) = Some b →
  k ≠ Task.board t →
  (Variant1.tasks_app.TaskData.board d1 = Some k →
   let r :=
     Variant1.tasks_app.TaskViewSet.update_with partial db u (Task.id t) d1 in
   is_success r.1 = false ∧ r.2 = db
   ∧ (∀ c, u = Some c → may_access c b → is_bad_request r.1 = true))
  ∧ (let r :=
       Variant2.tasks_app.TaskViewSet.update_as
         (if partial then partial_update else update) db u (Task.id t)
         (with_board (Some k) d2) in
     ∃ t', get_task r.2 (Task.id t) = Some t' ∧ Task.board t' = Task.board t)
  ∧ Variant2.tasks_app.TaskUpdateSerializer.is_valid db (Some t)
      (with_board (Some k) d2)
    = Variant2.tasks_app.TaskUpdateSerializer.is_valid db (Some t) d2
  ∧ ∀ v,
      Task.board (Variant2.tasks_app.TaskUpdateSerializer.update db t v).1
      = Task.board t.
Proof.
  intros Ht Hb Hne. split; [|split; [|split]].
  - intros Hk. by eapply v1_update_board_change.
  - apply v2_update_keeps_board; [done|]. destruct partial; auto.
  - reflexivity.
  - reflexivity.
Qed.

Lemma task_board_is_immutable_witness :
  get_task Fixtures.db0 (Task.id Fixtures.ticket) = Some Fixtures.ticket
  ∧ get_board Fixtures.db0 (Task.board Fixtures.ticket) = Some Fixtures.sprint
  ∧ 2 ≠ Task.board Fixtures.ticket
  ∧ is_bad_request
      (Variant1.tasks_app.TaskViewSet.update_with (H := Fixtures.plain) true
         Fixtures.db0 (Some 1) 1
         (Fixtures.task_data_v1 (Some 2) "Write the spec" None)).1 = true.
Proof.
  split; [reflexivity|]. split; [reflexivity|]. split; [discriminate|].
  refine (proj2 (proj2 (proj1 (task_board_is_immutable (H := Fixtures.plain)
    true Fixtures.db0 Fixtures.ticket Fixtures.sprint (Some 1) 2
    (Fixtures.task_data_v1 (Some 2) "Write the spec" None)
    (Fixtures.task_data_v2 None "Write the spec" None)
    eq_refl eq_refl _) eq_refl)) 1 eq_refl (or_introl eq_refl)).
  discriminate.
Defined.

(** In the second variant the owner's update with another board raises no
    validation error: the serializer accepts the request. *)
Lemma task_board_change_not_rejected :
  Task.board Fixtures.ticket ≠ 2
  ∧ is_bad_request
      (Variant2.tasks_app.TaskViewSet.update (H := Fixtures.plain)
         Fixtures.db0 (Some 1) 1
         (Fixtures.task_data_v2 (Some 2) "Write the spec" None)).1 = false
  ∧ ∃ v,
      Variant2.tasks_app.TaskUpdateSerializer.is_valid (H := Fixtures.plain)
        Fixtures.db0 (Some Fixtures.ticket)
        (Fixtures.task_data_v2 (Some 2) "Write the spec" None) = Ok v.
Proof.
  split; [discriminate|]. split; [vm_compute; reflexivity|].
  eexists. vm_compute. reflexivity.
Qed.

(** ** Comments: who may read, write and delete *)

Lemma access_bool_inv (request : Request) (b : Board.t) :
  user_is request (Board.owner b) || user_in request (Board.members b) = true →
  ∃ c, user request = Some c ∧ may_access c b.
Proof.
  unfold user_is, user_in, may_access. destruct (user request) as [c|]; simpl.
  - intros H. exists c. split; [done|].
    apply orb_true_iff in H as [H|H]; apply bool_decide_eq_true in H;
      [left; congruence|by right].
  - done.
Qed.

Lemma not_access_bool_inv (request : Request) (b : Board.t) :
  negb (user_is request (Board.owner b))
  && negb (user_in request (Board.members b)) = false →
  ∃ c, user request = Some c ∧ may_access c b.
Proof.
  intros H. apply access_bool_inv.
  destruct (user_is _ _), (user_in _ _); done.
Qed.

(** In the first variant a comment is created or listed only for the
    owner and the members of the task's board, and deleted only for its
    author, whatever the project's default permission classes are. *)
Lemma v1_comments_guarded
    (perms : list (Permission Store Comment.t)) (db : Store)
    (t : Task.t) (b : Board.t) (u : option nat) (content : option string)
    (pk : nat) :
  get_task db (Task.id t) = Some t →
  get_board db (Task.board t) = Some b →
  (is_success
     (Variant1.tasks_app.TaskCommentsViewSet.create perms db u (Task.id t)
        content).1 = true →
   ∃ c, u = Some c ∧ may_access c b)
  ∧ (is_success
       (Variant1.tasks_app.TaskCommentsViewSet.list perms db u (Task.id t)).1
     = true →
     ∃ c, u = Some c ∧ may_access c b)
  ∧ (is_success
       (Variant1.tasks_app.TaskCommentsViewSet.destroy perms db u (Task.id t)
          pk).1 = true →
     ∃ c comment,
       u = Some c ∧ comment ∈ comments db ∧ Comment.id comment = pk
       ∧ Comment.task comment = Task.id t ∧ Comment.author comment = c).
Proof.
  intros Ht Hb. repeat split.
  - unfold Variant1.tasks_app.TaskCommentsViewSet.create.
    destruct (check_permissions perms db _) as [[]|e]; [|destruct e; done].
    simpl. rewrite Ht. simpl. unfold task_board. rewrite Hb. simpl.
    destruct (negb _ && negb _) eqn:Hp; [done|].
    intros _. by apply not_access_bool_inv in Hp.
  - unfold Variant1.tasks_app.TaskCommentsViewSet.list,
      Variant1.tasks_app.TaskCommentsViewSet.get_queryset.
    destruct (check_permissions perms db _) as [[]|e]; [|destruct e; done].
    simpl. rewrite Ht. simpl. unfold task_board. rewrite Hb. simpl.
    destruct (negb _ && negb _) eqn:Hp; [done|].
    intros _. by apply not_access_bool_inv in Hp.
  - unfold Variant1.tasks_app.TaskCommentsViewSet.destroy,
      Variant1.tasks_app.TaskCommentsViewSet.get_object,
      Variant1.tasks_app.TaskCommentsViewSet.get_queryset, Drf.get_object.
    destruct (check_permissions perms db _) as [[]|e]; [|destruct e; done].
    simpl. rewrite Ht. simpl. unfold task_board. rewrite Hb. simpl.
    destruct (negb _ && negb _) eqn:Hp; [done|]. simpl.
    destruct (get Comment.id _ pk) as [comment|] eqn:Hc; [|done]. simpl.
    destruct (check_object_permissions perms db _ comment) as [[]|e];
      [|destruct e; done].
    simpl. destruct (user_is _ (Comment.author comment)) eqn:Hau; [|done].
    intros _. unfold user_is in Hau. simpl in Hau.
    apply bool_decide_eq_true in Hau.
    destruct u as [c|]; [|done]. injection Hau as ->.
    exists (Comment.author comment), comment.
    apply get_Some_inv in Hc as [Hin Hid].
    unfold order_by_created_at in Hin. rewrite merge_sort_Permutation in Hin.
    apply list_elem_of_filter in Hin as [Htask Hin]. done.
Qed.

(** Deleting a comment is for its author in the second variant as well. *)
Lemma v2_comment_delete_guarded (db : Store) (u : option nat)
    (task_pk pk : nat) :
  is_success
    (Variant2.tasks_app.CommentViewSet.destroy db u task_pk pk).1 = true →
  ∃ c comment,
    u = Some c ∧ comment ∈ comments db ∧ Comment.id comment = pk
    ∧ Comment.author comment = c.
Proof.
  unfold Variant2.tasks_app.CommentViewSet.destroy,
    Variant2.tasks_app.CommentViewSet.get_object,
    Variant2.tasks_app.CommentViewSet.get_queryset.
  destruct u as [c|]; [|done]. simpl.
  destruct (get Comment.id _ pk) as [comment|] eqn:Hc; [|done]. simpl.
  unfold comment_task, task_board.
  destruct (get_task db (Comment.task comment)) as [t|]; [|done]. simpl.
  destruct (get_board db (Task.board t)) as [b|]; [|done]. simpl.
  destruct (user_is _ (Board.owner b) || user_in _ (Board.members b));
    [|done]. simpl.
  destruct (user_is _ (Comment.author comment)) eqn:Hau; [|done]. simpl.
  rewrite Hau. simpl. intros _.
  rewrite user_is_spec in Hau. apply bool_decide_eq_true in Hau.
  exists c, comment. apply get_Some_inv in Hc as [Hin Hid].
  unfold order_by_created_at in Hin. rewrite merge_sort_Permutation in Hin.
  apply list_elem_of_filter in Hin as [_ Hin]. done.
Qed.

(** C4.  The second variant runs no membership check when a comment is
    created or when the comments of a task are listed: Carol, who neither
    owns the board of the task nor is among its members, is served both
    times. *)
Theorem comments_open_to_outsiders :
  get_task Fixtures.db0 1 = Some Fixtures.ticket
  ∧ get_board Fixtures.db0 (Task.board Fixtures.ticket) = Some Fixtures.sprint
  ∧ ¬ may_access 3 Fixtures.sprint
  ∧ is_success
      (Variant2.tasks_app.CommentViewSet.create Fixtures.db0 (Some 3) 1 None
         (Some "Hello")).1 = true
  ∧ (Variant2.tasks_app.CommentViewSet.list Fixtures.db0 (Some 3) 1).1
    = Success HTTP_200_OK [Fixtures.remark].
Proof.
  split; [reflexivity|]. split; [reflexivity|]. split.
  - apply (bool_decide_unpack _). vm_compute. exact I.
  - split; vm_compute; reflexivity.
Qed.

(** ** Boards: who may see and change them *)

Lemma get_None_intro {A : Type} (pk : A → nat) (rows : list A) (k : nat) :
  (∀ r, r ∈ rows → pk r ≠ k) → get pk rows k = None.
Proof.
  intros H. unfold get.
  destruct (filter (λ r, pk r = k) rows) as [|x l] eqn:E; [done|].
  assert (x ∈ filter (λ r, pk r = k) rows) as Hx by (rewrite E; left).
  apply list_elem_of_filter in Hx as [Hk Hin]. by destruct (H x Hin).
Qed.

Lemma elem_of_join_members (bs : list Board.t) (b : Board.t) (m : option nat) :
  (b, m) ∈ join_members bs
  ↔ b ∈ bs ∧ (match m with
              | Some k => k ∈ Board.members b
              | None => Board.members b = ∅
              end).
Proof.
  unfold join_members. rewrite list_elem_of_bind. split.
  - intros (b' & Hrow & Hin).
    destruct (elements (Board.members b')) as [|k ks] eqn:E.
    + apply list_elem_of_singleton in Hrow. injection Hrow as -> ->.
      split; [done|]. by apply elements_empty_inv in E; apply leibniz_equiv.
    + apply list_elem_of_fmap in Hrow as (k' & [= -> ->] & Hk').
      split; [done|]. apply elem_of_elements. by rewrite E.
  - intros [Hin Hm]. exists b. split; [|done].
    destruct m as [k|].
    + apply elem_of_elements in Hm.
      destruct (elements (Board.members b)) as [|k0 ks] eqn:E.
      * by apply elem_of_nil in Hm.
      * by apply (list_elem_of_fmap_2 (λ m, (b, Some m))).
    + rewrite Hm, elements_empty. by apply list_elem_of_singleton.
Qed.

Lemma elem_of_visible (u : nat) (bs : list Board.t) (b : Board.t) :
  b ∈ distinct (filter_owner_or_member u bs) ↔ b ∈ bs ∧ may_access u b.
Proof.
  unfold distinct, filter_owner_or_member, may_access.
  rewrite elem_of_remove_dups, list_elem_of_fmap. split.
  - intros ([b' m] & -> & Hrow).
    apply list_elem_of_filter in Hrow as [Hp Hrow].
    apply elem_of_join_members in Hrow as [Hin Hm]. simpl.
    split; [done|]. destruct Hp as [Ho|Hs]; simpl in *; [by left|].
    subst m. by right.
  - intros [Hin [Ho|Hm]].
    + destruct (elements (Board.members b)) as [|k ks] eqn:E.
      * exists (b, None). split; [done|]. apply list_elem_of_filter.
        split; [by left|]. apply elem_of_join_members. split; [done|].
        by apply elements_empty_inv in E; apply leibniz_equiv.
      * exists (b, Some k). split; [done|]. apply list_elem_of_filter.
        split; [by left|]. apply elem_of_join_members. split; [done|].
        apply elem_of_elements. rewrite E. left.
    + exists (b, Some u). split; [done|]. apply list_elem_of_filter.
      split; [by right|]. by apply elem_of_join_members.
Qed.

Lemma get_board_sorted (bs : list Board.t) (b : Board.t) :
  NoDup (Board.id <$> bs) → b ∈ bs →
  get Board.id (order_by_id_desc bs) (Board.id b) = Some b.
Proof.
  intros Hnd Hin. apply get_unique; [|done|].
  - unfold order_by_id_desc. by rewrite merge_sort_Permutation.
  - intros x Hx Hk. unfold order_by_id_desc in Hx.
    rewrite merge_sort_Permutation in Hx. by apply (NoDup_pk_inj Board.id bs).
Qed.

Lemma get_board_visible (u : nat) (bs : list Board.t) (b : Board.t) :
  NoDup (Board.id <$> bs) → b ∈ bs →
  get Board.id (distinct (filter_owner_or_member u bs)) (Board.id b)
  = if bool_decide (may_access u b) then Some b else None.
Proof.
  intros Hnd Hin. case_bool_decide as Hacc.
  - apply get_unique; [by apply elem_of_visible|done|].
    intros x Hx Hk. apply elem_of_visible in Hx as [Hx _].
    by apply (NoDup_pk_inj Board.id bs).
  - apply get_None_intro. intros x Hx Hk.
    apply elem_of_visible in Hx as [Hx Hax].
    assert (x = b) as -> by by apply (NoDup_pk_inj Board.id bs). done.
Qed.

Lemma access_bool_spec (a : Action) (bd : option nat) (u : nat) (b : Board.t) :
  user_is {| user := Some u; action := a; data_board := bd |} (Board.owner b)
  || user_in {| user := Some u; action := a; data_board := bd |}
       (Board.members b)
  = bool_decide (may_access u b).
Proof.
  rewrite user_is_spec, user_in_spec. unfold may_access.
  repeat case_bool_decide; simpl; try done; exfalso; tauto.
Qed.

Lemma in_detail_actions (a : Action) :
  a ∈ [retrieve; update; partial_update; destroy]
  ↔ a ≠ list_action ∧ a ≠ create.
Proof.
  rewrite !elem_of_cons, elem_of_nil. destruct a; intuition congruence.
Qed.

Lemma v1_board_get_object (a : Action) (db : Store) (b : Board.t) (u : nat) :
  NoDup (Board.id <$> boards db) → b ∈ boards db →
  a ≠ list_action → a ≠ create →
  Variant1.boards_app.BoardViewSet.get_object db
    (Variant1.boards_app.BoardViewSet.request_of (Some u) a) (Board.id b)
  = if bool_decide (may_access u b) then Ok b
    else Raise (PermissionDenied default_message).
Proof.
  intros Hnd Hin Hl Hc.
  unfold Variant1.boards_app.BoardViewSet.get_object,
    Variant1.boards_app.BoardViewSet.get_queryset,
    Variant1.boards_app.BoardViewSet.request_of. simpl.
  rewrite bool_decide_eq_true_2 by (by apply in_detail_actions).
  simpl. rewrite get_board_sorted by done.
  unfold Drf.get_object, Variant1.boards_app.BoardViewSet.permission_classes.
  simpl. rewrite access_bool_spec. by case_bool_decide.
Qed.

Lemma v2_board_get_object (a : Action) (db : Store) (b : Board.t) (u : nat) :
  NoDup (Board.id <$> boards db) → b ∈ boards db →
  a = retrieve ∨ a = update ∨ a = partial_update →
  Variant2.boards_app.BoardViewSet.get_object db
    (Variant2.boards_app.BoardViewSet.request_of (Some u) a) (Board.id b)
  = if bool_decide (may_access u b) then Ok b
    else Raise (NotFound "Not found.").
Proof.
  intros Hnd Hin Ha.
  unfold Variant2.boards_app.BoardViewSet.get_object,
    Variant2.boards_app.BoardViewSet.get_queryset,
    Variant2.boards_app.BoardViewSet.request_of. simpl.
  rewrite get_board_visible by done.
  case_bool_decide as Hacc; [|done]. unfold Drf.get_object.
  destruct Ha as [-> | [-> | ->]]; simpl; rewrite access_bool_spec;
    by rewrite bool_decide_eq_true_2.
Qed.

#[local] Arguments Variant1.boards_app.BoardUpdateSerializer.update :
  simpl never.
#[local] Arguments Variant2.boards_app.BoardUpdateSerializer.update :
  simpl never.

(** *** What it takes to serialize a response *)

Lemma many_Ok {A B : Type} (f : A → Result B) (rows : list A) (l : list B) :
  many f rows = Ok l → Forall2 (λ row shown, f row = Ok shown) rows l.
Proof.
  revert l. induction rows as [|row rows IH]; intros l; simpl.
  - intros [= <-]. constructor.
  - destruct (f row) as [shown|e] eqn:E; [|done]. simpl.
    destruct (many f rows) as [others|e]; [|done]. simpl.
    intros [= <-]. constructor; [done|]. by apply IH.
Qed.

Lemma many_is_Ok {A B : Type} (f : A → Result B) (rows : list A) :
  (∃ l, many f rows = Ok l) ↔ Forall (λ row, ∃ shown, f row = Ok shown) rows.
Proof.
  induction rows as [|row rows IH]; simpl.
  - split; [constructor|by eexists].
  - split.
    + intros [l Hl]. destruct (f row) as [shown|e] eqn:E; [|done].
      simpl in Hl. destruct (many f rows) as [others|e] eqn:Em; [|done].
      constructor; [by eexists|]. apply IH. by eexists.
    + intros Hall. apply Forall_cons in Hall as [[shown ->] Hall].
      apply IH in Hall as [others ->]. simpl. by eexists.
Qed.

Lemma many_Raise {A B : Type} (f : A → Result B) (rows : list A) (e : Error) :
  many f rows = Raise e → ∃ row, row ∈ rows ∧ f row = Raise e.
Proof.
  induction rows as [|row rows IH]; simpl; [done|].
  destruct (f row) as [shown|e'] eqn:E; simpl.
  - destruct (many f rows) as [others|e'] eqn:Em; simpl; [done|].
    intros [= ->]. destruct (IH eq_refl) as (r & Hr & Hf).
    exists r. split; [by right|done].
  - intros [= ->]. exists row. split; [left|done].
Qed.

(** Serializing a user fails only for want of a profile. *)
Lemma v1_task_user_Ok (usr : User.t) :
  (∃ shown, Variant1.tasks_app.UserSerializer.to_representation usr = Ok shown)
  ↔ is_Some (User.fullname usr).
Proof.
  unfold Variant1.tasks_app.UserSerializer.to_representation,
    Variant1.tasks_app.UserSerializer.get_fullname.
  destruct (User.fullname usr) as [name|]; simpl.
  - split; [by eexists|by eexists].
  - split; [by intros [? ?]|by intros [? ?]].
Qed.

Lemma v1_board_user_Ok (usr : User.t) :
  (∃ shown, Variant1.boards_app.UserSerializer.to_representation usr = Ok shown)
  ↔ is_Some (User.fullname usr).
Proof.
  unfold Variant1.boards_app.UserSerializer.to_representation,
    Variant1.boards_app.UserSerializer.get_fullname.
  destruct (User.fullname usr) as [name|]; simpl.
  - split; [by eexists|by eexists].
  - split; [by intros [? ?]|by intros [? ?]].
Qed.

Lemma v1_nested_user_Ok (db : Store) (o : option nat) :
  (∃ shown, Variant1.tasks_app.TaskSerializer.nested_user db o = Ok shown)
  ↔ ∀ k, o = Some k → has_profile db k.
Proof.
  unfold Variant1.tasks_app.TaskSerializer.nested_user, has_profile.
  destruct o as [k|]; [|split; [done|by eexists]].
  destruct (get_user db k) as [usr|] eqn:Hu.
  - unfold Variant1.tasks_app.UserSerializer.to_representation,
      Variant1.tasks_app.UserSerializer.get_fullname.
    destruct (User.fullname usr) as [name|] eqn:Hn; simpl.
    + split; [|by eexists]. intros _ k' [= <-]. rewrite Hu. eauto.
    + split; [by intros [? ?]|]. intros Hk.
      destruct (Hk k eq_refl) as (usr' & name & Hu' & Hn').
      rewrite Hu in Hu'. injection Hu' as <-. congruence.
  - split; [by intros [? ?]|]. intros Hk.
    destruct (Hk k eq_refl) as (usr' & name & Hu' & _). congruence.
Qed.

(** A task can be serialized exactly when its assignee and its reviewer can
    be shown, whatever the request. *)
Lemma v1_task_shown (db : Store) (request : option Request) (t : Task.t) :
  (∃ rep,
     Variant1.tasks_app.TaskSerializer.to_representation db request t = Ok rep)
  ↔ task_shown db t.
Proof.
  unfold Variant1.tasks_app.TaskSerializer.to_representation, task_shown.
  rewrite <- !v1_nested_user_Ok.
  destruct (Variant1.tasks_app.TaskSerializer.nested_user db (Task.assignee t))
    as [sa|e]; simpl.
  - destruct (Variant1.tasks_app.TaskSerializer.nested_user db
                (Task.reviewer t)) as [sr|e]; simpl.
    + split; [eauto|]. intros _. destruct request as [r|]; [|by eexists].
      destruct (bool_decide _); by eexists.
    + split; [by intros [? ?]|by intros [_ [? ?]]].
  - split; [by intros [? ?]|by intros [[? ?] _]].
Qed.

(** What the representation of a task shows. *)
Lemma v1_to_representation_Ok (db : Store) (request : option Request)
    (t : Task.t) (rep : Variant1.tasks_app.TaskSerializer.data.t) :
  Variant1.tasks_app.TaskSerializer.to_representation db request t = Ok rep →
  Variant1.tasks_app.TaskSerializer.data.id rep = Task.id t
  ∧ Variant1.tasks_app.TaskSerializer.data.board rep = Task.board t
  ∧ Variant1.tasks_app.TaskSerializer.data.title rep = Task.title t
  ∧ Variant1.tasks_app.TaskSerializer.data.status rep = Task.status t
  ∧ Variant1.tasks_app.TaskSerializer.data.priority rep = Task.priority t
  ∧ (Variant1.tasks_app.UserSerializer.id
       <$> Variant1.tasks_app.TaskSerializer.data.assignee rep)
    = Task.assignee t
  ∧ (Variant1.tasks_app.UserSerializer.id
       <$> Variant1.tasks_app.TaskSerializer.data.reviewer rep)
    = Task.reviewer t
  ∧ Variant1.tasks_app.TaskSerializer.data.comments_count rep
    = match request with
      | Some r =>
          if bool_decide (method r = PATCH) then None
          else Some (length (task_comments db (Task.id t)))
      | None => Some (length (task_comments db (Task.id t)))
      end.
Proof.
  unfold Variant1.tasks_app.TaskSerializer.to_representation.
  assert (∀ k shown,
            Variant1.tasks_app.TaskSerializer.nested_user db k = Ok shown →
            Variant1.tasks_app.UserSerializer.id <$> shown = k) as Hnested.
  { intros k shown. unfold Variant1.tasks_app.TaskSerializer.nested_user.
    destruct k as [k|]; [|by intros [= <-]].
    destruct (get_user db k) as [usr|] eqn:Hu; [|done].
    unfold Variant1.tasks_app.UserSerializer.to_representation,
      Variant1.tasks_app.UserSerializer.get_fullname.
    destruct (User.fullname usr); [|done]. simpl. intros [= <-]. simpl.
    apply get_Some_inv in Hu as [_ Hu]. by rewrite Hu. }
  destruct (Variant1.tasks_app.TaskSerializer.nested_user db (Task.assignee t))
    as [sa|e] eqn:Ea; [|done].
  destruct (Variant1.tasks_app.TaskSerializer.nested_user db (Task.reviewer t))
    as [sr|e] eqn:Er; [|done].
  apply Hnested in Ea, Er. simpl.
  destruct request as [r|]; [case_bool_decide|]; intros [= <-]; simpl; done.
Qed.

(** Whether a task can be shown depends on the users only. *)
Lemma task_shown_users (db db' : Store) (t : Task.t) :
  users db' = users db → task_shown db' t ↔ task_shown db t.
Proof.
  intros Hu. unfold task_shown, has_profile, get_user. by rewrite Hu.
Qed.

Lemma v1_members_shown (db : Store) (b : Board.t) :
  (∃ l, many Variant1.boards_app.UserSerializer.to_representation
          (Variant1.boards_app.board_members db b) = Ok l)
  ↔ members_shown db b.
Proof.
  rewrite many_is_Ok, Forall_forall. unfold members_shown,
    Variant1.boards_app.board_members.
  split.
  - intros Hall usr Hin Hm. apply v1_board_user_Ok, Hall.
    by apply list_elem_of_filter.
  - intros Hall usr Hin. apply list_elem_of_filter in Hin as [Hm Hin].
    apply v1_board_user_Ok. by apply Hall.
Qed.

Lemma v1_board_tasks_shown (db : Store) (b : Board.t) :
  (∃ l, Variant1.boards_app.BoardDetailSerializer.get_tasks db b = Ok l)
  ↔ ∀ t, t ∈ tasks db → Task.board t = Board.id b → task_shown db t.
Proof.
  unfold Variant1.boards_app.BoardDetailSerializer.get_tasks. cbv zeta.
  rewrite many_is_Ok, Forall_forall. split.
  - intros Hall t Hin Hb. apply (v1_task_shown db None), Hall.
    unfold order_tasks_by_id_desc. rewrite merge_sort_Permutation.
    unfold board_tasks. by apply list_elem_of_filter.
  - intros Hall t Hin. unfold order_tasks_by_id_desc in Hin.
    rewrite merge_sort_Permutation in Hin. unfold board_tasks in Hin.
    apply list_elem_of_filter in Hin as [Hb Hin].
    apply v1_task_shown. by apply Hall.
Qed.

(** The detail of a board can be serialized exactly when its members and
    the assignees and reviewers of its tasks have profiles. *)
Lemma v1_detail_shown (db : Store) (b : Board.t) :
  (∃ data,
     Variant1.boards_app.BoardDetailSerializer.to_representation db b = Ok data)
  ↔ detail_shown db b.
Proof.
  unfold Variant1.boards_app.BoardDetailSerializer.to_representation,
    detail_shown.
  rewrite <- v1_members_shown, <- v1_board_tasks_shown.
  destruct (many _ (Variant1.boards_app.board_members db b)) as [sm|e]; simpl.
  - destruct (Variant1.boards_app.BoardDetailSerializer.get_tasks db b)
      as [st|e]; simpl.
    + split; [eauto|by eexists].
    + split; [by intros [? ?]|by intros [_ [? ?]]].
  - split; [by intros [? ?]|by intros [[? ?] _]].
Qed.

(** What the serializers raise is never an API exception: the answer is a
    server error. *)
Lemma v1_task_representation_Raise (db : Store) (request : option Request)
    (t : Task.t) (e : Error) :
  Variant1.tasks_app.TaskSerializer.to_representation db request t = Raise e →
  ∃ exc, e = Uncaught exc.
Proof.
  unfold Variant1.tasks_app.TaskSerializer.to_representation.
  assert (∀ o e,
            Variant1.tasks_app.TaskSerializer.nested_user db o = Raise e →
            ∃ exc, e = Uncaught exc) as Hnested.
  { intros o e'. unfold Variant1.tasks_app.TaskSerializer.nested_user.
    destruct o as [k|]; [|done].
    destruct (get_user db k) as [usr|]; [|intros [= <-]; eauto].
    unfold Variant1.tasks_app.UserSerializer.to_representation,
      Variant1.tasks_app.UserSerializer.get_fullname.
    destruct (User.fullname usr); simpl; [done|]. intros [= <-]. eauto. }
  destruct (Variant1.tasks_app.TaskSerializer.nested_user db (Task.assignee t))
    as [sa|e'] eqn:Ea; simpl; [|intros [= <-]; by eapply Hnested].
  destruct (Variant1.tasks_app.TaskSerializer.nested_user db (Task.reviewer t))
    as [sr|e'] eqn:Er; simpl; [|intros [= <-]; by eapply Hnested].
  destruct request as [r|]; [|done]. by destruct (bool_decide _).
Qed.

Lemma v1_board_users_Raise (l : list User.t) (e : Error) :
  many Variant1.boards_app.UserSerializer.to_representation l = Raise e →
  ∃ exc, e = Uncaught exc.
Proof.
  intros Hm. apply many_Raise in Hm as (usr & _ & Hr). revert Hr.
  unfold Variant1.boards_app.UserSerializer.to_representation,
    Variant1.boards_app.UserSerializer.get_fullname.
  destruct (User.fullname usr); simpl; [done|]. intros [= <-]. eauto.
Qed.

Lemma v1_detail_Raise (db : Store) (b : Board.t) (e : Error) :
  Variant1.boards_app.BoardDetailSerializer.to_representation db b = Raise e →
  ∃ exc, e = Uncaught exc.
Proof.
  unfold Variant1.boards_app.BoardDetailSerializer.to_representation.
  destruct (many _ (Variant1.boards_app.board_members db b)) as [sm|e'] eqn:Em;
    simpl; [|intros [= <-]; by eapply v1_board_users_Raise].
  destruct (Variant1.boards_app.BoardDetailSerializer.get_tasks db b)
    as [st|e'] eqn:Et; simpl; [done|]. intros [= <-].
  unfold Variant1.boards_app.BoardDetailSerializer.get_tasks in Et.
  apply many_Raise in Et as (t & _ & Hr).
  by eapply v1_task_representation_Raise.
Qed.

Lemma v1_updated_Raise (db : Store) (b : Board.t) (e : Error) :
  Variant1.boards_app.BoardUpdatedSerializer.to_representation db b = Raise e →
  ∃ exc, e = Uncaught exc.
Proof.
  unfold Variant1.boards_app.BoardUpdatedSerializer.to_representation.
  destruct (get_user db (Board.owner b)) as [owner|]; simpl;
    [|intros [= <-]; eauto].
  unfold Variant1.boards_app.UserSerializer.to_representation at 1,
    Variant1.boards_app.UserSerializer.get_fullname.
  destruct (User.fullname owner); simpl; [|intros [= <-]; eauto].
  destruct (many _ _) as [sm|e'] eqn:Em; simpl; [done|].
  intros [= <-]. by eapply v1_board_users_Raise.
Qed.

(** The answer after a save: a success, or a server error when the payload
    cannot be built; the store is the one the save left. *)
Lemma respond_after_save_cases {A : Type} (status : nat) (db' : Store)
    (data : Result A) :
  (∀ e, data = Raise e → ∃ exc, e = Uncaught exc) →
  let r := respond_after_save status db' data in
  r.2 = db'
  ∧ ((∃ payload, data = Ok payload ∧ r.1 = Success status payload)
     ∨ (∃ exc, data = Raise (Uncaught exc) ∧ r.1 = ServerError exc)).
Proof.
  intros Hraise r. subst r. unfold respond_after_save.
  destruct data as [payload|e]; simpl.
  - split; [done|]. left. eauto.
  - destruct (Hraise e eq_refl) as [exc ->]. split; [done|]. right. eauto.
Qed.

Lemma respond_after_save_snd {A : Type} (status : nat) (db' : Store)
    (data : Result A) :
  (respond_after_save status db' data).2 = db'.
Proof. by destruct data. Qed.

Lemma v1_board_retrieve_eq (db : Store) (b : Board.t) (u : nat) :
  NoDup (Board.id <$> boards db) → b ∈ boards db →
  Variant1.boards_app.BoardViewSet.retrieve db (Some u) (Board.id b)
  = if bool_decide (may_access u b)
    then (match Variant1.boards_app.BoardDetailSerializer.to_representation
                  db b with
          | Ok data => Success HTTP_200_OK data
          | Raise e => exception_handler e
          end, db)
    else (Forbidden default_message, db).
Proof.
  intros Hnd Hin. unfold Variant1.boards_app.BoardViewSet.retrieve. simpl.
  rewrite v1_board_get_object by done. case_bool_decide; [|done]. simpl.
  by destruct (Variant1.boards_app.BoardDetailSerializer.to_representation _ _).
Qed.

Lemma v1_board_update_cases (partial : bool) (db : Store) (b : Board.t)
    (u : nat) (d : Variant1.boards_app.BoardData) :
  NoDup (Board.id <$> boards db) → b ∈ boards db →
  let r :=
    Variant1.boards_app.BoardViewSet.update_with partial db (Some u)
      (Board.id b) d in
  if bool_decide (may_access u b)
  then is_success r.1 = true ∨ is_server_error r.1 = true
       ∨ is_bad_request r.1 = true ∧ r.2 = db
  else r = (Forbidden default_message, db).
Proof.
  intros Hnd Hin r. subst r.
  unfold Variant1.boards_app.BoardViewSet.update_with. cbv zeta.
  assert (∀ a, a ≠ list_action → a ≠ create →
            check_permissions Variant1.boards_app.BoardViewSet.permission_classes
              db (Variant1.boards_app.BoardViewSet.request_of (Some u) a)
            = Ok ()) as Hperm by (intros; done).
  rewrite Hperm, v1_board_get_object by (by destruct partial).
  case_bool_decide; [|done].
  cbn [bind].
  destruct (Variant1.boards_app.BoardUpdateSerializer.is_valid db partial d)
    as [v|e] eqn:Ev.
  2:{ right; right. revert Ev.
      unfold Variant1.boards_app.BoardUpdateSerializer.is_valid. cbv zeta.
      destruct (field_errors "title" _ ++ _)%list; [done|].
      by intros [= <-]. }
  cbn [bind].
  destruct (Variant1.boards_app.BoardUpdateSerializer.update db b v)
    as [board db'] eqn:Eu. cbn [run].
  destruct (respond_after_save_cases HTTP_200_OK db'
              (Variant1.boards_app.BoardUpdatedSerializer.to_representation
                 db' board) (v1_updated_Raise db' board))
    as (_ & [(? & _ & ->)|(? & _ & ->)]); [by left|by right; left].
Qed.

Lemma v2_board_retrieve_eq (db : Store) (b : Board.t) (u : nat) :
  NoDup (Board.id <$> boards db) → b ∈ boards db →
  Variant2.boards_app.BoardViewSet.retrieve db (Some u) (Board.id b)
  = if bool_decide (may_access u b)
    then (Success HTTP_200_OK (b, board_tasks db (Board.id b)), db)
    else (NotFoundResponse "Not found.", db).
Proof.
  intros Hnd Hin. unfold Variant2.boards_app.BoardViewSet.retrieve. simpl.
  rewrite v2_board_get_object by auto. by case_bool_decide.
Qed.

Lemma v2_board_update_cases (partial : bool) (db : Store) (b : Board.t)
    (u : nat) (d : Variant2.boards_app.BoardData) :
  NoDup (Board.id <$> boards db) → b ∈ boards db →
  let r :=
    Variant2.boards_app.BoardViewSet.update_as
      (if partial then partial_update else update) db (Some u)
      (Board.id b) d in
  if bool_decide (may_access u b)
  then is_success r.1 = true ∨ is_bad_request r.1 = true ∧ r.2 = db
  else r = (NotFoundResponse "Not found.", db).
Proof.
  intros Hnd Hin r. subst r.
  unfold Variant2.boards_app.BoardViewSet.update_as.
  destruct partial; simpl;
    rewrite v2_board_get_object by auto; case_bool_decide; simpl; try done;
    unfold Variant2.boards_app.BoardUpdateSerializer.is_valid; cbv zeta;
    (destruct (field_errors "title" _); simpl; [by left|by right]).
Qed.

(** C5.  In both variants an authenticated user gets past the permission
    checks of a retrieve and of an update of a board exactly when the user
    owns the board or is among its members; everybody else is turned
    away, with Forbidden in the first variant and with NotFound in the
    second, and the store stays as it was.  A retrieve that is let
    through changes nothing; it answers 200 in the second variant, and in
    the first variant 200 when the members of the board and the assignees
    and reviewers of its tasks have profiles, and a server error
    otherwise. *)
Theorem board_access_by_owner_or_member (partial : bool) (db : Store)
    (b : Board.t) (u : nat) (d1 : Variant1.boards_app.BoardData)
    (d2 : Variant2.boards_app.BoardData) :
  NoDup (Board.id <$> boards db) →
  b ∈ boards db →
  let retrieve1 :=
    Variant1.boards_app.BoardViewSet.retrieve db (Some u) (Board.id b) in
  let update1 :=
    Variant1.boards_app.BoardViewSet.update_with partial db (Some u)
      (Board.id b) d1 in
  let retrieve2 :=
    Variant2.boards_app.BoardViewSet.retrieve db (Some u) (Board.id b) in
  let update2 :=
    Variant2.boards_app.BoardViewSet.update_as
      (if partial then partial_update else update) db (Some u)
      (Board.id b) d2 in
  (turned_away retrieve1.1 = false ↔ may_access u b)
  ∧ (turned_away update1.1 = false ↔ may_access u b)
  ∧ (is_success retrieve2.1 = true ↔ may_access u b)
  ∧ (turned_away update2.1 = false ↔ may_access u b)
  ∧ (is_success retrieve1.1 = true ↔ may_access u b ∧ detail_shown db b)
  ∧ (may_access u b → ¬ detail_shown db b →
     is_server_error retrieve1.1 = true)
  ∧ retrieve1.2 = db ∧ retrieve2.2 = db
  ∧ (¬ may_access u b →
     retrieve1 = (Forbidden default_message, db)
     ∧ update1 = (Forbidden default_message, db)
     ∧ is_not_found retrieve2.1 = true ∧ retrieve2.2 = db
     ∧ is_not_found update2.1 = true ∧ update2.2 = db).
Proof.
  intros Hnd Hin retrieve1 update1 retrieve2 update2.
  subst retrieve1 update1 retrieve2 update2.
  pose proof (v1_board_update_cases partial db b u d1 Hnd Hin) as H1.
  pose proof (v2_board_update_cases partial db b u d2 Hnd Hin) as H2.
  pose proof (v1_detail_shown db b) as Hshown.
  pose proof (v1_detail_Raise db b) as Hraise.
  rewrite v1_board_retrieve_eq, v2_board_retrieve_eq by done.
  cbv zeta in H1, H2.
  destruct (bool_decide (may_access u b)) eqn:Hacc.
  - apply bool_decide_eq_true in Hacc.
    assert (turned_away
              (Variant1.boards_app.BoardViewSet.update_with partial db
                 (Some u) (Board.id b) d1).1 = false) as Hu1.
    { destruct H1 as [H1|[H1|[H1 _]]];
        destruct (Variant1.boards_app.BoardViewSet.update_with _ _ _ _ _).1;
        done. }
    assert (turned_away
              (Variant2.boards_app.BoardViewSet.update_as
                 (if partial then partial_update else update) db (Some u)
                 (Board.id b) d2).1 = false) as Hu2.
    { destruct H2 as [H2|[H2 _]];
        destruct (Variant2.boards_app.BoardViewSet.update_as _ _ _ _ _).1;
        done. }
    destruct (Variant1.boards_app.BoardDetailSerializer.to_representation db b)
      as [data|e] eqn:Erep.
    + assert (detail_shown db b) as Hd by (apply Hshown; by eexists).
      simpl. split_and!; try done.
    + destruct (Hraise e eq_refl) as [exc ->].
      assert (¬ detail_shown db b) as Hd
        by (intros Hd; apply Hshown in Hd as [? ?]; done).
      simpl. split_and!; try done. split; [done|]. by intros [_ ?].
  - apply bool_decide_eq_false in Hacc. rewrite H1, H2. simpl.
    split_and!; try done. split; [done|]. by intros [? _].
Qed.

Lemma board_access_by_owner_or_member_witness :
  NoDup (Board.id <$> boards Fixtures.db0)
  ∧ Fixtures.sprint ∈ boards Fixtures.db0
  ∧ turned_away
      (Variant1.boards_app.BoardViewSet.retrieve Fixtures.db0 (Some 2)
         (Board.id Fixtures.sprint)).1 = false.
Proof.
  assert (NoDup (Board.id <$> boards Fixtures.db0)) as Hnd
    by (apply (bool_decide_unpack _); vm_compute; exact I).
  assert (Fixtures.sprint ∈ boards Fixtures.db0) as Hin
    by (apply (bool_decide_unpack _); vm_compute; exact I).
  split; [exact Hnd|]. split; [exact Hin|].
  apply (proj1 (board_access_by_owner_or_member true Fixtures.db0
                  Fixtures.sprint 2 Fixtures.rename_v1 Fixtures.rename_v2
                  Hnd Hin)).
  right. apply (bool_decide_unpack _). vm_compute. exact I.
Defined.

(** ** Deleting a board *)

Lemma delete_board_spec (db : Store) (b : Board.t) :
  let db' := delete_board db b in
  (∀ x, x ∈ boards db' ↔ x ∈ boards db ∧ Board.id x ≠ Board.id b)
  ∧ (∀ t, t ∈ tasks db' ↔ t ∈ tasks db ∧ Task.board t ≠ Board.id b)
  ∧ (∀ c, c ∈ comments db'
          ↔ c ∈ comments db
            ∧ ¬ ∃ t, t ∈ tasks db ∧ Task.board t = Board.id b
                     ∧ Comment.task c = Task.id t).
Proof.
  unfold delete_board. simpl. split; [|split].
  - intros x. rewrite list_elem_of_filter. tauto.
  - intros t. rewrite list_elem_of_filter. tauto.
  - intros c. rewrite list_elem_of_filter, list_elem_of_fmap. split.
    + intros [Hc Hin]. split; [done|].
      intros (t & Ht & Hb & Hct). apply Hc. exists t. split; [done|].
      unfold board_tasks. by apply list_elem_of_filter.
    + intros [Hin Hc]. split; [|done].
      intros (t & Hct & Ht). unfold board_tasks in Ht.
      apply list_elem_of_filter in Ht as [Hb Ht]. apply Hc. eauto.
Qed.

Lemma v1_board_destroy_eq (db : Store) (b : Board.t) (u : option nat) :
  NoDup (Board.id <$> boards db) → b ∈ boards db →
  let r := Variant1.boards_app.BoardViewSet.destroy db u (Board.id b) in
  if bool_decide (u = Some (Board.owner b))
  then r = (Success HTTP_204_NO_CONTENT (), delete_board db b)
  else turned_away r.1 = true ∧ r.2 = db.
Proof.
  intros Hnd Hin r. subst r.
  unfold Variant1.boards_app.BoardViewSet.destroy.
  destruct u as [u|]; [|by rewrite bool_decide_eq_false_2].
  simpl. rewrite v1_board_get_object by done.
  case_bool_decide as Ho.
  - injection Ho as ->. rewrite bool_decide_eq_true_2 by (by left). simpl.
    unfold Variant1.boards_app.BoardViewSet.request_of.
    rewrite user_is_spec, bool_decide_eq_true_2 by done. done.
  - case_bool_decide; simpl; [|done].
    unfold Variant1.boards_app.BoardViewSet.request_of.
    rewrite user_is_spec, bool_decide_eq_false_2 by congruence. done.
Qed.

Lemma v2_board_get_object_destroy (db : Store) (b : Board.t) (u : nat) :
  NoDup (Board.id <$> boards db) → b ∈ boards db →
  Variant2.boards_app.BoardViewSet.get_object db
    (Variant2.boards_app.BoardViewSet.request_of (Some u) destroy) (Board.id b)
  = if bool_decide (may_access u b)
    then (if bool_decide (Board.owner b = u) then Ok b
          else Raise (PermissionDenied default_message))
    else Raise (NotFound "Not found.").
Proof.
  intros Hnd Hin.
  unfold Variant2.boards_app.BoardViewSet.get_object,
    Variant2.boards_app.BoardViewSet.get_queryset,
    Variant2.boards_app.BoardViewSet.request_of. simpl.
  rewrite get_board_visible by done.
  case_bool_decide as Hacc; [|done]. unfold Drf.get_object. simpl.
  rewrite user_is_spec. by case_bool_decide.
Qed.

Lemma v2_board_destroy_eq (db : Store) (b : Board.t) (u : option nat) :
  NoDup (Board.id <$> boards db) → b ∈ boards db →
  let r := Variant2.boards_app.BoardViewSet.destroy db u (Board.id b) in
  if bool_decide (u = Some (Board.owner b))
  then r = (Success HTTP_204_NO_CONTENT (), delete_board db b)
  else turned_away r.1 = true ∧ r.2 = db.
Proof.
  intros Hnd Hin r. subst r.
  unfold Variant2.boards_app.BoardViewSet.destroy.
  destruct u as [u|]; [|by rewrite bool_decide_eq_false_2].
  simpl. rewrite v2_board_get_object_destroy by done.
  case_bool_decide as Ho.
  - injection Ho as ->. rewrite bool_decide_eq_true_2 by (by left).
    rewrite bool_decide_eq_true_2 by done. done.
  - case_bool_decide; simpl; [|done].
    rewrite bool_decide_eq_false_2 by congruence. done.
Qed.

(** C6.  In both variants deleting a board succeeds exactly for its owner;
    every other caller is turned away and the store is left as it
    was.  A successful delete removes the board, every task on it and every
    comment on those tasks, and nothing else. *)
Theorem board_delete_by_owner_cascades (db : Store) (b : Board.t)
    (u : option nat) :
  NoDup (Board.id <$> boards db) →
  b ∈ boards db →
  let r1 := Variant1.boards_app.BoardViewSet.destroy db u (Board.id b) in
  let r2 := Variant2.boards_app.BoardViewSet.destroy db u (Board.id b) in
  (is_success r1.1 = true ↔ u = Some (Board.owner b))
  ∧ (is_success r2.1 = true ↔ u = Some (Board.owner b))
  ∧ (u ≠ Some (Board.owner b) →
     turned_away r1.1 = true ∧ r1.2 = db
     ∧ turned_away r2.1 = true ∧ r2.2 = db)
  ∧ (u = Some (Board.owner b) →
     r1.2 = r2.2
     ∧ (∀ x, x ∈ boards r1.2 ↔ x ∈ boards db ∧ Board.id x ≠ Board.id b)
     ∧ (∀ t, t ∈ tasks r1.2 ↔ t ∈ tasks db ∧ Task.board t ≠ Board.id b)
     ∧ (∀ c, c ∈ comments r1.2
             ↔ c ∈ comments db
               ∧ ¬ ∃ t, t ∈ tasks db ∧ Task.board t = Board.id b
                        ∧ Comment.task c = Task.id t)).
Proof.
  intros Hnd Hin r1 r2.
  pose proof (v1_board_destroy_eq db b u Hnd Hin) as H1.
  pose proof (v2_board_destroy_eq db b u Hnd Hin) as H2.
  cbv zeta in H1, H2. fold r1 in H1. fold r2 in H2.
  destruct (bool_decide (u = Some (Board.owner b))) eqn:Ho.
  - apply bool_decide_eq_true in Ho. rewrite H1, H2.
    change ((Success HTTP_204_NO_CONTENT (), delete_board db b).2)
      with (delete_board db b).
    split; [done|]. split; [done|]. split; [done|].
    intros _. split; [done|]. apply delete_board_spec.
  - apply bool_decide_eq_false in Ho.
    destruct H1 as [H1 H1'], H2 as [H2 H2'].
    repeat split; try done.
    + intros Hs. destruct r1.1; done.
    + intros Hs. destruct r2.1; done.
Qed.

Lemma board_delete_by_owner_cascades_witness :
  NoDup (Board.id <$> boards Fixtures.db0)
  ∧ Fixtures.sprint ∈ boards Fixtures.db0
  ∧ is_success
      (Variant1.boards_app.BoardViewSet.destroy Fixtures.db0 (Some 1)
         (Board.id Fixtures.sprint)).1 = true
  ∧ tasks
      (Variant1.boards_app.BoardViewSet.destroy Fixtures.db0 (Some 1)
         (Board.id Fixtures.sprint)).2 = []
  ∧ comments
      (Variant1.boards_app.BoardViewSet.destroy Fixtures.db0 (Some 1)
         (Board.id Fixtures.sprint)).2 = [].
Proof.
  assert (NoDup (Board.id <$> boards Fixtures.db0)) as Hnd
    by (apply (bool_decide_unpack _); vm_compute; exact I).
  assert (Fixtures.sprint ∈ boards Fixtures.db0) as Hin
    by (apply (bool_decide_unpack _); vm_compute; exact I).
  split; [exact Hnd|]. split; [exact Hin|]. split; [|split; reflexivity].
  apply (proj1 (board_delete_by_owner_cascades Fixtures.db0 Fixtures.sprint
                  (Some 1) Hnd Hin)).
  reflexivity.
Defined.

(** ** Listing boards *)

#[local] Instance id_desc_trans : Transitive id_desc.
Proof. unfold id_desc. intros x y z Hxy Hyz. lia. Qed.

#[local] Instance id_desc_total : Total id_desc.
Proof. unfold id_desc. intros x y. lia. Qed.

Lemma StronglySorted_strict (l : list Board.t) :
  StronglySorted id_desc l → NoDup (Board.id <$> l) →
  StronglySorted (λ x y, Board.id y < Board.id x) l.
Proof.
  induction 1 as [|x l Hs IH Hall]; intros Hnd; [constructor|].
  simpl in Hnd. apply NoDup_cons in Hnd as [Hx Hnd].
  constructor; [by apply IH|].
  apply Forall_forall. intros y Hy.
  rewrite Forall_forall in Hall. specialize (Hall y Hy). unfold id_desc in Hall.
  assert (Board.id y ≠ Board.id x); [|lia].
  intros Heq. apply Hx. rewrite <- Heq. by apply list_elem_of_fmap_2.
Qed.

Lemma visible_NoDup_ids (u : nat) (bs : list Board.t) :
  NoDup (Board.id <$> bs) →
  NoDup (Board.id <$> distinct (filter_owner_or_member u bs)).
Proof.
  intros Hnd. apply NoDup_fmap_2_strong; [|apply NoDup_remove_dups].
  intros x y Hx Hy Heq.
  apply elem_of_visible in Hx as [Hx _]. apply elem_of_visible in Hy as [Hy _].
  by apply (NoDup_pk_inj Board.id bs).
Qed.

(** Board ids are handed out in creation order: a new board gets an id above
    every id in the table. *)
Lemma board_create_id_fresh (db : Store) (owner : nat)
    (validated : string * list nat) :
  Forall (λ b, Board.id b < board_seq db) (boards db) →
  let out1 := Variant1.boards_app.BoardCreateSerializer.create db owner
                validated in
  let out2 := Variant2.boards_app.BoardCreateSerializer.create db owner
                validated in
  Forall (λ b, Board.id b < Board.id out1.1) (boards db)
  ∧ Forall (λ b, Board.id b < Board.id out2.1) (boards db)
  ∧ boards out1.2 = (boards db ++ [out1.1])%list
  ∧ boards out2.2 = (boards db ++ [out2.1])%list
  ∧ Forall (λ b, Board.id b < board_seq out1.2) (boards out1.2)
  ∧ Forall (λ b, Board.id b < board_seq out2.2) (boards out2.2).
Proof.
  intros Hseq. simpl. repeat split; try done.
  - rewrite Forall_app. split.
    + eapply Forall_impl; [exact Hseq|]. simpl. intros. lia.
    + apply Forall_singleton. simpl. lia.
  - rewrite Forall_app. split.
    + eapply Forall_impl; [exact Hseq|]. simpl. intros. lia.
    + apply Forall_singleton. simpl. lia.
Qed.

(** C7 (amended).  For every user the list of boards holds exactly the
    boards the user owns or is a member of, each once.  The first variant
    orders them by id, highest first, which is most recently created
    first; the second variant asks for no ordering. *)
Theorem board_list_shows_own_boards (db : Store) (u : nat) :
  NoDup (Board.id <$> boards db) →
  ∃ l1 l2 : list Board.t,
    Variant1.boards_app.BoardViewSet.list db (Some u)
    = (Success HTTP_200_OK
         (Variant1.boards_app.BoardListSerializer.to_representation db <$> l1),
       db)
    ∧ Variant2.boards_app.BoardViewSet.list db (Some u)
      = (Success HTTP_200_OK
           (Variant2.boards_app.BoardListSerializer.to_representation db
              <$> l2), db)
    ∧ (∀ b, b ∈ l1 ↔ b ∈ boards db ∧ may_access u b)
    ∧ (∀ b, b ∈ l2 ↔ b ∈ boards db ∧ may_access u b)
    ∧ NoDup (Board.id <$> l1)
    ∧ NoDup (Board.id <$> l2)
    ∧ StronglySorted (λ x y, Board.id y < Board.id x) l1.
Proof.
  intros Hnd.
  exists (order_by_id_desc (distinct (filter_owner_or_member u (boards db)))),
    (distinct (filter_owner_or_member u (boards db))).
  assert (NoDup (Board.id <$>
            order_by_id_desc (distinct (filter_owner_or_member u (boards db)))))
    as Hnd1.
  { unfold order_by_id_desc. rewrite merge_sort_Permutation.
    by apply visible_NoDup_ids. }
  split; [reflexivity|]. split; [reflexivity|]. split; [|split; [|split]].
  - intros b. unfold order_by_id_desc. rewrite merge_sort_Permutation.
    apply elem_of_visible.
  - intros b. apply elem_of_visible.
  - exact Hnd1.
  - split; [by apply visible_NoDup_ids|].
    apply StronglySorted_strict; [|exact Hnd1].
    unfold order_by_id_desc. apply StronglySorted_merge_sort; apply _.
Qed.

Lemma board_list_shows_own_boards_witness :
  NoDup (Board.id <$> boards Fixtures.db0)
  ∧ ∃ l1 : list Board.t,
      Variant1.boards_app.BoardViewSet.list Fixtures.db0 (Some 1)
      = (Success HTTP_200_OK
           (Variant1.boards_app.BoardListSerializer.to_representation
              Fixtures.db0 <$> l1), Fixtures.db0)
      ∧ StronglySorted (λ x y, Board.id y < Board.id x) l1.
Proof.
  assert (NoDup (Board.id <$> boards Fixtures.db0)) as Hnd
    by (apply (bool_decide_unpack _); vm_compute; exact I).
  split; [exact Hnd|].
  destruct (board_list_shows_own_boards Fixtures.db0 1 Hnd)
    as (l1 & l2 & H1 & _ & _ & _ & _ & _ & Hs).
  exists l1. split; [exact H1|exact Hs].
Defined.

(** The second variant lists Alice's boards in the order of the table, the
    older board first. *)
Lemma board_list_oldest_first :
  Board.id Fixtures.sprint < Board.id Fixtures.backlog
  ∧ (Variant2.boards_app.BoardViewSet.list Fixtures.db0 (Some 1)).1
    = Success HTTP_200_OK
        (Variant2.boards_app.BoardListSerializer.to_representation
           Fixtures.db0 <$> [Fixtures.sprint; Fixtures.backlog]).
Proof. split; [vm_compute; lia|]. vm_compute. reflexivity. Qed.

(** On the same store the first variant puts the newer board first. *)
Example board_list_newest_first :
  (Variant1.boards_app.BoardViewSet.list Fixtures.db0 (Some 1)).1
  = Success HTTP_200_OK
      (Variant1.boards_app.BoardListSerializer.to_representation
         Fixtures.db0 <$> [Fixtures.backlog; Fixtures.sprint]).
Proof. vm_compute. reflexivity. Qed.

(** ** Logging in *)

Lemma CharField_plain (required allow_blank partial : bool) (raw : string) :
  strip raw ≠ "" → has_null (strip raw) = false →
  CharField required allow_blank None None partial (Some raw)
  = Value (strip raw).
Proof.
  intros Hne Hnull. unfold CharField, CharFieldWith, null_errors. simpl.
  rewrite bool_decide_eq_false_2 by done. by rewrite Hnull.
Qed.

Lemma EmailField_plain (check : string → bool)
    (required allow_blank partial : bool) (raw : string) :
  strip raw ≠ "" → has_null (strip raw) = false → check (strip raw) = true →
  EmailField check required allow_blank None None partial (Some raw)
  = Value (strip raw).
Proof.
  intros Hne Hnull Hok. unfold EmailField, CharFieldWith, null_errors. simpl.
  rewrite bool_decide_eq_false_2 by done. by rewrite Hnull, Hok.
Qed.

Lemma exists_objects_get {A : Type} (queryset : list A) :
  exists_ queryset
  = match objects_get queryset with
    | DoesNotExist => false
    | _ => true
    end.
Proof. by destruct queryset as [|x [|y l]]. Qed.

Lemma get_or_create_token_spec (key : string) (db : Store) (u : nat) :
  let out := get_or_create_token key db u in
  get_token out.2 u = Some out.1
  ∧ users out.2 = users db ∧ boards out.2 = boards db
  ∧ tasks out.2 = tasks db ∧ comments out.2 = comments db.
Proof.
  unfold get_or_create_token.
  destruct (get_token db u) as [k|] eqn:E; simpl; [done|].
  split; [|done]. unfold get_token in *. simpl.
  rewrite filter_app. apply head_None in E. rewrite E. simpl.
  rewrite filter_cons. simpl. by rewrite decide_True.
Qed.

Lemma v1_login_cases `{!Externals} (db : Store) (e p : string) :
  strip e ≠ "" → has_null (strip e) = false → valid_email (strip e) = true →
  strip p ≠ "" → has_null (strip p) = false →
  Variant1.auth_app.LoginView.post db
    {| Variant1.auth_app.LoginData.email := Some e;
       Variant1.auth_app.LoginData.password := Some p |}
  = match objects_get (filter_email db (strip e)) with
    | DoesNotExist => (BadRequest [("email", "Invalid Email.")], db)
    | MultipleObjectsReturned => (ServerError "MultipleObjectsReturned", db)
    | Found user =>
        if check_password (strip p) (User.password user)
        then Variant1.auth_app.token_response HTTP_200_OK db user
        else (BadRequest [("error", "Invalid password.")], db)
    end.
Proof.
  intros He Hen Hv Hp Hpn. unfold Variant1.auth_app.LoginView.post,
    Variant1.auth_app.LoginSerializer.is_valid,
    Variant1.auth_app.LoginSerializer.get,
    Variant1.auth_app.LoginSerializer.validate_email.
  cbv zeta. simpl Variant1.auth_app.LoginData.email.
  simpl Variant1.auth_app.LoginData.password.
  rewrite EmailField_plain, CharField_plain by done.
  simpl. rewrite exists_objects_get.
  destruct (objects_get _) as [|user|] eqn:E; simpl; rewrite ?E; simpl;
    try done.
  by destruct (check_password _ _).
Qed.

Lemma v2_login_cases `{!Externals} (db : Store) (e p : string) :
  strip e ≠ "" → has_null (strip e) = false → valid_email (strip e) = true →
  strip p ≠ "" → has_null (strip p) = false →
  Variant2.auth_app.login db
    {| Variant2.auth_app.LoginData.email := Some e;
       Variant2.auth_app.LoginData.password := Some p |}
  = match objects_get (filter_email db (strip e)) with
    | DoesNotExist => (BadRequest [("error", "Invalid credentials.")], db)
    | MultipleObjectsReturned => (ServerError "MultipleObjectsReturned", db)
    | Found user =>
        match Variant2.auth_app.authenticate db (User.username user) (strip p)
        with
        | Some user => Variant2.auth_app.token_response HTTP_200_OK db user
        | None => (BadRequest [("error", "Invalid credentials.")], db)
        end
    end.
Proof.
  intros He Hen Hv Hp Hpn. unfold Variant2.auth_app.login,
    Variant2.auth_app.LoginSerializer_is_valid.
  cbv zeta. simpl Variant2.auth_app.LoginData.email.
  simpl Variant2.auth_app.LoginData.password.
  rewrite EmailField_plain, CharField_plain by done. simpl. done.
Qed.




(** ** Registering *)

Lemma field_errors_Invalid {A : Type} (name : string) (f : Field A) :
  field_errors name f = [] → ∀ m ms, f ≠ Invalid (m :: ms).
Proof. intros H m ms ->. discriminate. Qed.

Lemma CharFieldWith_cases (validators : string → list string)
    (required allow_blank : bool) (max_length min_length : option nat)
    (raw : string) :
  match CharFieldWith validators required allow_blank max_length min_length
          false (Some raw) with
  | Value s => s = strip raw
  | Invalid messages => messages ≠ []
  | Skip => False
  end.
Proof.
  unfold CharFieldWith. case_bool_decide as Hb.
  - destruct allow_blank; [by rewrite Hb|done].
  - by destruct (length_errors _ _ _ ++ null_errors _ ++ validators _)%list.
Qed.

Lemma field_errors_nonempty {A : Type} (name : string) (messages : list string) :
  messages ≠ [] → field_errors (A := A) name (Invalid messages) ≠ [].
Proof. by destruct messages. Qed.











(** Passwords that differ only in surrounding white space are equal after
    trimming, and the registration goes through. *)
Example registration_trims_passwords :
  is_success
    (Variant2.auth_app.registration (H := Fixtures.plain) Fixtures.db0
       {| Variant2.auth_app.RegistrationData.email := Some "dave@kan.io";
          Variant2.auth_app.RegistrationData.password := Some "abcdefgh ";
          Variant2.auth_app.RegistrationData.repeated_password :=
            Some "abcdefgh";
          Variant2.auth_app.RegistrationData.fullname := Some "Dave" |}).1
  = true.
Proof. vm_compute. reflexivity. Qed.

(** ** The board table stays well formed *)

Lemma boards_wf_append (db : Store) (board : Board.t) :
  boards_wf db → Board.id board = board_seq db →
  boards_wf (set_boards db (boards db ++ [board])%list (S (board_seq db))).
Proof.
  intros [Hnd Hseq] Hid. split; simpl.
  - rewrite fmap_app. apply NoDup_app. split; [done|]. split.
    + intros k Hk Hk'. apply list_elem_of_singleton in Hk'. subst k.
      apply list_elem_of_fmap in Hk as (b & Hb & Hin).
      rewrite Forall_forall in Hseq. specialize (Hseq b Hin). lia.
    + apply NoDup_singleton.
  - rewrite Forall_app. split.
    + eapply Forall_impl; [exact Hseq|]. simpl. intros. lia.
    + apply Forall_singleton. lia.
Qed.

Lemma boards_wf_replace (db : Store) (instance new : Board.t) :
  boards_wf db → Board.id new = Board.id instance →
  boards_wf
    (set_boards db
       ((λ b, if bool_decide (Board.id b = Board.id instance) then new else b)
          <$> boards db) (board_seq db)).
Proof.
  intros [Hnd Hseq] Hid.
  assert (∀ b, Board.id (if bool_decide (Board.id b = Board.id instance)
                         then new else b) = Board.id b) as Hsame.
  { intros b. case_bool_decide; congruence. }
  split; simpl.
  - rewrite <- list_fmap_compose.
    erewrite list_fmap_ext; [exact Hnd|]. intros i b _. apply Hsame.
  - apply Forall_fmap. eapply Forall_impl; [exact Hseq|].
    intros b Hb. simpl. by rewrite Hsame.
Qed.

Lemma boards_wf_delete (db : Store) (b : Board.t) :
  boards_wf db → boards_wf (delete_board db b).
Proof.
  intros [Hnd Hseq]. unfold delete_board. split; simpl.
  - eapply sublist_NoDup; [exact Hnd|].
    apply fmap_sublist, sublist_filter.
  - apply Forall_forall. intros x Hx.
    apply list_elem_of_filter in Hx as [_ Hx].
    rewrite Forall_forall in Hseq. by apply Hseq.
Qed.

(** Creating, updating and deleting a board keep the table well formed, in
    both variants. *)
Lemma boards_wf_preserved (db : Store) (owner : nat) (instance : Board.t)
    (created : string * list nat)
    (updated : option string * option (list nat)) :
  boards_wf db →
  boards_wf (Variant1.boards_app.BoardCreateSerializer.create db owner
               created).2
  ∧ boards_wf (Variant2.boards_app.BoardCreateSerializer.create db owner
                 created).2
  ∧ boards_wf (Variant1.boards_app.BoardUpdateSerializer.update db instance
                 updated).2
  ∧ boards_wf (Variant2.boards_app.BoardUpdateSerializer.update db instance
                 updated).2
  ∧ boards_wf (delete_board db instance)
  ∧ boards_wf (Variant2.boards_app.board_delete db instance).
Proof.
  intros Hwf.
  split; [by apply boards_wf_append|].
  split; [by apply boards_wf_append|].
  split; [apply boards_wf_replace;
          [done|destruct updated as [[t|] [ms|]]; done]|].
  split; [apply boards_wf_replace;
          [done|destruct updated as [[t|] [ms|]]; done]|].
  split; by apply boards_wf_delete.
Qed.

Example boards_wf_sample : boards_wf Fixtures.db0.
Proof.
  split; apply (bool_decide_unpack _); vm_compute; exact I.
Qed.

(** ** The scenarios of the specification on the sample store *)

(** Bob, a member of the board, creates a task assigned to himself. *)
Example member_creates_own_task :
  is_success
    (Variant1.tasks_app.TaskViewSet.create (H := Fixtures.plain) Fixtures.db0
       (Some 2) (Fixtures.task_data_v1 (Some 1) "Estimate" (Some 2))).1 = true
  ∧ is_success
      (Variant2.tasks_app.TaskViewSet.create (H := Fixtures.plain) Fixtures.db0
         (Some 2) (Fixtures.task_data_v2 (Some 1) "Estimate" (Some 2))).1
    = true.
Proof. split; vm_compute; reflexivity. Qed.

(** Carol, who is neither owner nor member, cannot retrieve the board. *)
Example outsider_cannot_retrieve :
  (Variant1.boards_app.BoardViewSet.retrieve Fixtures.db0 (Some 3) 1).1
  = Forbidden default_message
  ∧ (Variant2.boards_app.BoardViewSet.retrieve Fixtures.db0 (Some 3) 1).1
    = NotFoundResponse "Not found.".
Proof. split; vm_compute; reflexivity. Qed.

(** The first variant turns Carol away from the comments of the task. *)
Example outsider_cannot_comment :
  is_forbidden
    (Variant1.tasks_app.TaskCommentsViewSet.create [IsAuthenticated]
       Fixtures.db0 (Some 3) 1 (Some "Hello")).1 = true
  ∧ is_forbidden
      (Variant1.tasks_app.TaskCommentsViewSet.list [IsAuthenticated]
         Fixtures.db0 (Some 3) 1).1 = true.
Proof. split; vm_compute; reflexivity. Qed.

(** Bob deletes the task he is assigned to; Carol may not. *)
Example assignee_deletes_task :
  (Variant1.tasks_app.TaskViewSet.destroy Fixtures.db0 (Some 2) 1).1
  = Success HTTP_204_NO_CONTENT ()
  ∧ is_forbidden
      (Variant1.tasks_app.TaskViewSet.destroy Fixtures.db0 (Some 3) 1).1
    = true.
Proof. split; vm_compute; reflexivity. Qed.

(** Alice deletes her board: the task and its comment are gone. *)
Example owner_deletes_board :
  let db := (Variant1.boards_app.BoardViewSet.destroy Fixtures.db0 (Some 1) 1).2
  in boards db = [Fixtures.backlog] ∧ tasks db = [] ∧ comments db = [].
Proof. vm_compute. repeat split; reflexivity. Qed.

(** * Further properties of the code

    The statements below follow the serializers, views and permission
    classes through their error paths, their effects on the store and the
    ways they compose. *)

(** ** Tools *)

Lemma get_is_Some {A : Type} (pk : A → nat) (rows : list A) (k : nat) :
  is_Some (get pk rows k) ↔ k ∈ pk <$> rows.
Proof.
  split.
  - intros [r Hr]. apply get_Some_inv in Hr as [Hin <-].
    by apply list_elem_of_fmap_2.
  - intros Hk. apply list_elem_of_fmap in Hk as (r & -> & Hin).
    destruct (get pk rows (pk r)) as [x|] eqn:E; [eauto|].
    by destruct (get_None_inv pk rows (pk r) E r Hin).
Qed.

Lemma get_fmap_same_pk {A : Type} (pk : A → nat) (f : A → A) (rows : list A)
    (k : nat) :
  (∀ r, pk (f r) = pk r) →
  get pk (f <$> rows) k = f <$> get pk rows k.
Proof.
  intros Hpk. unfold get. induction rows as [|r rows IH]; [done|].
  rewrite fmap_cons, !filter_cons, Hpk.
  destruct (decide (pk r = k)); [done|]. exact IH.
Qed.

Lemma elem_of_users_with_id_in (db : Store) (ids : list nat) (k : nat) :
  k ∈ users_with_id_in db ids ↔ k ∈ ids ∧ is_Some (get_user db k).
Proof.
  unfold users_with_id_in, get_user.
  rewrite elem_of_list_to_set, list_elem_of_filter, get_is_Some. done.
Qed.

Lemma users_with_id_in_nil (db : Store) : users_with_id_in db [] = ∅.
Proof.
  apply leibniz_equiv. apply elem_of_equiv_empty. intros k Hk.
  apply elem_of_users_with_id_in in Hk as [Hk _]. by apply elem_of_nil in Hk.
Qed.

(** Binding in the monad of results, read backwards. *)
Lemma bind_Ok {A B : Type} (m : Result A) (k : A → Result B) (b : B) :
  bind m k = Ok b → ∃ a, m = Ok a ∧ k a = Ok b.
Proof. destruct m as [a|e]; simpl; [eauto|done]. Qed.

Lemma run_bind_success {A B : Type} (db db' : Store) (m : Result A)
    (k : A → Result (Response B * Store)) (status : nat) (x : B) :
  run db (bind m k) = (Success status x, db') →
  ∃ a, m = Ok a ∧ run db (k a) = (Success status x, db').
Proof. destruct m as [a|e]; simpl; [eauto|destruct e; done]. Qed.

Lemma get_object_Ok {S O : Type} (perms : list (Permission S O)) (db : S)
    (request : Request) (found : option O) (obj : O) :
  Drf.get_object perms db request found = Ok obj →
  found = Some obj ∧ check_object_permissions perms db request obj = Ok ().
Proof.
  unfold Drf.get_object. destruct found as [o|]; [|done]. simpl.
  destruct (check_object_permissions perms db request o) as [[]|e] eqn:E;
    [|done].
  simpl. intros [= <-]. done.
Qed.

(** Taking a successful body apart: every bind, conditional and match on
    the way to the result is inverted. *)
Ltac peel :=
  repeat match goal with
  | H : bind _ _ = Ok _ |- _ =>
      let a := fresh "a" in
      let Ha := fresh "Ha" in
      apply bind_Ok in H as (a & Ha & H)
  | H : Ok _ = Ok _ |- _ => injection H as <-
  | H : Raise _ = Ok _ |- _ => discriminate H
  | H : (if ?b then _ else _) = Ok _ |- _ => destruct b eqn:?
  | H : match ?x with _ => _ end = Ok _ |- _ => destruct x eqn:?
  | H : (let (_, _) := ?x in _) = Ok _ |- _ => destruct x eqn:?
  end.

(** *** Trimming *)

Lemma rstrip_idemp (s : string) : rstrip (rstrip s) = rstrip s.
Proof.
  induction s as [|c s IH]; [done|]. simpl.
  destruct (rstrip s) as [|k ks] eqn:E.
  - destruct (is_space c) eqn:Ec; [done|]. simpl. by rewrite Ec.
  - simpl in *. rewrite IH. done.
Qed.

Lemma lstrip_head (s : string) (c : Ascii.ascii) (r : string) :
  lstrip s = String c r → is_space c = false.
Proof.
  induction s as [|k s IH]; [done|]. simpl.
  destruct (is_space k) eqn:Ek; [exact IH|]. by intros [= <- _].
Qed.

Lemma rstrip_head (c : Ascii.ascii) (r : string) :
  is_space c = false → ∃ r', rstrip (String c r) = String c r'.
Proof.
  intros Hc. simpl. destruct (rstrip r); rewrite ?Hc; eauto.
Qed.

Lemma strip_idemp (s : string) : strip (strip s) = strip s.
Proof.
  unfold strip. destruct (lstrip s) as [|c r] eqn:E; [done|].
  pose proof (lstrip_head _ _ _ E) as Hc.
  destruct (rstrip_head c r Hc) as [r' Hr]. rewrite Hr.
  assert (lstrip (String c r') = String c r') as -> by (simpl; by rewrite Hc).
  rewrite <- Hr. apply rstrip_idemp.
Qed.

(** *** Fields that produced a value *)

Lemma with_validate_value_inv {A : Type} (f : Field A) (validate : A → Field A)
    (a : A) :
  field_value (with_validate f validate) = Some a →
  ∃ a0, f = Value a0 ∧ validate a0 = Value a.
Proof.
  destruct f as [|a0|ms]; simpl; try done.
  destruct (validate a0) as [|a1|ms] eqn:E; simpl; try done.
  intros [= ->]. eauto.
Qed.

Lemma CharFieldWith_Value_inv (validators : string → list string)
    (required allow_blank : bool) (max_length min_length : option nat)
    (partial : bool) (input : option string) (s : string) :
  CharFieldWith validators required allow_blank max_length min_length partial
    input = Value s →
  ∃ raw, input = Some raw ∧ s = strip raw
         ∧ has_null s = false
         ∧ (s ≠ "" → validators s = []).
Proof.
  unfold CharFieldWith. destruct input as [raw|];
    [|by destruct (required && negb partial)].
  case_bool_decide as Hb.
  - destruct allow_blank; [|done]. intros [= <-]. exists raw.
    rewrite Hb. done.
  - destruct (length_errors _ _ _ ++ null_errors _ ++ validators _)%list
      eqn:E; [|done].
    intros [= <-]. exists raw. split; [done|]. split; [done|].
    apply app_eq_nil in E as [_ E]. apply app_eq_nil in E as [En E].
    split; [|done]. unfold null_errors in En.
    by destruct (has_null (strip raw)).
Qed.

Lemma ChoiceField_no_errors (choices : list string) (name : string)
    (input : option string) :
  field_errors name (ChoiceField choices input) = [] →
  field_value (ChoiceField choices input) = input
  ∧ ∀ s, input = Some s → s ∈ choices.
Proof.
  unfold ChoiceField. destruct input as [s|]; [|done].
  case_bool_decide; [|done]. intros _. split; [done|]. by intros ? [= <-].
Qed.

Lemma CharField_required_no_errors (allow_blank : bool)
    (max_length min_length : option nat) (name : string)
    (input : option string) :
  field_errors name
    (CharField true allow_blank max_length min_length false input) = [] →
  ∃ raw, input = Some raw
         ∧ field_value
             (CharField true allow_blank max_length min_length false input)
           = Some (strip raw).
Proof.
  destruct input as [raw|]; [|done]. intros Herr. exists raw. split; [done|].
  unfold CharField in *.
  pose proof (CharFieldWith_cases (λ _, []) true allow_blank max_length
                min_length raw) as Hc.
  destruct (CharFieldWith _ _ _ _ _ _ _) as [|s|ms]; [done| |].
  - by subst s.
  - destruct ms; done.
Qed.

Lemma elem_of_field_errors {A : Type} (name key m : string) (f : Field A) :
  (key, m) ∈ field_errors name f → key = name.
Proof.
  destruct f as [| |ms]; simpl; try (by intros ?%elem_of_nil).
  intros Hin. apply list_elem_of_fmap in Hin as (x & [= -> _] & _). done.
Qed.

Lemma exists_false {A : Type} (l : list A) : exists_ l = false → l = [].
Proof. by destruct l. Qed.

(** *** Tokens *)

Lemma get_or_create_token_found (key : string) (db : Store) (u : nat)
    (tok : Token.t) :
  get_token db u = Some tok → get_or_create_token key db u = (tok, db).
Proof. intros H. unfold get_or_create_token. by rewrite H. Qed.

Lemma get_or_create_token_fst (key : string) (db : Store) (u : nat) :
  get_token (get_or_create_token key db u).2 u
  = Some (get_or_create_token key db u).1.
Proof. apply get_or_create_token_spec. Qed.

(** ** Boards: creating and updating *)

(** X1.  The board a creation stores has the requested title, the caller
    as owner and the next id; its members are exactly the requested ids
    that belong to existing users, unknown ids being dropped without an
    error.  The creation code of the two variants stores the same board. *)
Theorem board_create_keeps_known_members (db : Store) (owner : nat)
    (title : string) (ids : list nat) :
  let out1 :=
    Variant1.boards_app.BoardCreateSerializer.create db owner (title, ids) in
  let out2 :=
    Variant2.boards_app.BoardCreateSerializer.create db owner (title, ids) in
  (∀ k, k ∈ Board.members out1.1 ↔ k ∈ ids ∧ is_Some (get_user db k))
  ∧ Board.owner out1.1 = owner
  ∧ Board.title out1.1 = title
  ∧ Board.id out1.1 = board_seq db
  ∧ boards out1.2 = (boards db ++ [out1.1])%list
  ∧ out2 = out1.
Proof.
  intros out1 out2. subst out1 out2. simpl.
  split; [intros k; apply elem_of_users_with_id_in|].
  repeat split.
  unfold Variant2.boards_app.BoardCreateSerializer.create,
    Variant1.boards_app.BoardCreateSerializer.create. simpl.
  destruct ids as [|i ids]; [|done]. by rewrite users_with_id_in_nil.
Qed.

Lemma validate_members_spec (db : Store) (value : list nat) :
  (Forall (λ k, is_Some (get_user db k)) value
   ∧ Variant1.boards_app.BoardUpdateSerializer.validate_members db value
     = Value value)
  ∨ (¬ Forall (λ k, is_Some (get_user db k)) value
     ∧ ∃ msg,
         Variant1.boards_app.BoardUpdateSerializer.validate_members db value
         = Invalid [msg]).
Proof.
  unfold Variant1.boards_app.BoardUpdateSerializer.validate_members.
  cbv zeta.
  destruct (filter (λ k, k ∉ users_with_id_in db value) (remove_dups value))
    as [|i ids] eqn:E.
  - left. split; [|done]. apply Forall_forall. intros k Hk.
    destruct (decide (k ∈ users_with_id_in db value)) as [Hin|Hout].
    + by apply elem_of_users_with_id_in in Hin as [_ ?].
    + assert (k ∈ filter (λ k, k ∉ users_with_id_in db value)
                    (remove_dups value)) as Hf.
      { apply list_elem_of_filter. split; [done|].
        by apply elem_of_remove_dups. }
      rewrite E in Hf. by apply elem_of_nil in Hf.
  - right. split; [|eauto]. intros Hall.
    assert (i ∈ filter (λ k, k ∉ users_with_id_in db value)
                  (remove_dups value)) as Hf by (rewrite E; left).
    apply list_elem_of_filter in Hf as [Hout Hin].
    rewrite elem_of_remove_dups in Hin. apply Hout.
    apply elem_of_users_with_id_in. split; [done|].
    rewrite Forall_forall in Hall. by apply Hall.
Qed.

(** X2.  An update of the first variant accepts a list of member ids
    exactly when every id belongs to an existing user; with an unknown id
    the update of an owner or member fails with a validation error on
    [members] and changes nothing.  The second variant has no such check:
    the same list is accepted and the unknown ids are dropped. *)
Theorem board_update_checks_member_ids (partial : bool) (db : Store)
    (b : Board.t) (u : nat) (d1 : Variant1.boards_app.BoardData)
    (ms : list nat) :
  NoDup (Board.id <$> boards db) →
  b ∈ boards db →
  may_access u b →
  Variant1.boards_app.members d1 = Some ms →
  let known := Forall (λ k, is_Some (get_user db k)) ms in
  let r1 :=
    Variant1.boards_app.BoardViewSet.update_with partial db (Some u)
      (Board.id b) d1 in
  let r2 :=
    Variant2.boards_app.BoardViewSet.update_as
      (if partial then partial_update else update) db (Some u) (Board.id b)
      {| Variant2.boards_app.title := None;
         Variant2.boards_app.members := Some ms |} in
  (Variant1.boards_app.BoardUpdateSerializer.validate_members db ms = Value ms
   ↔ known)
  ∧ (¬ known →
     ∃ errors msg,
       r1 = (BadRequest errors, db) ∧ ("members", msg) ∈ errors)
  ∧ ∃ b',
      r2.1 = Success HTTP_200_OK b'
      ∧ ∀ k, k ∈ Board.members b' ↔ k ∈ ms ∧ is_Some (get_user db k).
Proof.
  intros Hnd Hin Hacc Hms known r1 r2. subst known r1 r2.
  split; [|split].
  - destruct (validate_members_spec db ms) as [[Hall ->]|[Hno [msg ->]]];
      split; try done.
  - intros Hno.
    destruct (validate_members_spec db ms) as [[Hall _]|[_ [msg Hv]]]; [done|].
    unfold Variant1.boards_app.BoardViewSet.update_with.
    assert (∀ a, a ≠ list_action → a ≠ create →
              Variant1.boards_app.BoardViewSet.get_object db
                (Variant1.boards_app.BoardViewSet.request_of (Some u) a)
                (Board.id b) = Ok b) as Hget.
    { intros a Ha1 Ha2. rewrite v1_board_get_object by done.
      by rewrite bool_decide_eq_true_2. }
    assert (∃ errors,
              Variant1.boards_app.BoardUpdateSerializer.is_valid db partial d1
              = Raise (ValidationError errors) ∧ ("members", msg) ∈ errors)
      as (errors & Hv' & Hmem).
    { unfold Variant1.boards_app.BoardUpdateSerializer.is_valid. cbv zeta.
      rewrite Hms. simpl with_validate. rewrite Hv.
      destruct (field_errors "title" _
                ++ field_errors "members" (Invalid [msg]))%list
        as [|e es] eqn:E.
      - apply app_eq_nil in E as [_ E]. discriminate.
      - eexists. split; [reflexivity|]. rewrite <- E.
        apply elem_of_app. right. simpl. left. }
    exists errors, msg. split; [|done].
    destruct partial; simpl; rewrite Hget by done; simpl; rewrite Hv'; done.
  - unfold Variant2.boards_app.BoardViewSet.update_as.
    assert (∀ a, a = retrieve ∨ a = update ∨ a = partial_update →
              Variant2.boards_app.BoardViewSet.get_object db
                (Variant2.boards_app.BoardViewSet.request_of (Some u) a)
                (Board.id b) = Ok b) as Hget.
    { intros a Ha. rewrite v2_board_get_object by done.
      by rewrite bool_decide_eq_true_2. }
    eexists. split.
    + destruct partial; simpl; rewrite Hget by auto; simpl; reflexivity.
    + intros k. unfold Variant2.boards_app.BoardUpdateSerializer.update.
      simpl. apply elem_of_users_with_id_in.
Qed.

Lemma board_update_checks_member_ids_witness :
  NoDup (Board.id <$> boards Fixtures.db0)
  ∧ Fixtures.sprint ∈ boards Fixtures.db0
  ∧ may_access 1 Fixtures.sprint
  ∧ ∃ errors msg,
      Variant1.boards_app.BoardViewSet.update_with true Fixtures.db0 (Some 1)
        (Board.id Fixtures.sprint) Fixtures.invite_v1
      = (BadRequest errors, Fixtures.db0)
      ∧ ("members", msg) ∈ errors.
Proof.
  assert (NoDup (Board.id <$> boards Fixtures.db0)) as Hnd
    by (apply (bool_decide_unpack _); vm_compute; exact I).
  assert (Fixtures.sprint ∈ boards Fixtures.db0) as Hin
    by (apply (bool_decide_unpack _); vm_compute; exact I).
  assert (may_access 1 Fixtures.sprint) as Hacc by (left; reflexivity).
  split; [exact Hnd|]. split; [exact Hin|]. split; [exact Hacc|].
  apply (proj1 (proj2 (board_update_checks_member_ids true Fixtures.db0
                         Fixtures.sprint 1 Fixtures.invite_v1 [2; 9]
                         Hnd Hin Hacc eq_refl))).
  apply (bool_decide_unpack _). vm_compute. exact I.
Defined.

(** X3.  A board update changes what was sent and nothing else: the id
    and the owner stay, the title stays unless one was sent, the members
    stay when no list was sent, an empty list clears them and any other
    list leaves the ids of existing users.  The updated row is what a
    lookup of the board returns afterwards, all other boards, the tasks,
    the comments and the users are as before, and the update code of the
    two variants does the same. *)
Theorem board_update_is_partial (db : Store) (instance : Board.t)
    (title : option string) (ids : option (list nat)) :
  let out :=
    Variant1.boards_app.BoardUpdateSerializer.update db instance (title, ids) in
  Board.id out.1 = Board.id instance
  ∧ Board.owner out.1 = Board.owner instance
  ∧ Board.title out.1 = default (Board.title instance) title
  ∧ (ids = None → Board.members out.1 = Board.members instance)
  ∧ (ids = Some [] → Board.members out.1 = ∅)
  ∧ (∀ ms k, ids = Some ms →
       k ∈ Board.members out.1 ↔ k ∈ ms ∧ is_Some (get_user db k))
  ∧ (is_Some (get_board db (Board.id instance)) →
     get_board out.2 (Board.id instance) = Some out.1)
  ∧ (∀ k, k ≠ Board.id instance → get_board out.2 k = get_board db k)
  ∧ tasks out.2 = tasks db ∧ comments out.2 = comments db
  ∧ users out.2 = users db
  ∧ Variant2.boards_app.BoardUpdateSerializer.update db instance (title, ids)
    = out.
Proof.
  intros out. subst out.
  unfold Variant1.boards_app.BoardUpdateSerializer.update,
    Variant2.boards_app.BoardUpdateSerializer.update.
  cbn [fst snd].
  set (instance1 := match title with Some _ => _ | None => _ end).
  set (instance2 := match ids with Some _ => _ | None => _ end).
  assert (Board.id instance2 = Board.id instance) as Hid
    by (subst instance1 instance2; destruct title, ids; reflexivity).
  split; [exact Hid|].
  split; [subst instance1 instance2; destruct title, ids; reflexivity|].
  split; [subst instance1 instance2; destruct title, ids; reflexivity|].
  split; [intros ->; subst instance1 instance2; destruct title; reflexivity|].
  split; [intros ->; subst instance1 instance2; simpl;
          apply users_with_id_in_nil|].
  split; [intros ms k ->; subst instance1 instance2; simpl;
          apply elem_of_users_with_id_in|].
  split; [|split; [|done]].
  - intros [b Hb]. unfold get_board in *. simpl.
    rewrite get_fmap_same_pk by (intros r; case_bool_decide; congruence).
    rewrite Hb. simpl. apply get_Some_inv in Hb as [_ Hb].
    by rewrite bool_decide_eq_true_2.
  - intros k Hk. unfold get_board. simpl.
    rewrite get_fmap_same_pk by (intros r; case_bool_decide; congruence).
    destruct (get Board.id (boards db) k) as [b|] eqn:Hb; [|done]. simpl.
    apply get_Some_inv in Hb as [_ Hb].
    rewrite bool_decide_eq_false_2 by congruence. done.
Qed.

(** X4.  On boards a PUT behaves exactly like a PATCH, in both variants:
    for every caller, board and body the two requests give the same answer
    and the same store. *)
Theorem board_put_is_patch (db : Store) (u : option nat) (pk : nat)
    (d1 : Variant1.boards_app.BoardData) (d2 : Variant2.boards_app.BoardData) :
  Variant1.boards_app.BoardViewSet.update db u pk d1
  = Variant1.boards_app.BoardViewSet.partial_update db u pk d1
  ∧ Variant2.boards_app.BoardViewSet.update db u pk d2
    = Variant2.boards_app.BoardViewSet.partial_update db u pk d2.
Proof.
  split.
  - unfold Variant1.boards_app.BoardViewSet.update,
      Variant1.boards_app.BoardViewSet.partial_update,
      Variant1.boards_app.BoardViewSet.update_with,
      Variant1.boards_app.BoardViewSet.get_object,
      Variant1.boards_app.BoardViewSet.get_queryset.
    destruct u as [u|]; reflexivity.
  - unfold Variant2.boards_app.BoardViewSet.update,
      Variant2.boards_app.BoardViewSet.partial_update,
      Variant2.boards_app.BoardViewSet.update_as,
      Variant2.boards_app.BoardViewSet.get_object,
      Variant2.boards_app.BoardViewSet.get_queryset.
    destruct u as [u|]; reflexivity.
Qed.

(** ** Looking a user up by e-mail *)

Lemma filter_email_inv (db : Store) (e : string) (user : User.t) :
  user ∈ filter_email db e → user ∈ users db ∧ User.email user = e.
Proof. unfold filter_email. rewrite list_elem_of_filter. tauto. Qed.

(** X5.  The e-mail check of either variant answers an anonymous caller
    with 401, a missing or empty [email] parameter with 400 and an address
    no user has with 404.  When exactly one user has the address the
    second variant returns the user's id, e-mail and full name; the first
    variant does so when the user has a profile and fails with a server
    error otherwise.  Whatever is returned with success names a stored
    user whose e-mail is the requested one. *)
Theorem email_check_outcomes (db : Store) (u : option nat)
    (email : option string) :
  let r1 := Variant1.boards_app.EmailCheck.get db u email in
  let r2 := Variant2.boards_app.email_check db u email in
  (u = None → r1 = Unauthorized ∧ r2 = Unauthorized)
  ∧ (is_Some u →
     (email = None ∨ email = Some "" →
      r1 = BadRequest [("Error", "Email Parameter is missing")]
      ∧ r2 = BadRequest [("error", "Email parameter is required.")])
     ∧ (∀ e, email = Some e → e ≠ "" → filter_email db e = [] →
        r1 = NotFoundResponse "No Profile with this email found !"
        ∧ r2 = NotFoundResponse "Email not found.")
     ∧ (∀ e user, email = Some e → e ≠ "" → filter_email db e = [user] →
        r2 = Success HTTP_200_OK
               {| Variant2.auth_app.UserSerializer.id := User.id user;
                  Variant2.auth_app.UserSerializer.email := e;
                  Variant2.auth_app.UserSerializer.fullname :=
                    User.fullname user |}
        ∧ r1 = match User.fullname user with
               | Some full_name =>
                   Success HTTP_200_OK
                     {| Variant1.boards_app.EmailCheck.id := User.id user;
                        Variant1.boards_app.EmailCheck.email := e;
                        Variant1.boards_app.EmailCheck.fullname := full_name |}
               | None => ServerError "RelatedObjectDoesNotExist"
               end))
  ∧ (∀ status p, r1 = Success status p →
     email = Some (Variant1.boards_app.EmailCheck.email p)
     ∧ ∃ user, user ∈ users db
         ∧ User.id user = Variant1.boards_app.EmailCheck.id p
         ∧ User.email user = Variant1.boards_app.EmailCheck.email p)
  ∧ (∀ status p, r2 = Success status p →
     email = Some (Variant2.auth_app.UserSerializer.email p)
     ∧ ∃ user, user ∈ users db
         ∧ User.id user = Variant2.auth_app.UserSerializer.id p
         ∧ User.email user = Variant2.auth_app.UserSerializer.email p).
Proof.
  intros r1 r2. subst r1 r2.
  unfold Variant1.boards_app.EmailCheck.get, Variant2.boards_app.email_check.
  split; [by intros ->|]. split; [|split].
  - intros [c ->]. split; [|split].
    + by intros [-> | ->].
    + intros e -> He Hnone. destruct e as [|a e]; [by destruct He|].
      simpl. by rewrite Hnone.
    + intros e user -> He Hone. destruct e as [|a e]; [by destruct He|].
      simpl. rewrite Hone. simpl.
      assert (user ∈ filter_email db (String a e)) as Hin
        by (rewrite Hone; left).
      apply filter_email_inv in Hin as [_ Hmail].
      unfold Variant2.auth_app.UserSerializer.to_representation.
      rewrite !Hmail.
      split; [done|]. by destruct (User.fullname user).
  - intros status p. destruct u as [c|]; [|done]. simpl.
    destruct email as [[|a e]|]; [done| |done].
    destruct (filter_email db (String a e)) as [|user [|x l]] eqn:E;
      simpl; [done| |done].
    assert (user ∈ filter_email db (String a e)) as Hin by (rewrite E; left).
    apply filter_email_inv in Hin as [Hin Hmail].
    destruct (User.fullname user) as [fn|]; simpl; [|done].
    intros [= _ <-]. simpl. split; [by rewrite Hmail|]. eauto.
  - intros status p. destruct u as [c|]; [|done]. simpl.
    destruct email as [[|a e]|]; [done| |done].
    destruct (filter_email db (String a e)) as [|user [|x l]] eqn:E;
      simpl; [done| |done].
    assert (user ∈ filter_email db (String a e)) as Hin by (rewrite E; left).
    apply filter_email_inv in Hin as [Hin Hmail].
    unfold Variant2.auth_app.UserSerializer.to_representation.
    intros [= _ <-]. simpl. split; [by rewrite Hmail|]. eauto.
Qed.

(** ** Registering, then logging in *)

(** What a successful registration of the first variant has done. *)
Lemma v1_registration_success `{!Externals} (db db' : Store)
    (d : Variant1.auth_app.RegistrationData.t) (status : nat)
    (resp : Variant1.auth_app.AuthResponse.t) :
  Variant1.auth_app.RegistrationView.create db d = (Success status resp, db') →
  ∃ e p f tok,
    Variant1.auth_app.RegistrationData.email d = Some e
    ∧ Variant1.auth_app.RegistrationData.password d = Some p
    ∧ Variant1.auth_app.RegistrationData.fullname d = Some f
    ∧ strip p ≠ "" ∧ has_null (strip p) = false
    ∧ has_null (strip e) = false
    ∧ (strip e ≠ "" → valid_email (strip e) = true)
    ∧ filter_email db (strip e) = []
    ∧ status = HTTP_201_CREATED
    ∧ resp = {| Variant1.auth_app.AuthResponse.token := Token.key tok;
                Variant1.auth_app.AuthResponse.fullname := strip f;
                Variant1.auth_app.AuthResponse.email := strip e;
                Variant1.auth_app.AuthResponse.user_id := user_seq db |}
    ∧ get_token db' (user_seq db) = Some tok
    ∧ users db'
      = (users db
         ++ [{| User.id := user_seq db; User.username := slugify (strip f);
                User.email := strip e;
                User.password := make_password (strip p);
                User.is_active := true;
                User.fullname := Some (strip f) |}])%list
    ∧ user_seq db' = S (user_seq db)
    ∧ boards db' = boards db ∧ tasks db' = tasks db
    ∧ comments db' = comments db.
Proof.
  unfold Variant1.auth_app.RegistrationView.create.
  destruct (Variant1.auth_app.RegistrationSerializer.is_valid db d)
    as [v|err] eqn:Hv; [|destruct err; done].
  simpl.
  unfold Variant1.auth_app.RegistrationSerializer.is_valid in Hv.
  cbv zeta in Hv.
  destruct (field_errors "password" _ ++ _)%list as [|x xs] eqn:Herr;
    [|done].
  destruct (field_value (with_validate (CharField true false (Some 128) _ _ _) _))
    as [pw|] eqn:Hpw; [|done].
  destruct (field_value (CharField true false None None false _))
    as [rpw|] eqn:Hrpw; [|done].
  destruct (field_value (with_validate (CharField true false (Some 100) _ _ _) _))
    as [fn|] eqn:Hfn; [|done].
  injection Hv as <-.
  apply with_validate_value_inv in Hpw as (pw0 & Hpw & Hvp).
  apply CharFieldWith_Value_inv in Hpw as (p & Hp & -> & Hpnull & _).
  unfold Variant1.auth_app.RegistrationSerializer.validate_password in Hvp.
  case_bool_decide as Hmatch; [done|]. injection Hvp as <-.
  apply with_validate_value_inv in Hfn as (fn0 & Hfn & Hvf).
  apply CharFieldWith_Value_inv in Hfn as (f & Hf & -> & _ & _).
  unfold Variant1.auth_app.RegistrationSerializer.validate_fullname in Hvf.
  destruct (exists_ (filter_username db (slugify (strip f)))) eqn:Hun;
    [done|]. injection Hvf as <-.
  unfold Variant1.auth_app.RegistrationSerializer.save. simpl.
  destruct (field_value (with_validate (EmailField _ _ _ _ _ _ _) _))
    as [em|] eqn:Hem; [|done].
  apply with_validate_value_inv in Hem as (em0 & Hem & Hve).
  apply CharFieldWith_Value_inv in Hem as (e & He & -> & Henull & Hvalid).
  unfold Variant1.auth_app.RegistrationSerializer.validate_email in Hve.
  destruct (exists_ (filter_email db (strip e))) eqn:Hex; [done|].
  injection Hve as <-. rewrite Hun. simpl.
  unfold Variant1.auth_app.token_response. simpl.
  set (db1 := set_users db _ _).
  set (key := generate_key _).
  destruct (get_or_create_token_spec key db1 (user_seq db))
    as (Htok & Hu & Hb & Ht & Hc).
  intros [= <- <- <-].
  exists e, p, f, (get_or_create_token key db1 (user_seq db)).1.
  repeat (split; [done|]).
  split.
  { assert (strip p ≠ "") as Hne; [|done].
    intros Hblank. rewrite Hp in Herr.
    unfold CharField, CharFieldWith in Herr. rewrite Hblank in Herr.
    simpl in Herr. done. }
  split; [done|]. split; [done|].
  split.
  { intros Hne. specialize (Hvalid Hne). simpl in Hvalid.
    by destruct (valid_email (strip e)). }
  split; [by apply exists_false|].
  repeat (split; [done|]).
  split; [|done].
  unfold get_or_create_token. by destruct (get_token db1 (user_seq db)).
Qed.

(** What a successful registration of the second variant has done. *)
Lemma v2_registration_success `{!Externals} (db db' : Store)
    (d : Variant2.auth_app.RegistrationData.t) (status : nat)
    (resp : Variant2.auth_app.AuthResponse.t) :
  Variant2.auth_app.registration db d = (Success status resp, db') →
  ∃ e p f tok,
    Variant2.auth_app.RegistrationData.email d = Some e
    ∧ Variant2.auth_app.RegistrationData.password d = Some p
    ∧ Variant2.auth_app.RegistrationData.fullname d = Some f
    ∧ strip p ≠ "" ∧ has_null (strip p) = false
    ∧ strip e ≠ "" ∧ has_null (strip e) = false
    ∧ valid_email (strip e) = true
    ∧ filter_email db (strip e) = []
    ∧ filter_username db (strip e) = []
    ∧ status = HTTP_201_CREATED
    ∧ resp = {| Variant2.auth_app.AuthResponse.token := Token.key tok;
                Variant2.auth_app.AuthResponse.fullname := Some (strip f);
                Variant2.auth_app.AuthResponse.email := strip e;
                Variant2.auth_app.AuthResponse.user_id := user_seq db |}
    ∧ get_token db' (user_seq db) = Some tok
    ∧ users db'
      = (users db
         ++ [{| User.id := user_seq db; User.username := strip e;
                User.email := strip e;
                User.password := make_password (strip p);
                User.is_active := true;
                User.fullname := Some (strip f) |}])%list
    ∧ user_seq db' = S (user_seq db)
    ∧ boards db' = boards db ∧ tasks db' = tasks db
    ∧ comments db' = comments db.
Proof.
  unfold Variant2.auth_app.registration.
  destruct (Variant2.auth_app.RegistrationSerializer.is_valid db d)
    as [v|err] eqn:Hv; [|destruct err; done].
  unfold Variant2.auth_app.RegistrationSerializer.is_valid in Hv.
  cbv zeta in Hv.
  destruct (field_errors "email" _ ++ _)%list as [|x xs] eqn:Herr; [|done].
  destruct (field_value (with_validate _ _)) as [em|] eqn:Hem; [|done].
  destruct (field_value (CharField true false None (Some 8) false _))
    as [pw|] eqn:Hpw; [|done].
  destruct (field_value
              (CharField true false None None false
                 (Variant2.auth_app.RegistrationData.repeated_password d)))
    as [rpw|] eqn:Hrpw; [|done].
  destruct (field_value
              (CharField true false None None false
                 (Variant2.auth_app.RegistrationData.fullname d)))
    as [fn|] eqn:Hfn; [|done].
  unfold Variant2.auth_app.RegistrationSerializer.validate in Hv.
  simpl in Hv. case_bool_decide as Hmatch; [done|]. injection Hv as <-.
  apply with_validate_value_inv in Hem as (em0 & Hem & Hve).
  pose proof Hem as Hem'.
  apply CharFieldWith_Value_inv in Hem as (e & He & -> & Henull & Hvalid).
  unfold Variant2.auth_app.RegistrationSerializer.unique_email in Hve.
  destruct (exists_ (filter_email db (strip e))) eqn:Hex; [done|].
  injection Hve as <-.
  assert (strip e ≠ "") as Hene.
  { intros Hblank. rewrite He in Hem'. unfold EmailField, CharFieldWith in Hem'.
    rewrite Hblank in Hem'. simpl in Hem'. done. }
  destruct (CharField true false None (Some 8) false _) as [|pw0|] eqn:Hpf;
    simpl in Hpw; try done. injection Hpw as ->.
  pose proof Hpf as Hpf'.
  apply CharFieldWith_Value_inv in Hpf as (p & Hp & -> & Hpnull & _).
  assert (strip p ≠ "") as Hpne.
  { intros Hblank. rewrite Hp in Hpf'. unfold CharField, CharFieldWith in Hpf'.
    rewrite Hblank in Hpf'. simpl in Hpf'. done. }
  destruct (CharField true false None None false
              (Variant2.auth_app.RegistrationData.fullname d))
    as [|fn0|] eqn:Hff; simpl in Hfn; try done. injection Hfn as ->.
  apply CharFieldWith_Value_inv in Hff as (f & Hf & -> & _ & _).
  unfold Variant2.auth_app.RegistrationSerializer.create. simpl.
  destruct (exists_ (filter_username db (strip e))) eqn:Hun; [done|].
  simpl. unfold Variant2.auth_app.token_response. simpl.
  set (db1 := set_users db _ _).
  set (key := generate_key (length (tokens db))).
  destruct (get_or_create_token_spec key db1 (user_seq db))
    as (Htok & Hu & Hb & Ht & Hc).
  set (out := get_or_create_token key db1 (user_seq db)) in *.
  rewrite (get_or_create_token_found _ _ _ _ Htok). simpl.
  intros [= <- <- <-].
  exists e, p, f, out.1.
  repeat (split; [done|]).
  split.
  { specialize (Hvalid Hene). simpl in Hvalid.
    by destruct (valid_email (strip e)). }
  split; [by apply exists_false|].
  split; [by apply exists_false|].
  repeat (split; [done|]).
  split; [|done].
  subst out. unfold get_or_create_token.
  by destruct (get_token db1 (user_seq db)).
Qed.

(** The sample password check accepts what the sample hashing stored. *)
Lemma plain_check_password (raw : string) :
  @check_password Fixtures.plain raw (@make_password Fixtures.plain raw) = true.
Proof. simpl. by apply bool_decide_eq_true_2. Qed.

(** X6.  First variant: when checking a password against its own hash
    succeeds, a user who has just registered with a non-empty e-mail can
    log in with the registered e-mail and the password as sent.  The login
    returns the payload of the registration (same token, user id, e-mail
    and full name) and leaves the store as the registration left it. *)
Theorem registration_then_login `{!Externals} (db db' : Store)
    (d : Variant1.auth_app.RegistrationData.t) (status : nat)
    (resp : Variant1.auth_app.AuthResponse.t) :
  (∀ raw, check_password raw (make_password raw) = true) →
  Variant1.auth_app.RegistrationView.create db d = (Success status resp, db') →
  Variant1.auth_app.AuthResponse.email resp ≠ "" →
  Variant1.auth_app.LoginView.post db'
    {| Variant1.auth_app.LoginData.email :=
         Some (Variant1.auth_app.AuthResponse.email resp);
       Variant1.auth_app.LoginData.password :=
         Variant1.auth_app.RegistrationData.password d |}
  = (Success HTTP_200_OK resp, db').
Proof.
  intros Hlaw Hreg Hmail.
  apply v1_registration_success in Hreg
    as (e & p & f & tok & He & Hp & Hf & Hpne & Hpnull & Henull & Hvalid
        & Hfresh & -> & -> & Htok & Husers & _).
  simpl in Hmail. simpl Variant1.auth_app.AuthResponse.email. rewrite Hp.
  rewrite v1_login_cases; rewrite ?strip_idemp; auto.
  unfold filter_email. rewrite Husers, filter_app.
  fold (filter_email db (strip e)). rewrite Hfresh.
  rewrite filter_cons, filter_nil. simpl. rewrite decide_True by done.
  simpl. rewrite Hlaw.
  unfold Variant1.auth_app.token_response. simpl.
  by rewrite (get_or_create_token_found _ _ _ _ Htok).
Qed.

Lemma registration_then_login_witness :
  ∃ resp db',
    Variant1.auth_app.RegistrationView.create (H := Fixtures.plain)
      Fixtures.db0 Fixtures.dave_v1 = (Success HTTP_201_CREATED resp, db')
    ∧ Variant1.auth_app.AuthResponse.email resp ≠ ""
    ∧ Variant1.auth_app.LoginView.post (H := Fixtures.plain) db'
        {| Variant1.auth_app.LoginData.email := Some "dave@kan.io";
           Variant1.auth_app.LoginData.password := Some "davepass1" |}
      = (Success HTTP_200_OK resp, db').
Proof.
  eexists _, _.
  assert (∀ A (x y : A) (P Q : Prop), x = y → (x = y → P ∧ Q) → x = y ∧ P ∧ Q)
    as Hstep by tauto.
  apply Hstep; [vm_compute; reflexivity|]. intros Hreg.
  assert (Variant1.auth_app.AuthResponse.email
            {| Variant1.auth_app.AuthResponse.token := "key0";
               Variant1.auth_app.AuthResponse.fullname := "Dave";
               Variant1.auth_app.AuthResponse.email := "dave@kan.io";
               Variant1.auth_app.AuthResponse.user_id := 4 |} ≠ "") as Hmail
    by (vm_compute; discriminate).
  split; [exact Hmail|].
  exact (registration_then_login (H := Fixtures.plain) _ _ _ _ _
           plain_check_password Hreg Hmail).
Defined.

(** X7.  Second variant: when checking a password against its own hash
    succeeds, a user who has just registered can log in with the
    registered e-mail and the password as sent; the login returns the
    payload of the registration and leaves the store as the registration
    left it. *)
Theorem registration_then_login_compact `{!Externals} (db db' : Store)
    (d : Variant2.auth_app.RegistrationData.t) (status : nat)
    (resp : Variant2.auth_app.AuthResponse.t) :
  (∀ raw, check_password raw (make_password raw) = true) →
  Variant2.auth_app.registration db d = (Success status resp, db') →
  Variant2.auth_app.login db'
    {| Variant2.auth_app.LoginData.email :=
         Some (Variant2.auth_app.AuthResponse.email resp);
       Variant2.auth_app.LoginData.password :=
         Variant2.auth_app.RegistrationData.password d |}
  = (Success HTTP_200_OK resp, db').
Proof.
  intros Hlaw Hreg.
  apply v2_registration_success in Hreg
    as (e & p & f & tok & He & Hp & Hf & Hpne & Hpnull & Hene & Henull
        & Hvalid & Hfresh & Hfreshn & -> & -> & Htok & Husers & _).
  simpl Variant2.auth_app.AuthResponse.email. rewrite Hp.
  rewrite v2_login_cases; rewrite ?strip_idemp; auto.
  unfold filter_email. rewrite Husers, filter_app.
  fold (filter_email db (strip e)). rewrite Hfresh.
  rewrite filter_cons, filter_nil. simpl. rewrite decide_True by done.
  simpl. unfold Variant2.auth_app.authenticate.
  unfold filter_username. rewrite Husers, filter_app.
  fold (filter_username db (strip e)). rewrite Hfreshn.
  rewrite filter_cons, filter_nil. simpl. rewrite decide_True by done.
  simpl. rewrite Hlaw. simpl.
  unfold Variant2.auth_app.token_response. simpl.
  by rewrite (get_or_create_token_found _ _ _ _ Htok).
Qed.

Lemma registration_then_login_compact_witness :
  ∃ resp db',
    Variant2.auth_app.registration (H := Fixtures.plain) Fixtures.db0
      Fixtures.dave_v2 = (Success HTTP_201_CREATED resp, db')
    ∧ Variant2.auth_app.login (H := Fixtures.plain) db'
        {| Variant2.auth_app.LoginData.email := Some "dave@kan.io";
           Variant2.auth_app.LoginData.password := Some "davepass1" |}
      = (Success HTTP_200_OK resp, db').
Proof.
  eexists _, _.
  assert (∀ A (x y : A) (P : Prop), x = y → (x = y → P) → x = y ∧ P)
    as Hstep by tauto.
  apply Hstep; [vm_compute; reflexivity|]. intros Hreg.
  exact (registration_then_login_compact (H := Fixtures.plain) _ _ _ _ _
           plain_check_password Hreg).
Defined.

(** X8.  First variant: a user who has just registered with a non-empty
    e-mail is found by the e-mail check, for every authenticated caller,
    under the id, e-mail and full name the registration returned. *)
Theorem registered_user_is_found `{!Externals} (db db' : Store)
    (d : Variant1.auth_app.RegistrationData.t) (status : nat)
    (resp : Variant1.auth_app.AuthResponse.t) (caller : nat) :
  Variant1.auth_app.RegistrationView.create db d = (Success status resp, db') →
  Variant1.auth_app.AuthResponse.email resp ≠ "" →
  Variant1.boards_app.EmailCheck.get db' (Some caller)
    (Some (Variant1.auth_app.AuthResponse.email resp))
  = Success HTTP_200_OK
      {| Variant1.boards_app.EmailCheck.id :=
           Variant1.auth_app.AuthResponse.user_id resp;
         Variant1.boards_app.EmailCheck.email :=
           Variant1.auth_app.AuthResponse.email resp;
         Variant1.boards_app.EmailCheck.fullname :=
           Variant1.auth_app.AuthResponse.fullname resp |}.
Proof.
  intros Hreg Hmail.
  apply v1_registration_success in Hreg
    as (e & p & f & tok & He & Hp & Hf & Hpne & Hpnull & Henull & Hvalid
        & Hfresh & -> & -> & Htok & Husers & _).
  simpl in *. unfold Variant1.boards_app.EmailCheck.get. simpl.
  destruct (strip e) as [|a s] eqn:Es; [done|].
  unfold filter_email. rewrite Husers, filter_app.
  fold (filter_email db (String a s)). rewrite Hfresh.
  rewrite filter_cons, filter_nil. simpl. rewrite decide_True by done.
  done.
Qed.

Lemma registered_user_is_found_witness :
  ∃ resp db',
    Variant1.auth_app.RegistrationView.create (H := Fixtures.plain)
      Fixtures.db0 Fixtures.dave_v1 = (Success HTTP_201_CREATED resp, db')
    ∧ Variant1.boards_app.EmailCheck.get db' (Some 1) (Some "dave@kan.io")
      = Success HTTP_200_OK
          {| Variant1.boards_app.EmailCheck.id := 4;
             Variant1.boards_app.EmailCheck.email := "dave@kan.io";
             Variant1.boards_app.EmailCheck.fullname := "Dave" |}.
Proof.
  eexists _, _.
  assert (∀ A (x y : A) (P : Prop), x = y → (x = y → P) → x = y ∧ P)
    as Hstep by tauto.
  apply Hstep; [vm_compute; reflexivity|]. intros Hreg.
  refine (registered_user_is_found (H := Fixtures.plain) _ _ _ _ _ 1 Hreg _).
  vm_compute. discriminate.
Defined.

(** X9.  Logging in twice gives the same answer: a successful login
    repeated on the store it left returns the same payload, token
    included, and leaves that store as it is.  A login, successful or
    not, changes no user, board, task or comment. *)
Theorem login_twice_same_token `{!Externals} (db : Store)
    (d1 : Variant1.auth_app.LoginData.t) (d2 : Variant2.auth_app.LoginData.t) :
  let r1 := Variant1.auth_app.LoginView.post db d1 in
  let r2 := Variant2.auth_app.login db d2 in
  (is_success r1.1 = true → Variant1.auth_app.LoginView.post r1.2 d1 = r1)
  ∧ (is_success r2.1 = true → Variant2.auth_app.login r2.2 d2 = r2)
  ∧ users r1.2 = users db ∧ boards r1.2 = boards db
  ∧ tasks r1.2 = tasks db ∧ comments r1.2 = comments db
  ∧ users r2.2 = users db ∧ boards r2.2 = boards db
  ∧ tasks r2.2 = tasks db ∧ comments r2.2 = comments db.
Proof.
  intros r1 r2. subst r1 r2.
  assert (∀ key u,
            users (get_or_create_token key db u).2 = users db
            ∧ boards (get_or_create_token key db u).2 = boards db
            ∧ tasks (get_or_create_token key db u).2 = tasks db
            ∧ comments (get_or_create_token key db u).2 = comments db) as Hsame.
  { intros key u. apply get_or_create_token_spec. }
  split; [|split].
  - unfold Variant1.auth_app.LoginView.post.
    destruct (Variant1.auth_app.LoginSerializer.is_valid db d1)
      as [v|err] eqn:Hv; [|destruct err; done]. simpl.
    destruct (Variant1.auth_app.LoginSerializer.get db v)
      as [user|err] eqn:Hg; [|destruct err; done]. simpl.
    unfold Variant1.auth_app.token_response.
    set (out := get_or_create_token _ db (User.id user)).
    destruct (User.fullname user) as [fn|] eqn:Hfn; [|done]. simpl. intros _.
    destruct (Hsame (generate_key (length (tokens db))) (User.id user))
      as (Hu & _). fold out in Hu.
    assert (Variant1.auth_app.LoginSerializer.is_valid out.2 d1 = Ok v) as ->.
    { rewrite <- Hv. unfold Variant1.auth_app.LoginSerializer.is_valid,
        Variant1.auth_app.LoginSerializer.validate_email, filter_email.
      by rewrite Hu. }
    simpl.
    assert (Variant1.auth_app.LoginSerializer.get out.2 v = Ok user) as ->.
    { rewrite <- Hg. unfold Variant1.auth_app.LoginSerializer.get,
        filter_email. by rewrite Hu. }
    simpl. rewrite Hfn.
    rewrite (get_or_create_token_found _ out.2 (User.id user) out.1)
      by apply get_or_create_token_fst.
    done.
  - unfold Variant2.auth_app.login.
    destruct (Variant2.auth_app.LoginSerializer_is_valid d2)
      as [v|err] eqn:Hv; [|destruct err; done].
    destruct (objects_get (filter_email db v.1)) as [|user|] eqn:Hg;
      [done| |done].
    destruct (Variant2.auth_app.authenticate db (User.username user) v.2)
      as [user'|] eqn:Ha; [|done].
    unfold Variant2.auth_app.token_response.
    set (out := get_or_create_token _ db (User.id user')). simpl. intros _.
    destruct (Hsame (generate_key (length (tokens db))) (User.id user'))
      as (Hu & _). fold out in Hu.
    assert (filter_email out.2 v.1 = filter_email db v.1) as ->
      by (unfold filter_email; by rewrite Hu).
    rewrite Hg.
    assert (Variant2.auth_app.authenticate out.2 (User.username user) v.2
            = Some user') as ->.
    { rewrite <- Ha. unfold Variant2.auth_app.authenticate, filter_username.
      by rewrite Hu. }
    rewrite (get_or_create_token_found _ out.2 (User.id user') out.1)
      by apply get_or_create_token_fst.
    done.
  - assert (∀ A (r : Result (Response A * Store)),
              (∀ x, r = Ok x → users x.2 = users db ∧ boards x.2 = boards db
                               ∧ tasks x.2 = tasks db
                               ∧ comments x.2 = comments db) →
              users (run db r).2 = users db ∧ boards (run db r).2 = boards db
              ∧ tasks (run db r).2 = tasks db
              ∧ comments (run db r).2 = comments db) as Hrun.
    { intros A [x|e] Hx; simpl; [by apply Hx|done]. }
    assert (users (Variant1.auth_app.LoginView.post db d1).2 = users db
            ∧ boards (Variant1.auth_app.LoginView.post db d1).2 = boards db
            ∧ tasks (Variant1.auth_app.LoginView.post db d1).2 = tasks db
            ∧ comments (Variant1.auth_app.LoginView.post db d1).2
              = comments db) as H1.
    { unfold Variant1.auth_app.LoginView.post. apply Hrun. intros x.
      destruct (Variant1.auth_app.LoginSerializer.is_valid db d1)
        as [v|err]; [|done]. simpl.
      destruct (Variant1.auth_app.LoginSerializer.get db v)
        as [user|err]; [|done]. simpl. intros [= <-].
      unfold Variant1.auth_app.token_response.
      destruct (User.fullname user); simpl; apply Hsame. }
    assert (users (Variant2.auth_app.login db d2).2 = users db
            ∧ boards (Variant2.auth_app.login db d2).2 = boards db
            ∧ tasks (Variant2.auth_app.login db d2).2 = tasks db
            ∧ comments (Variant2.auth_app.login db d2).2 = comments db) as H2.
    { unfold Variant2.auth_app.login.
      destruct (Variant2.auth_app.LoginSerializer_is_valid d2)
        as [v|err]; [|destruct err; done].
      destruct (objects_get (filter_email db v.1)) as [|user|];
        [done| |done].
      destruct (Variant2.auth_app.authenticate db (User.username user) v.2)
        as [user'|]; [|done].
      unfold Variant2.auth_app.token_response. simpl. apply Hsame. }
    tauto.
Qed.

(** ** Creating a task *)

(** What the deserialised attributes of a full task request are. *)
Lemma v1_to_internal_value_Ok `{!Externals} (db : Store)
    (d : Variant1.tasks_app.TaskData.t) (a : Variant1.tasks_app.TaskSerializer.attrs) :
  Variant1.tasks_app.TaskSerializer.to_internal_value db false d = Ok a →
  (∃ k, Variant1.tasks_app.TaskData.board d = Some k
        ∧ Variant1.tasks_app.TaskSerializer.board a = get_board db k
        ∧ is_Some (get_board db k))
  ∧ (∃ raw, Variant1.tasks_app.TaskData.title d = Some raw
            ∧ Variant1.tasks_app.TaskSerializer.title a = Some (strip raw))
  ∧ Variant1.tasks_app.TaskSerializer.status a
    = Variant1.tasks_app.TaskData.status d
  ∧ (∀ s, Variant1.tasks_app.TaskData.status d = Some s →
       s ∈ Variant1.tasks_app.choices_status)
  ∧ Variant1.tasks_app.TaskSerializer.priority a
    = Variant1.tasks_app.TaskData.priority d
  ∧ (∀ s, Variant1.tasks_app.TaskData.priority d = Some s →
       s ∈ Variant1.tasks_app.choices_priority)
  ∧ (User.id <$> mjoin (Variant1.tasks_app.TaskSerializer.assignee a))
    = mjoin (Variant1.tasks_app.TaskData.assignee_id d)
  ∧ (User.id <$> mjoin (Variant1.tasks_app.TaskSerializer.reviewer a))
    = mjoin (Variant1.tasks_app.TaskData.reviewer_id d).
Proof.
  unfold Variant1.tasks_app.TaskSerializer.to_internal_value. cbv zeta.
  destruct (field_errors "board" _ ++ _)%list as [|e es] eqn:E; [|done].
  intros [= <-]. cbn [Variant1.tasks_app.TaskSerializer.board
    Variant1.tasks_app.TaskSerializer.title
    Variant1.tasks_app.TaskSerializer.status
    Variant1.tasks_app.TaskSerializer.priority
    Variant1.tasks_app.TaskSerializer.assignee
    Variant1.tasks_app.TaskSerializer.reviewer].
  apply app_eq_nil in E as [Eboard E].
  apply app_eq_nil in E as [Etitle E].
  apply app_eq_nil in E as [_ E].
  apply app_eq_nil in E as [Estatus E].
  apply app_eq_nil in E as [Eprio E].
  apply app_eq_nil in E as [_ E].
  apply app_eq_nil in E as [Eassignee Ereviewer].
  split; [|split; [|split; [|split; [|split; [|split; [|split]]]]]].
  - destruct (Variant1.tasks_app.TaskData.board d) as [k|]; [|done].
    exists k. simpl in *. destruct (get_board db k) as [b|]; [|done].
    simpl. eauto.
  - by apply CharField_required_no_errors in Etitle.
  - by apply ChoiceField_no_errors in Estatus as [-> _].
  - by apply ChoiceField_no_errors in Estatus as [_ ?].
  - by apply ChoiceField_no_errors in Eprio as [-> _].
  - by apply ChoiceField_no_errors in Eprio as [_ ?].
  - destruct (Variant1.tasks_app.TaskData.assignee_id d) as [[k|]|];
      simpl in *; try done.
    destruct (get_user db k) as [usr|] eqn:Hu; [|done]. simpl.
    apply get_Some_inv in Hu as [_ Hu]. by rewrite Hu.
  - destruct (Variant1.tasks_app.TaskData.reviewer_id d) as [[k|]|];
      simpl in *; try done.
    destruct (get_user db k) as [usr|] eqn:Hu; [|done]. simpl.
    apply get_Some_inv in Hu as [_ Hu]. by rewrite Hu.
Qed.

(** What the serializer has saved when a task is created, first variant. *)
Lemma v1_task_create_saved `{!Externals} (db : Store) (c : nat)
    (d : Variant1.tasks_app.TaskData.t)
    (a : Variant1.tasks_app.TaskSerializer.attrs) (out : Task.t * Store) :
  Variant1.tasks_app.TaskSerializer.is_valid db
    (Some (Variant1.tasks_app.TaskViewSet.request_of (Some c) create
             (Variant1.tasks_app.TaskData.board d))) None false d = Ok a →
  Variant1.tasks_app.TaskSerializer.create db a = Ok out →
  ∃ b raw,
    Variant1.tasks_app.TaskData.board d = Some (Board.id b)
    ∧ get_board db (Board.id b) = Some b
    ∧ may_access c b
    ∧ Variant1.tasks_app.TaskData.title d = Some raw
    ∧ out.1 = {| Task.id := task_seq db; Task.board := Board.id b;
                 Task.title := strip raw;
                 Task.description := Task.description out.1;
                 Task.status :=
                   default "to-do" (Variant1.tasks_app.TaskData.status d);
                 Task.priority :=
                   default "medium" (Variant1.tasks_app.TaskData.priority d);
                 Task.assignee :=
                   mjoin (Variant1.tasks_app.TaskData.assignee_id d);
                 Task.reviewer :=
                   mjoin (Variant1.tasks_app.TaskData.reviewer_id d);
                 Task.due_date := Task.due_date out.1;
                 Task.created_by := None |}
    ∧ (∀ k, Task.assignee out.1 = Some k → k ∈ Board.members b)
    ∧ (∀ k, Task.reviewer out.1 = Some k → k ∈ Board.members b)
    ∧ Task.status out.1 ∈ Variant1.tasks_app.choices_status
    ∧ Task.priority out.1 ∈ Variant1.tasks_app.choices_priority
    ∧ out.2 = set_tasks db (tasks db ++ [out.1])%list (S (task_seq db)).
Proof.
  unfold Variant1.tasks_app.TaskSerializer.is_valid. intros Hv Hc.
  apply bind_Ok in Hv as (a0 & Ha & Hv).
  pose proof Ha as Ha'.
  apply v1_to_internal_value_Ok in Ha
    as ((k & Hk & Hab & [b Hb]) & (raw & Hraw & Hat) & Hst & Hstc & Hpr & Hprc
        & Has & Hre).
  rewrite Hb in Hab.
  assert (b ∈ boards db ∧ Board.id b = k) as [_ Hid]
    by (by apply (get_Some_inv Board.id)).
  unfold Variant1.tasks_app.TaskSerializer.validate,
    Variant1.tasks_app.TaskSerializer._get_board in Hv.
  rewrite Hab in Hv. cbn [bind] in Hv.
  rewrite bool_decide_eq_true_2 in Hv by done.
  unfold Variant1.tasks_app.TaskSerializer._validate_board_access,
    Variant1.tasks_app.TaskViewSet.request_of in Hv.
  rewrite access_bool_spec in Hv.
  case_bool_decide as Hacc; [|done]. cbn [negb bind] in Hv.
  apply bind_Ok in Hv as ([] & Hva & Hv).
  apply bind_Ok in Hv as ([] & Hvr & Hv).
  apply bind_Ok in Hv as ([] & _ & Hv). injection Hv as <-.
  unfold Variant1.tasks_app.TaskSerializer.create in Hc.
  rewrite Hab, Hat in Hc. injection Hc as <-.
  exists b, raw. cbn [fst snd]. rewrite Hid, Hst, Hpr, <- Has, <- Hre.
  split; [done|]. split; [done|]. split; [done|].
  split; [done|]. split; [done|]. cbn [Task.assignee Task.reviewer
    Task.status Task.priority].
  split.
  { intros k' Hk'. revert Hva.
    unfold Variant1.tasks_app.TaskSerializer._validate_user_role.
    destruct (mjoin (Variant1.tasks_app.TaskSerializer.assignee a0))
      as [ua|]; [|done]. injection Hk' as <-.
    by case_bool_decide. }
  split.
  { intros k' Hk'. revert Hvr.
    unfold Variant1.tasks_app.TaskSerializer._validate_user_role.
    destruct (mjoin (Variant1.tasks_app.TaskSerializer.reviewer a0))
      as [ur|]; [|done]. injection Hk' as <-.
    by case_bool_decide. }
  split.
  { destruct (Variant1.tasks_app.TaskData.status d) as [s|] eqn:Es;
      simpl; [by apply Hstc|]. apply (bool_decide_unpack _). by vm_compute. }
  split; [|done].
  destruct (Variant1.tasks_app.TaskData.priority d) as [s|] eqn:Es;
    simpl; [by apply Hprc|]. apply (bool_decide_unpack _). by vm_compute.
Qed.

(** How the first variant answers the creation of a task: either nothing
    is written, or the task is saved and the answer is its representation,
    or a server error when it cannot be built. *)
Lemma v1_task_create_cases `{!Externals} (db : Store) (u : option nat)
    (d : Variant1.tasks_app.TaskData.t) :
  let r := Variant1.tasks_app.TaskViewSet.create db u d in
  (is_success r.1 = false ∧ r.2 = db)
  ∨ ∃ c a out,
      u = Some c
      ∧ Variant1.tasks_app.TaskSerializer.is_valid db
          (Some (Variant1.tasks_app.TaskViewSet.request_of (Some c) create
                   (Variant1.tasks_app.TaskData.board d))) None false d = Ok a
      ∧ Variant1.tasks_app.TaskSerializer.create db a = Ok out
      ∧ r = respond_after_save HTTP_201_CREATED out.2
              (Variant1.tasks_app.TaskSerializer.to_representation out.2
                 (Some (Variant1.tasks_app.TaskViewSet.request_of (Some c)
                          create (Variant1.tasks_app.TaskData.board d)))
                 out.1).
Proof.
  intros r. subst r. unfold Variant1.tasks_app.TaskViewSet.create. cbv zeta.
  destruct u as [c|]; [|by left].
  destruct (check_permissions _ db _) as [[]|e]; [|left; by destruct e].
  cbn [bind].
  destruct (Variant1.tasks_app.TaskSerializer.is_valid db _ None false d)
    as [a|e] eqn:Ev; [|left; by destruct e].
  cbn [bind].
  destruct (Variant1.tasks_app.TaskSerializer.create db a) as [out|e] eqn:Ec;
    [|left; by destruct e].
  right. exists c, a, out. done.
Qed.

(** What a successful creation of a task has done, first variant. *)
Lemma v1_task_create_success `{!Externals} (db db' : Store) (u : option nat)
    (d : Variant1.tasks_app.TaskData.t) (status : nat)
    (rep : Variant1.tasks_app.TaskSerializer.data.t) :
  Variant1.tasks_app.TaskViewSet.create db u d = (Success status rep, db') →
  ∃ c b raw t,
    u = Some c
    ∧ Variant1.tasks_app.TaskData.board d = Some (Board.id b)
    ∧ get_board db (Board.id b) = Some b
    ∧ may_access c b
    ∧ Variant1.tasks_app.TaskData.title d = Some raw
    ∧ t = {| Task.id := task_seq db; Task.board := Board.id b;
             Task.title := strip raw;
             Task.description := Task.description t;
             Task.status :=
               default "to-do" (Variant1.tasks_app.TaskData.status d);
             Task.priority :=
               default "medium" (Variant1.tasks_app.TaskData.priority d);
             Task.assignee :=
               mjoin (Variant1.tasks_app.TaskData.assignee_id d);
             Task.reviewer :=
               mjoin (Variant1.tasks_app.TaskData.reviewer_id d);
             Task.due_date := Task.due_date t;
             Task.created_by := None |}
    ∧ (∀ k, Task.assignee t = Some k → k ∈ Board.members b)
    ∧ (∀ k, Task.reviewer t = Some k → k ∈ Board.members b)
    ∧ Task.status t ∈ Variant1.tasks_app.choices_status
    ∧ Task.priority t ∈ Variant1.tasks_app.choices_priority
    ∧ Variant1.tasks_app.TaskSerializer.to_representation db'
        (Some (Variant1.tasks_app.TaskViewSet.request_of u create
                 (Variant1.tasks_app.TaskData.board d))) t = Ok rep
    ∧ status = HTTP_201_CREATED
    ∧ db' = set_tasks db (tasks db ++ [t])%list (S (task_seq db)).
Proof.
  intros Hc.
  destruct (v1_task_create_cases db u d) as [[Hfail _]|Hsaved].
  { rewrite Hc in Hfail. done. }
  destruct Hsaved as (c & a & out & -> & Hv & Hs & Hr).
  rewrite Hc in Hr. unfold respond_after_save in Hr.
  destruct (Variant1.tasks_app.TaskSerializer.to_representation out.2 _ out.1)
    as [rep'|e] eqn:Erep; [|by destruct e].
  injection Hr as -> -> ->.
  destruct (v1_task_create_saved db c d a out Hv Hs)
    as (b & raw & Hboard & Hb & Hacc & Hraw & Ht & Has & Hre & Hst & Hpr & Hdb).
  exists c, b, raw, out.1. rewrite <- Hdb. done.
Qed.

Lemma v2_task_is_valid_Ok `{!Externals} (db : Store)
    (d : Variant2.tasks_app.TaskData.t)
    (v : Variant2.tasks_app.TaskCreateSerializer.data) :
  Variant2.tasks_app.TaskCreateSerializer.is_valid db d = Ok v →
  ∃ k b,
    Variant2.tasks_app.TaskData.board d = Some k
    ∧ get_board db k = Some b
    ∧ Variant2.tasks_app.TaskCreateSerializer.board v = Some b
    ∧ Variant2.tasks_app.TaskCreateSerializer.assignee_id v
      = Variant2.tasks_app.TaskData.assignee_id d
    ∧ Variant2.tasks_app.TaskCreateSerializer.reviewer_id v
      = Variant2.tasks_app.TaskData.reviewer_id d.
Proof.
  unfold Variant2.tasks_app.TaskCreateSerializer.is_valid. cbv zeta.
  destruct (Variant2.tasks_app.TaskData.board d) as [k|]; [|done].
  simpl. destruct (get_board db k) as [b|] eqn:Hb; [|done]. simpl.
  destruct (field_errors "title" _ ++ _)%list; [|done].
  unfold Variant2.tasks_app.TaskCreateSerializer.validate,
    Variant2.tasks_app.IntegerField. simpl.
  destruct (get_board db (Board.id b)); [|done].
  destruct (match mjoin (Variant2.tasks_app.TaskData.assignee_id d) with
            | Some (S _ as a) => _ | _ => Ok () end); [|done]. simpl.
  destruct (match mjoin (Variant2.tasks_app.TaskData.reviewer_id d) with
            | Some (S _ as a) => _ | _ => Ok () end); [|done]. simpl.
  intros [= <-]. exists k, b. done.
Qed.

Lemma v2_task_create_Ok (db db1 : Store) (c : nat)
    (v : Variant2.tasks_app.TaskCreateSerializer.data) (t : Task.t) :
  Variant2.tasks_app.TaskCreateSerializer.create db c v = Ok (t, db1) →
  ∃ b, Variant2.tasks_app.TaskCreateSerializer.board v = Some b
    ∧ Task.id t = task_seq db
    ∧ Task.board t = Board.id b
    ∧ Task.created_by t = Some c
    ∧ Task.assignee t
      = mjoin (Variant2.tasks_app.TaskCreateSerializer.assignee_id v)
    ∧ Task.reviewer t
      = mjoin (Variant2.tasks_app.TaskCreateSerializer.reviewer_id v)
    ∧ db1 = set_tasks db (tasks db ++ [t])%list (S (task_seq db)).
Proof.
  unfold Variant2.tasks_app.TaskCreateSerializer.create.
  destruct (Variant2.tasks_app.TaskCreateSerializer.board v) as [b|]; [|done].
  destruct (Variant2.tasks_app.TaskFields.title _) as [title|]; [|done].
  destruct (_ && _); [|done]. intros [= <- <-]. exists b. done.
Qed.

(** What a successful creation of a task has done, second variant. *)
Lemma v2_task_create_success `{!Externals} (db db' : Store) (u : option nat)
    (d : Variant2.tasks_app.TaskData.t) (status : nat) (t : Task.t) :
  Variant2.tasks_app.TaskViewSet.create db u d = (Success status t, db') →
  ∃ c b,
    u = Some c
    ∧ Variant2.tasks_app.TaskData.board d = Some (Board.id b)
    ∧ get_board db (Board.id b) = Some b
    ∧ (Board.id b ≠ 0 → may_access c b)
    ∧ Task.id t = task_seq db
    ∧ Task.board t = Board.id b
    ∧ Task.created_by t = Some c
    ∧ Task.assignee t = mjoin (Variant2.tasks_app.TaskData.assignee_id d)
    ∧ Task.reviewer t = mjoin (Variant2.tasks_app.TaskData.reviewer_id d)
    ∧ db' = set_tasks db (tasks db ++ [t])%list (S (task_seq db)).
Proof.
  unfold Variant2.tasks_app.TaskViewSet.create.
  destruct u as [c|]; [|done].
  destruct (Variant2.tasks_app.TaskCreateSerializer.is_valid db d)
    as [v|err] eqn:Hv.
  2:{ simpl. destruct (Variant2.tasks_app.TaskData.board d) as [[|k]|];
        simpl; try (destruct err; done).
      destruct (get_board db (S k)); simpl; [|done].
      destruct (_ || _); simpl; destruct err; done. }
  destruct (v2_task_is_valid_Ok db d v Hv) as (k & b & Hk & Hb & Hvb & Hva & Hvr).
  assert (b ∈ boards db ∧ Board.id b = k) as [_ Hid]
    by (by apply (get_Some_inv Board.id)).
  destruct (Variant2.tasks_app.TaskCreateSerializer.create db c v)
    as [[t1 db1]|err] eqn:Hc.
  2:{ simpl. rewrite Hk. destruct k as [|k]; simpl; [destruct err; done|].
      rewrite Hb. simpl. destruct (_ || _); simpl; destruct err; done. }
  apply v2_task_create_Ok in Hc as (b' & Hb' & Hc).
  assert (b' = b) as -> by congruence.
  simpl. rewrite Hk. destruct k as [|k]; simpl.
  - intros [= <- <- <-]. exists c, b. rewrite Hid in Hc |- *. rewrite <- Hva, <- Hvr.
    split; [done|]. split; [done|]. split; [done|]. split; [done|]. tauto.
  - rewrite Hb. simpl. rewrite access_bool_spec.
    case_bool_decide as Hacc; simpl; [|done].
    intros [= <- <- <-]. exists c, b. rewrite Hid in Hc |- *. rewrite <- Hva, <- Hvr.
    split; [done|]. split; [done|]. split; [done|]. split; [done|]. tauto.
Qed.

(** X10.  Creating a task as an authenticated user, the board is checked
    before anything else.  The first variant answers a request without a
    board with 403, a board id that does not exist with 404 and its own
    message, and a board the caller neither owns nor belongs to with 403;
    the second variant answers a missing or foreign board with 403 and
    the default message.  None of these requests changes the store. *)
Theorem task_create_board_errors `{!Externals} (db : Store) (c : nat)
    (d1 : Variant1.tasks_app.TaskData.t) (d2 : Variant2.tasks_app.TaskData.t) :
  let r1 := Variant1.tasks_app.TaskViewSet.create db (Some c) d1 in
  let r2 := Variant2.tasks_app.TaskViewSet.create db (Some c) d2 in
  let refused :=
    Forbidden
      "You must be the board owner or a member to perform this action." in
  (Variant1.tasks_app.TaskData.board d1 = None → r1 = (refused, db))
  ∧ (∀ k, Variant1.tasks_app.TaskData.board d1 = Some k → k ≠ 0 →
     get_board db k = None →
     r1 = (NotFoundResponse "Board with this ID does not exist.", db))
  ∧ (∀ k b, Variant1.tasks_app.TaskData.board d1 = Some k → k ≠ 0 →
     get_board db k = Some b → ¬ may_access c b → r1 = (refused, db))
  ∧ (∀ k, Variant2.tasks_app.TaskData.board d2 = Some k → k ≠ 0 →
     get_board db k = None → r2 = (Forbidden default_message, db))
  ∧ (∀ k b, Variant2.tasks_app.TaskData.board d2 = Some k → k ≠ 0 →
     get_board db k = Some b → ¬ may_access c b →
     r2 = (Forbidden default_message, db)).
Proof.
  intros r1 r2 refused. subst r1 r2 refused.
  unfold Variant1.tasks_app.TaskViewSet.create,
    Variant2.tasks_app.TaskViewSet.create.
  split; [|split; [|split; [|split]]].
  - intros ->. reflexivity.
  - intros k -> Hk Hnone. destruct k as [|k]; [done|]. simpl.
    by rewrite Hnone.
  - intros k b -> Hk Hb Hacc. destruct k as [|k]; [done|]. simpl.
    rewrite Hb. simpl. rewrite access_bool_spec.
    by rewrite bool_decide_eq_false_2.
  - intros k -> Hk Hnone. destruct k as [|k]; [done|]. simpl.
    by rewrite Hnone.
  - intros k b -> Hk Hb Hacc. destruct k as [|k]; [done|]. simpl.
    rewrite Hb. simpl. rewrite access_bool_spec.
    by rewrite bool_decide_eq_false_2.
Qed.

(** X11.  A task is only ever created by an authenticated user on an
    existing board named in the request.  In the first variant the caller
    owns the board or is one of its members, the new task gets the next
    task id, its assignee and reviewer (when set) are members of the
    board and its status and priority are among the choices, and the
    payload shows that task.  In the second variant the caller has access
    to the board unless its id is 0, and the caller is recorded as the
    creator.  The task is appended to the stored tasks and nothing else
    changes. *)
Theorem task_create_needs_board_access `{!Externals} (db : Store)
    (u : option nat) (d1 : Variant1.tasks_app.TaskData.t)
    (d2 : Variant2.tasks_app.TaskData.t) :
  (∀ status rep db',
     Variant1.tasks_app.TaskViewSet.create db u d1
     = (Success status rep, db') →
     ∃ c b t,
       u = Some c
       ∧ Variant1.tasks_app.TaskData.board d1 = Some (Board.id b)
       ∧ get_board db (Board.id b) = Some b
       ∧ may_access c b
       ∧ Task.board t = Board.id b
       ∧ Task.id t = task_seq db
       ∧ (∀ k, Task.assignee t = Some k → k ∈ Board.members b)
       ∧ (∀ k, Task.reviewer t = Some k → k ∈ Board.members b)
       ∧ Task.status t ∈ Variant1.tasks_app.choices_status
       ∧ Task.priority t ∈ Variant1.tasks_app.choices_priority
       ∧ Variant1.tasks_app.TaskSerializer.data.id rep = Task.id t
       ∧ Variant1.tasks_app.TaskSerializer.data.board rep = Task.board t
       ∧ Variant1.tasks_app.TaskSerializer.data.title rep = Task.title t
       ∧ tasks db' = (tasks db ++ [t])%list
       ∧ boards db' = boards db ∧ comments db' = comments db
       ∧ users db' = users db)
  ∧ (∀ status t db',
     Variant2.tasks_app.TaskViewSet.create db u d2 = (Success status t, db') →
     ∃ c b,
       u = Some c
       ∧ Variant2.tasks_app.TaskData.board d2 = Some (Board.id b)
       ∧ get_board db (Board.id b) = Some b
       ∧ (Board.id b ≠ 0 → may_access c b)
       ∧ Task.board t = Board.id b
       ∧ Task.id t = task_seq db
       ∧ Task.created_by t = Some c
       ∧ tasks db' = (tasks db ++ [t])%list
       ∧ boards db' = boards db ∧ comments db' = comments db
       ∧ users db' = users db).
Proof.
  split.
  - intros status rep db' Hc.
    apply v1_task_create_success in Hc
      as (c & b & raw & t & -> & Hboard & Hb & Hacc & _ & Ht & Has & Hre & Hst
          & Hpr & Hrep & _ & ->).
    apply v1_to_representation_Ok in Hrep as (Hid & Hrb & Hrt & _).
    exists c, b, t. rewrite Hid, Hrb, Hrt. rewrite Ht at 1 2. simpl.
    repeat split; try done.
  - intros status t db' Hc.
    apply v2_task_create_success in Hc
      as (c & b & -> & Hboard & Hb & Hacc & Hid & Htb & Hcb & _ & _ & ->).
    exists c, b. repeat split; try done.
Qed.

(** X12.  For a request that names its board by an integer id: when the
    first variant refuses to create a task with 400, none of the reported
    errors is filed under [board].  A missing or unknown board and a board the
    caller has no access to are answered with 403 or 404 before the
    request is validated, and a board that got past that check passes the
    serializer's own checks of the board. *)
Theorem task_create_never_blames_board `{!Externals} (db : Store)
    (u : option nat) (d : Variant1.tasks_app.TaskData.t)
    (errors : list (string * string)) (m : string) :
  (Variant1.tasks_app.TaskViewSet.create db u d).1 = BadRequest errors →
  ("board", m) ∉ errors.
Proof.
  unfold Variant1.tasks_app.TaskViewSet.create. cbv zeta.
  destruct u as [c|]; [|done]. simpl.
  destruct (Variant1.tasks_app.TaskData.board d) as [[|k]|] eqn:Hboard;
    simpl; try done.
  destruct (get_board db (S k)) as [b|] eqn:Hb; simpl; [|done].
  rewrite access_bool_spec. case_bool_decide as Hacc; simpl; [|done].
  unfold Variant1.tasks_app.TaskSerializer.is_valid.
  destruct (Variant1.tasks_app.TaskSerializer.to_internal_value db false d)
    as [a|err] eqn:Ha.
  - pose proof (v1_to_internal_value_inv db false d) as Hinv.
    rewrite Ha in Hinv. destruct Hinv as (Hab & _).
    destruct (Hab _ Hboard) as (b' & Hb' & Hab').
    assert (b' = b) as -> by congruence.
    simpl. unfold Variant1.tasks_app.TaskSerializer.validate,
      Variant1.tasks_app.TaskSerializer._get_board. rewrite Hab'. simpl.
    rewrite access_bool_spec, bool_decide_eq_true_2 by done. simpl.
    unfold Variant1.tasks_app.TaskSerializer._validate_user_role.
    destruct (mjoin (Variant1.tasks_app.TaskSerializer.assignee a))
      as [ua|]; simpl.
    + case_bool_decide; simpl.
      2:{ intros [= <-] Hin. apply list_elem_of_singleton in Hin.
          discriminate. }
      destruct (mjoin (Variant1.tasks_app.TaskSerializer.reviewer a))
        as [ur|]; simpl.
      * case_bool_decide; simpl.
        2:{ intros [= <-] Hin. apply list_elem_of_singleton in Hin.
            discriminate. }
        unfold Variant1.tasks_app.TaskSerializer.create; rewrite Hab';
          destruct (Variant1.tasks_app.TaskSerializer.title a); [|done];
          cbn [bind run fst snd]; unfold respond_after_save;
          destruct (Variant1.tasks_app.TaskSerializer.to_representation _ _ _)
            as [rep|e] eqn:Erep; [done|];
          apply v1_task_representation_Raise in Erep as [exc ->]; done.
      * unfold Variant1.tasks_app.TaskSerializer.create; rewrite Hab';
          destruct (Variant1.tasks_app.TaskSerializer.title a); [|done];
          cbn [bind run fst snd]; unfold respond_after_save;
          destruct (Variant1.tasks_app.TaskSerializer.to_representation _ _ _)
            as [rep|e] eqn:Erep; [done|];
          apply v1_task_representation_Raise in Erep as [exc ->]; done.
    + destruct (mjoin (Variant1.tasks_app.TaskSerializer.reviewer a))
        as [ur|]; simpl.
      * case_bool_decide; simpl.
        2:{ intros [= <-] Hin. apply list_elem_of_singleton in Hin.
            discriminate. }
        unfold Variant1.tasks_app.TaskSerializer.create; rewrite Hab';
          destruct (Variant1.tasks_app.TaskSerializer.title a); [|done];
          cbn [bind run fst snd]; unfold respond_after_save;
          destruct (Variant1.tasks_app.TaskSerializer.to_representation _ _ _)
            as [rep|e] eqn:Erep; [done|];
          apply v1_task_representation_Raise in Erep as [exc ->]; done.
      * unfold Variant1.tasks_app.TaskSerializer.create; rewrite Hab';
          destruct (Variant1.tasks_app.TaskSerializer.title a); [|done];
          cbn [bind run fst snd]; unfold respond_after_save;
          destruct (Variant1.tasks_app.TaskSerializer.to_representation _ _ _)
            as [rep|e] eqn:Erep; [done|];
          apply v1_task_representation_Raise in Erep as [exc ->]; done.
  - revert Ha. unfold Variant1.tasks_app.TaskSerializer.to_internal_value.
    cbv zeta. rewrite Hboard. simpl fmap.
    destruct (field_errors "board" _ ++ _)%list as [|e es] eqn:E; [done|].
    intros [= <-]. simpl. intros [= <-] Hin. rewrite <- E in Hin.
    simpl in Hin. rewrite Hb in Hin. simpl in Hin.
    repeat (apply elem_of_app in Hin as [Hin|Hin];
            [by apply elem_of_field_errors in Hin|]).
    by apply elem_of_field_errors in Hin.
Qed.

Lemma task_create_never_blames_board_witness :
  ∃ errors,
    (Variant1.tasks_app.TaskViewSet.create (H := Fixtures.plain) Fixtures.db0
       (Some 1) (Fixtures.task_data_v1 (Some 1) "Review" (Some 3))).1
    = BadRequest errors
    ∧ errors ≠ [] ∧ ("board", "This field is required.") ∉ errors.
Proof.
  eexists.
  assert (∀ A (x y : A) (P Q : Prop), x = y → P → (x = y → Q) → x = y ∧ P ∧ Q)
    as Hstep by tauto.
  apply Hstep; [vm_compute; reflexivity|discriminate|].
  apply (task_create_never_blames_board (H := Fixtures.plain)).
Defined.

Lemma board_tasks_append (db : Store) (t : Task.t) (seq : nat) (k : nat) :
  board_tasks (set_tasks db (tasks db ++ [t])%list seq) k
  = (board_tasks db k ++ if bool_decide (Task.board t = k) then [t] else [])%list.
Proof.
  unfold board_tasks. simpl. rewrite filter_app. f_equal.
  rewrite filter_cons, filter_nil. case_bool_decide.
  - by rewrite decide_True.
  - by rewrite decide_False.
Qed.

(** X13.  First variant: after a task has been created, the summary of
    the task's board counts one more ticket, one more to-do task exactly
    when the request gave no status or the status [to-do], and one more
    high-priority task exactly when the request gave the priority
    [high]; the member count is unchanged.  The summary of every other
    board is unchanged. *)
Theorem new_task_in_board_summary `{!Externals} (db db' : Store)
    (u : option nat) (d : Variant1.tasks_app.TaskData.t) (status : nat)
    (rep : Variant1.tasks_app.TaskSerializer.data.t) (obj : Board.t) :
  Variant1.tasks_app.TaskViewSet.create db u d = (Success status rep, db') →
  let s := Variant1.boards_app.BoardListSerializer.to_representation db obj in
  let s' := Variant1.boards_app.BoardListSerializer.to_representation db' obj in
  let to_do := Variant1.tasks_app.TaskData.status d in
  let high := Variant1.tasks_app.TaskData.priority d in
  if bool_decide (Variant1.tasks_app.TaskSerializer.data.board rep
                  = Board.id obj)
  then Variant1.boards_app.BoardListSerializer.ticket_count s'
       = Variant1.boards_app.BoardListSerializer.ticket_count s + 1
       ∧ Variant1.boards_app.BoardListSerializer.tasks_to_do_count s'
         = Variant1.boards_app.BoardListSerializer.tasks_to_do_count s
           + (if bool_decide (to_do = None ∨ to_do = Some "to-do")
              then 1 else 0)
       ∧ Variant1.boards_app.BoardListSerializer.tasks_high_prio_count s'
         = Variant1.boards_app.BoardListSerializer.tasks_high_prio_count s
           + (if bool_decide (high = Some "high") then 1 else 0)
       ∧ Variant1.boards_app.BoardListSerializer.member_count s'
         = Variant1.boards_app.BoardListSerializer.member_count s
  else s' = s.
Proof.
  intros Hc s s' to_do high. subst s s' to_do high.
  apply v1_task_create_success in Hc
    as (c & b & raw & t & -> & Hboard & Hb & Hacc & _ & Ht & _ & _ & _ & _
        & Hrep & _ & ->).
  apply v1_to_representation_Ok in Hrep as (_ & -> & _).
  unfold Variant1.boards_app.BoardListSerializer.to_representation,
    Variant1.boards_app.BoardListSerializer.get_ticket_count,
    Variant1.boards_app.BoardListSerializer.get_tasks_to_do_count,
    Variant1.boards_app.BoardListSerializer.get_tasks_high_prio_count.
  rewrite !board_tasks_append.
  case_bool_decide as Hsame; [|by rewrite !app_nil_r].
  cbn [Variant1.boards_app.BoardListSerializer.ticket_count
       Variant1.boards_app.BoardListSerializer.tasks_to_do_count
       Variant1.boards_app.BoardListSerializer.tasks_high_prio_count
       Variant1.boards_app.BoardListSerializer.member_count].
  rewrite !filter_app, !length_app, !filter_cons, !filter_nil.
  assert (Task.status t
          = default "to-do" (Variant1.tasks_app.TaskData.status d)) as Hst
    by (by rewrite Ht).
  assert (Task.priority t
          = default "medium" (Variant1.tasks_app.TaskData.priority d)) as Hpr
    by (by rewrite Ht).
  split; [done|]. split; [|split; [|done]].
  - f_equal. rewrite Hst.
    destruct (Variant1.tasks_app.TaskData.status d) as [st|]; simpl.
    + case_bool_decide as Hd.
      * destruct Hd as [Hd|[= ->]]; [done|]. by rewrite decide_True.
      * rewrite decide_False; [done|]. intros ->. apply Hd. by right.
    + done.
  - f_equal. rewrite Hpr.
    destruct (Variant1.tasks_app.TaskData.priority d) as [pr|]; simpl.
    + case_bool_decide as Hd.
      * injection Hd as ->. by rewrite decide_True.
      * rewrite decide_False; [done|]. intros ->. by apply Hd.
    + done.
Qed.

Lemma new_task_in_board_summary_witness :
  ∃ t db',
    Variant1.tasks_app.TaskViewSet.create (H := Fixtures.plain) Fixtures.db0
      (Some 2) (Fixtures.task_data_v1 (Some 1) "Review" (Some 2))
    = (Success HTTP_201_CREATED t, db')
    ∧ Variant1.boards_app.BoardListSerializer.ticket_count
        (Variant1.boards_app.BoardListSerializer.to_representation db'
           Fixtures.sprint) = 2
    ∧ Variant1.boards_app.BoardListSerializer.tasks_to_do_count
        (Variant1.boards_app.BoardListSerializer.to_representation db'
           Fixtures.sprint) = 2.
Proof.
  eexists _, _.
  assert (∀ A (x y : A) (P : Prop), x = y → (x = y → P) → x = y ∧ P)
    as Hstep by tauto.
  apply Hstep; [vm_compute; reflexivity|]. intros Hc.
  pose proof (new_task_in_board_summary (H := Fixtures.plain) _ _ _ _ _ _
                Fixtures.sprint Hc) as Hsum.
  cbv zeta in Hsum. rewrite bool_decide_eq_true_2 in Hsum by reflexivity.
  destruct Hsum as (Hn & Htodo & _). split.
  - rewrite Hn. reflexivity.
  - rewrite Htodo. reflexivity.
Defined.

(** ** Listing tasks *)

#[local] Instance task_id_desc_trans : Transitive task_id_desc.
Proof. unfold task_id_desc. intros x y z Hxy Hyz. lia. Qed.

#[local] Instance task_id_desc_total : Total task_id_desc.
Proof. unfold task_id_desc. intros x y. lia. Qed.

Lemma elem_of_order_tasks (ts : list Task.t) (t : Task.t) :
  t ∈ order_tasks_by_id_desc ts ↔ t ∈ ts.
Proof. unfold order_tasks_by_id_desc. by rewrite merge_sort_Permutation. Qed.

(** X14.  The first variant's lists of the tasks assigned to a user and
    of the tasks the user reviews contain exactly the stored tasks with
    that assignee, respectively reviewer, newest id first; without a mode
    the list is empty.  The second variant's [assigned_to_me] and
    [reviewing] list the same tasks.  A task created with the user as
    assignee is in the user's list afterwards. *)
Theorem assigned_tasks_listed `{!Externals} (db : Store) (u : nat) :
  let mine :=
    Variant1.tasks_app.TaskAssignedOrReviewerViewSet.get_queryset db
      (Some Variant1.tasks_app.TaskAssignedOrReviewerViewSet.assigned) u in
  let reviewed :=
    Variant1.tasks_app.TaskAssignedOrReviewerViewSet.get_queryset db
      (Some Variant1.tasks_app.TaskAssignedOrReviewerViewSet.reviewer) u in
  (∀ t, t ∈ mine ↔ t ∈ tasks db ∧ Task.assignee t = Some u)
  ∧ (∀ t, t ∈ reviewed ↔ t ∈ tasks db ∧ Task.reviewer t = Some u)
  ∧ StronglySorted task_id_desc mine
  ∧ StronglySorted task_id_desc reviewed
  ∧ Variant1.tasks_app.TaskAssignedOrReviewerViewSet.get_queryset db None u
    = []
  ∧ mine ≡ₚ Variant2.tasks_app.TaskViewSet.assigned_to_me db u
  ∧ reviewed ≡ₚ Variant2.tasks_app.TaskViewSet.reviewing db u
  ∧ (∀ c d status rep db',
       Variant1.tasks_app.TaskViewSet.create db c d
       = (Success status rep, db') →
       Variant1.tasks_app.TaskData.assignee_id d = Some (Some u) →
       ∃ t,
         t ∈ Variant1.tasks_app.TaskAssignedOrReviewerViewSet.get_queryset db'
               (Some Variant1.tasks_app.TaskAssignedOrReviewerViewSet.assigned)
               u
         ∧ Task.id t = Variant1.tasks_app.TaskSerializer.data.id rep
         ∧ Task.id t = task_seq db).
Proof.
  intros mine reviewed. subst mine reviewed.
  unfold Variant1.tasks_app.TaskAssignedOrReviewerViewSet.get_queryset,
    Variant2.tasks_app.TaskViewSet.assigned_to_me,
    Variant2.tasks_app.TaskViewSet.reviewing.
  split; [intros t; rewrite elem_of_order_tasks, list_elem_of_filter; tauto|].
  split; [intros t; rewrite elem_of_order_tasks, list_elem_of_filter; tauto|].
  split; [apply StronglySorted_merge_sort; apply _|].
  split; [apply StronglySorted_merge_sort; apply _|].
  split; [done|].
  split; [apply merge_sort_Permutation|].
  split; [apply merge_sort_Permutation|].
  intros c d status rep db' Hc Ha.
  apply v1_task_create_success in Hc
    as (c' & b & raw & t & -> & _ & _ & _ & _ & Ht & _ & _ & _ & _ & Hrep & _
        & ->).
  apply v1_to_representation_Ok in Hrep as (Hid & _).
  exists t. split; [|split; [done|by rewrite Ht]].
  rewrite elem_of_order_tasks, list_elem_of_filter. simpl. split.
  - rewrite Ht. simpl. by rewrite Ha.
  - apply elem_of_app. right. by apply list_elem_of_singleton.
Qed.

(** ** The serialized task *)

(** X15.  The first variant's serialized task carries [comments_count],
    the number of comments stored for the task (the length of the task's
    comment list), in every response except the one to a PATCH request,
    where the entry is removed.  Serializing succeeds when the assignee
    and the reviewer, if set, are users with a profile. *)
Theorem task_representation_comments_count (db : Store) (u : option nat)
    (a : Action) (board : option nat) (t : Task.t) :
  let request := Variant1.tasks_app.TaskViewSet.request_of u a board in
  let shown :=
    Variant1.tasks_app.TaskSerializer.to_representation db (Some request) t in
  let n := length (task_comments db (Task.id t)) in
  (method request = PATCH ↔ a = partial_update)
  ∧ (∀ rep, shown = Ok rep →
     Variant1.tasks_app.TaskSerializer.data.id rep = Task.id t
     ∧ Variant1.tasks_app.TaskSerializer.data.comments_count rep
       = if bool_decide (a = partial_update) then None else Some n)
  ∧ (∀ rep,
     Variant1.tasks_app.TaskSerializer.to_representation db None t = Ok rep →
     Variant1.tasks_app.TaskSerializer.data.comments_count rep = Some n)
  ∧ (∀ l,
     Variant1.tasks_app.TaskCommentsViewSet.get_queryset db request (Task.id t)
     = Ok l → length l = n)
  ∧ ((∀ k, Task.assignee t = Some k →
        is_Some (get_user db k ≫= User.fullname)) →
     (∀ k, Task.reviewer t = Some k →
        is_Some (get_user db k ≫= User.fullname)) →
     ∃ rep, shown = Ok rep).
Proof.
  intros request shown n. subst request shown n.
  assert (method (Variant1.tasks_app.TaskViewSet.request_of u a board) = PATCH
          ↔ a = partial_update) as Hpatch.
  { unfold method. simpl. destruct a; simpl; split; done. }
  split; [exact Hpatch|]. split; [|split; [|split]].
  - intros rep Hrep. apply v1_to_representation_Ok in Hrep
      as (Hid & _ & _ & _ & _ & _ & _ & Hcc).
    split; [done|]. rewrite Hcc.
    repeat case_bool_decide; try done; exfalso; tauto.
  - intros rep Hrep. by apply v1_to_representation_Ok in Hrep
      as (_ & _ & _ & _ & _ & _ & _ & Hcc).
  - intros l. unfold Variant1.tasks_app.TaskCommentsViewSet.get_queryset.
    destruct (get_task db (Task.id t)) as [t'|] eqn:Ht; [|done]. simpl.
    destruct (task_board db t') as [b|]; [|done]. simpl.
    destruct (_ && _); [done|]. intros [= <-].
    apply get_Some_inv in Ht as [_ Ht]. rewrite Ht.
    unfold order_by_created_at. by rewrite merge_sort_Permutation.
  - intros Ha Hr.
    unfold Variant1.tasks_app.TaskSerializer.to_representation.
    assert (∀ o, (∀ k, o = Some k →
                       is_Some (get_user db k ≫= User.fullname)) →
              ∃ s, Variant1.tasks_app.TaskSerializer.nested_user db o = Ok s)
      as Hnested.
    { intros [k|] Hk; [|by eexists].
      destruct (Hk k eq_refl) as [fn Hfn].
      unfold Variant1.tasks_app.TaskSerializer.nested_user.
      destruct (get_user db k) as [usr|]; [|done]. simpl in Hfn.
      unfold Variant1.tasks_app.UserSerializer.to_representation,
        Variant1.tasks_app.UserSerializer.get_fullname.
      rewrite Hfn. simpl. by eexists. }
    destruct (Hnested _ Ha) as [sa ->]. destruct (Hnested _ Hr) as [sr ->].
    simpl. case_bool_decide; by eexists.
Qed.

(** X16.  The tasks shown in the first variant's board detail are the
    serialized tasks of that board and no others: as many as the board's
    ticket count, newest id first, each with its comment count. *)
Theorem board_detail_lists_tasks (db : Store) (obj : Board.t)
    (l : list Variant1.tasks_app.TaskSerializer.data.t) :
  Variant1.boards_app.BoardDetailSerializer.get_tasks db obj = Ok l →
  length l
  = Variant1.boards_app.BoardListSerializer.get_ticket_count db obj
  ∧ (∀ k, k ∈ Variant1.tasks_app.TaskSerializer.data.id <$> l
          ↔ ∃ t, t ∈ tasks db ∧ Task.board t = Board.id obj ∧ Task.id t = k)
  ∧ StronglySorted (λ x y, y ≤ x)%nat
      (Variant1.tasks_app.TaskSerializer.data.id <$> l)
  ∧ Forall
      (λ rep,
         Variant1.tasks_app.TaskSerializer.data.board rep = Board.id obj
         ∧ ∃ t, t ∈ tasks db
             ∧ Task.id t = Variant1.tasks_app.TaskSerializer.data.id rep
             ∧ Variant1.tasks_app.TaskSerializer.data.comments_count rep
               = Some (length (task_comments db (Task.id t)))) l.
Proof.
  unfold Variant1.boards_app.BoardDetailSerializer.get_tasks. cbv zeta. intros Hl.
  apply many_Ok in Hl.
  set (ts := order_tasks_by_id_desc (board_tasks db (Board.id obj))) in *.
  assert (Variant1.tasks_app.TaskSerializer.data.id <$> l = Task.id <$> ts)
    as Hids.
  { induction Hl as [|t rep ts' l' Hrep _ IH]; [done|].
    rewrite !fmap_cons, IH. f_equal.
    by apply v1_to_representation_Ok in Hrep as (-> & _). }
  assert (∀ t, t ∈ ts ↔ t ∈ tasks db ∧ Task.board t = Board.id obj) as Hts.
  { intros t. subst ts. rewrite elem_of_order_tasks. unfold board_tasks.
    rewrite list_elem_of_filter. tauto. }
  split; [|split; [|split]].
  - rewrite <- (Forall2_length _ _ _ Hl). subst ts.
    unfold order_tasks_by_id_desc,
      Variant1.boards_app.BoardListSerializer.get_ticket_count.
    by rewrite merge_sort_Permutation.
  - intros k. rewrite Hids, list_elem_of_fmap. split.
    + intros (t & -> & Ht). exists t. apply Hts in Ht. tauto.
    + intros (t & Hin & Hb & <-). exists t. split; [done|]. by apply Hts.
  - rewrite Hids.
    assert (StronglySorted task_id_desc ts) as Hs
      by (apply StronglySorted_merge_sort; apply _).
    clear -Hs. induction Hs as [|t ts Hs IH Hall]; [constructor|].
    simpl. constructor; [done|]. by apply Forall_fmap.
  - assert (Forall (λ t, t ∈ tasks db ∧ Task.board t = Board.id obj) ts)
      as Hall by (apply Forall_forall; intros t Ht; by apply Hts).
    clear -Hl Hall. induction Hl as [|t rep ts' l' Hrep _ IH]; [constructor|].
    apply Forall_cons in Hall as [[Hin Hb] Hall].
    constructor; [|by apply IH].
    apply v1_to_representation_Ok in Hrep
      as (Hid & Hboard & _ & _ & _ & _ & _ & Hcc).
    split; [congruence|]. exists t. done.
Qed.

Lemma board_detail_lists_tasks_witness :
  ∃ l,
    Variant1.boards_app.BoardDetailSerializer.get_tasks Fixtures.db0 Fixtures.sprint
    = Ok l
    ∧ length l = 1
    ∧ Variant1.tasks_app.TaskSerializer.data.id <$> l = [1].
Proof.
  eexists.
  assert (∀ A (x y : A) (P : Prop), x = y → (x = y → P) → x = y ∧ P)
    as Hstep by tauto.
  apply Hstep; [vm_compute; reflexivity|]. intros Hl.
  destruct (board_detail_lists_tasks _ _ _ Hl) as (Hlen & _).
  split; [rewrite Hlen; reflexivity|reflexivity].
Defined.

(** ** Changing and deleting a task *)

(** X17.  First variant: a PATCH that sends only [assignee_id: null], by
    a user with access to the task's board, removes the assignee of the
    stored task and leaves its id, board, title, status, priority and
    reviewer as they were.  The answer is 200, showing the task without
    assignee and without [comments_count], when the task's reviewer, if
    it has one, has a profile; otherwise the change is stored all the
    same and the answer is a server error. *)
Theorem task_patch_unassigns `{!Externals} (db : Store) (t : Task.t)
    (b : Board.t) (c : nat) :
  get_task db (Task.id t) = Some t →
  get_board db (Task.board t) = Some b →
  may_access c b →
  let r :=
    Variant1.tasks_app.TaskViewSet.partial_update db (Some c) (Task.id t)
      Fixtures.unassign_v1 in
  let reviewer_shown := ∀ k, Task.reviewer t = Some k → has_profile db k in
  ∃ t',
    get_task r.2 (Task.id t) = Some t'
    ∧ Task.assignee t' = None
    ∧ Task.id t' = Task.id t ∧ Task.board t' = Task.board t
    ∧ Task.title t' = Task.title t ∧ Task.status t' = Task.status t
    ∧ Task.priority t' = Task.priority t
    ∧ Task.reviewer t' = Task.reviewer t
    ∧ (reviewer_shown →
       ∃ rep,
         r.1 = Success HTTP_200_OK rep
         ∧ Variant1.tasks_app.TaskSerializer.data.id rep = Task.id t
         ∧ Variant1.tasks_app.TaskSerializer.data.assignee rep = None
         ∧ Variant1.tasks_app.TaskSerializer.data.comments_count rep = None)
    ∧ (¬ reviewer_shown → is_server_error r.1 = true).
Proof.
  intros Ht Hb Hacc r reviewer_shown. subst r reviewer_shown.
  unfold Variant1.tasks_app.TaskViewSet.partial_update,
    Variant1.tasks_app.TaskViewSet.update_with,
    Variant1.tasks_app.TaskViewSet.get_object, Drf.get_object.
  simpl. rewrite Ht. simpl. unfold task_board. rewrite Hb. simpl.
  rewrite access_bool_spec, bool_decide_eq_true_2 by done. simpl.
  unfold Variant1.tasks_app.TaskSerializer.is_valid. simpl.
  unfold Variant1.tasks_app.TaskSerializer.validate,
    Variant1.tasks_app.TaskSerializer._get_board,
    Variant1.tasks_app.TaskSerializer._validate_user_role,
    Variant1.tasks_app.TaskSerializer._prevent_board_change. simpl.
  unfold task_board. rewrite ?Hb. simpl.
  set (t' := {| Task.id := Task.id t; Task.board := Task.board t;
                Task.title := Task.title t;
                Task.description := Task.description t;
                Task.status := Task.status t;
                Task.priority := Task.priority t; Task.assignee := None;
                Task.reviewer := Task.reviewer t;
                Task.due_date := Task.due_date t;
                Task.created_by := Task.created_by t |}).
  set (db' := set_tasks db _ _).
  set (request :=
         Variant1.tasks_app.TaskViewSet.request_of (Some c) partial_update
           None).
  exists t'.
  pose proof (respond_after_save_cases HTTP_200_OK db'
                (Variant1.tasks_app.TaskSerializer.to_representation db'
                   (Some request) t')
                (v1_task_representation_Raise db' (Some request) t'))
    as [Hstore Hcases].
  cbv zeta in Hstore, Hcases. rewrite Hstore.
  split.
  { subst db'. unfold get_task in *. simpl.
    rewrite get_fmap_same_pk by (intros x; by case_bool_decide).
    rewrite Ht. simpl. by rewrite bool_decide_eq_true_2. }
  do 7 (split; [done|]).
  assert ((∃ rep, Variant1.tasks_app.TaskSerializer.to_representation db'
                    (Some request) t' = Ok rep)
          ↔ ∀ k, Task.reviewer t = Some k → has_profile db k) as Hiff.
  { rewrite v1_task_shown, (task_shown_users db db') by done.
    unfold task_shown. simpl. split; [by intros [_ ?]|done]. }
  split.
  - intros Hshown. apply Hiff in Hshown as [rep Hrep].
    destruct Hcases as [(rep' & Hrep' & ->)|(exc & Hexc & _)]; [|congruence].
    exists rep'. split; [done|].
    apply v1_to_representation_Ok in Hrep' as (Hid & _ & _ & _ & _ & Has & _ & Hcc).
    split; [done|]. split; [by destruct (Variant1.tasks_app.TaskSerializer.data.assignee rep')|].
    rewrite Hcc. done.
  - intros Hnot.
    destruct Hcases as [(rep' & Hrep' & _)|(exc & _ & ->)]; [|done].
    destruct Hnot. apply Hiff. by eexists.
Qed.

Lemma task_patch_unassigns_witness :
  ∃ t' rep,
    get_task
      (Variant1.tasks_app.TaskViewSet.partial_update (H := Fixtures.plain)
         Fixtures.db0 (Some 2) 1 Fixtures.unassign_v1).2 1 = Some t'
    ∧ Task.assignee Fixtures.ticket = Some 2
    ∧ Task.assignee t' = None
    ∧ (Variant1.tasks_app.TaskViewSet.partial_update (H := Fixtures.plain)
         Fixtures.db0 (Some 2) 1 Fixtures.unassign_v1).1
      = Success HTTP_200_OK rep.
Proof.
  assert (may_access 2 Fixtures.sprint) as Hacc
    by (right; apply (bool_decide_unpack _); vm_compute; exact I).
  destruct (task_patch_unassigns (H := Fixtures.plain) Fixtures.db0
              Fixtures.ticket Fixtures.sprint 2 eq_refl eq_refl Hacc)
    as (t' & Hget & Hnone & _ & _ & _ & _ & _ & _ & Hshown & _).
  destruct Hshown as (rep & Hresp & _); [by intros k [=]|].
  exists t', rep. split; [exact Hget|]. split; [reflexivity|].
  split; [exact Hnone|exact Hresp].
Defined.

Lemma v2_validate_role_Ok (db : Store) (b : Board.t) (key role : string)
    (k : nat) :
  Variant2.tasks_app.validate_role db b key role k = Ok () →
  is_Some (get_user db k) ∧ may_access k b.
Proof.
  unfold Variant2.tasks_app.validate_role, may_access.
  destruct (get_user db k) as [usr|] eqn:Hu; [|done].
  apply get_Some_inv in Hu as [_ Hid]. rewrite Hid.
  repeat case_bool_decide; simpl; try done; intros _; split; eauto.
Qed.

(** X18.  Second variant: updating a task with validated data keeps the
    assignee and the reviewer unless the request names a new one, so an
    update can replace them but never clear them.  A newly named assignee
    or reviewer is an existing user who owns the task's board or is one
    of its members.  The task's id, board and creator never change. *)
Theorem task_update_keeps_assignee `{!Externals} (db : Store)
    (instance : Task.t) (d : Variant2.tasks_app.TaskData.t)
    (v : Variant2.tasks_app.TaskUpdateSerializer.data) (b : Board.t) :
  get_board db (Task.board instance) = Some b →
  Variant2.tasks_app.TaskUpdateSerializer.is_valid db (Some instance) d
  = Ok v →
  let out := Variant2.tasks_app.TaskUpdateSerializer.update db instance v in
  let sent_assignee := mjoin (Variant2.tasks_app.TaskData.assignee_id d) in
  let sent_reviewer := mjoin (Variant2.tasks_app.TaskData.reviewer_id d) in
  Task.assignee out.1
  = match sent_assignee with
    | Some a => Some a
    | None => Task.assignee instance
    end
  ∧ Task.reviewer out.1
    = match sent_reviewer with
      | Some r => Some r
      | None => Task.reviewer instance
      end
  ∧ (∀ a, sent_assignee = Some a → is_Some (get_user db a) ∧ may_access a b)
  ∧ (∀ r, sent_reviewer = Some r → is_Some (get_user db r) ∧ may_access r b)
  ∧ (is_Some (Task.assignee instance) → is_Some (Task.assignee out.1))
  ∧ (is_Some (Task.reviewer instance) → is_Some (Task.reviewer out.1))
  ∧ Task.id out.1 = Task.id instance
  ∧ Task.board out.1 = Task.board instance
  ∧ Task.created_by out.1 = Task.created_by instance.
Proof.
  intros Hb Hv out sent_assignee sent_reviewer.
  subst out sent_assignee sent_reviewer.
  unfold Variant2.tasks_app.TaskUpdateSerializer.is_valid in Hv.
  cbv zeta in Hv.
  destruct (Variant2.tasks_app.TaskFields.run_fields true d).1; [|done].
  unfold Variant2.tasks_app.TaskUpdateSerializer.validate,
    Variant2.tasks_app.IntegerField, task_board in Hv.
  rewrite Hb in Hv. simpl in Hv.
  apply bind_Ok in Hv as ([] & Ha & Hv).
  apply bind_Ok in Hv as ([] & Hr & Hv).
  injection Hv as <-. simpl.
  split; [done|]. split; [done|]. split; [|split].
  - intros a Hsent. rewrite Hsent in Ha. by apply v2_validate_role_Ok in Ha.
  - intros r Hsent. rewrite Hsent in Hr. by apply v2_validate_role_Ok in Hr.
  - split; [destruct (mjoin (Variant2.tasks_app.TaskData.assignee_id d));
            [intros _; eexists; reflexivity|done]|].
    split; [destruct (mjoin (Variant2.tasks_app.TaskData.reviewer_id d));
            [intros _; eexists; reflexivity|done]|]. done.
Qed.

Lemma task_update_keeps_assignee_witness :
  ∃ v,
    Variant2.tasks_app.TaskUpdateSerializer.is_valid (H := Fixtures.plain)
      Fixtures.db0 (Some Fixtures.ticket)
      (Fixtures.task_data_v2 None "Write the proofs" None) = Ok v
    ∧ Task.assignee
        (Variant2.tasks_app.TaskUpdateSerializer.update Fixtures.db0
           Fixtures.ticket v).1 = Some 2.
Proof.
  eexists.
  assert (∀ A (x y : A) (P : Prop), x = y → (x = y → P) → x = y ∧ P)
    as Hstep by tauto.
  apply Hstep; [vm_compute; reflexivity|]. intros Hv.
  destruct (task_update_keeps_assignee (H := Fixtures.plain) Fixtures.db0
              Fixtures.ticket _ _ Fixtures.sprint eq_refl Hv) as (Ha & _).
  rewrite Ha. reflexivity.
Defined.

(** X19.  First variant: deleting a task answers 204 only for a stored
    task and removes exactly that task and the comments on it; boards and
    users are untouched.  Afterwards the task cannot be fetched and its
    comments cannot be listed. *)
Theorem task_delete_removes_comments (db db' : Store) (u : option nat)
    (pk status : nat) :
  Variant1.tasks_app.TaskViewSet.destroy db u pk = (Success status (), db') →
  status = HTTP_204_NO_CONTENT
  ∧ is_Some (get_task db pk)
  ∧ (∀ t, t ∈ tasks db' ↔ t ∈ tasks db ∧ Task.id t ≠ pk)
  ∧ (∀ c, c ∈ comments db' ↔ c ∈ comments db ∧ Comment.task c ≠ pk)
  ∧ boards db' = boards db
  ∧ users db' = users db
  ∧ get_task db' pk = None
  ∧ task_comments db' pk = []
  ∧ ∀ perms reader,
      is_success
        (Variant1.tasks_app.TaskCommentsViewSet.list perms db' reader pk).1
      = false.
Proof.
  unfold Variant1.tasks_app.TaskViewSet.destroy. cbv zeta. intros Hd.
  apply run_bind_success in Hd as ([] & _ & Hd).
  apply run_bind_success in Hd as (t & Hobj & Hd).
  apply get_object_Ok in Hobj as [Ht _].
  simpl in Hd. injection Hd as <- <-.
  pose proof Ht as Hid. apply get_Some_inv in Hid as [_ Hid].
  assert (get_task (delete_task db t) pk = None) as Hgone.
  { apply get_None_intro. intros r Hr. unfold delete_task in Hr. simpl in Hr.
    apply list_elem_of_filter in Hr as [Hr _]. congruence. }
  split; [done|]. split; [by rewrite Ht|].
  split; [intros x; unfold delete_task; simpl;
          rewrite list_elem_of_filter, Hid; tauto|].
  split; [intros x; unfold delete_task; simpl;
          rewrite list_elem_of_filter, Hid; tauto|].
  split; [done|]. split; [done|]. split; [done|]. split.
  - unfold task_comments, delete_task. simpl. rewrite Hid.
    induction (comments db) as [|x l IH]; [done|].
    rewrite (filter_cons (λ c, Comment.task c ≠ pk)).
    destruct (decide (Comment.task x ≠ pk)) as [Hx|Hx]; [|done].
    rewrite filter_cons. by rewrite decide_False by (intros ?; done).
  - intros perms reader.
    unfold Variant1.tasks_app.TaskCommentsViewSet.list,
      Variant1.tasks_app.TaskCommentsViewSet.get_queryset.
    destruct (check_permissions perms _ _) as [[]|e]; [|by destruct e].
    simpl. by rewrite Hgone.
Qed.

Lemma task_delete_removes_comments_witness :
  ∃ db',
    Variant1.tasks_app.TaskViewSet.destroy Fixtures.db0 (Some 1) 1
    = (Success HTTP_204_NO_CONTENT (), db')
    ∧ comments Fixtures.db0 = [Fixtures.remark]
    ∧ task_comments db' 1 = [].
Proof.
  eexists.
  assert (∀ A (x y : A) (P Q : Prop), x = y → P → (x = y → Q) → x = y ∧ P ∧ Q)
    as Hstep by tauto.
  apply Hstep; [vm_compute; reflexivity|reflexivity|]. intros Hd.
  apply (task_delete_removes_comments _ _ _ _ _ Hd).
Defined.

(** ** Comments *)

Lemma v1_comment_validate_stripped (raw : string) :
  strip raw ≠ "" →
  Variant1.tasks_app.TaskCommentSerializer.validate (Some (strip raw))
  = Ok (strip raw).
Proof.
  intros Hne. unfold Variant1.tasks_app.TaskCommentSerializer.validate.
  simpl. rewrite strip_idemp. by rewrite !bool_decide_eq_false_2.
Qed.


#[local] Instance created_before_trans : Transitive created_before.
Proof. unfold created_before. intros x y z Hxy Hyz. lia. Qed.

#[local] Instance created_before_total : Total created_before.
Proof. unfold created_before. intros x y. lia. Qed.

Lemma StronglySorted_snoc_inv {A : Type} (R : relation A) (l : list A) (y : A) :
  StronglySorted R (l ++ [y]) → Forall (λ z, R z y) l.
Proof.
  induction l as [|x l IH]; simpl; [constructor|].
  intros Hs. apply StronglySorted_inv in Hs as [Hs Hall].
  constructor; [|by apply IH].
  rewrite Forall_forall in Hall. apply Hall. apply elem_of_app. right.
  by apply list_elem_of_singleton.
Qed.

(** The newest comment is listed last. *)
Lemma order_by_created_at_last (l : list Comment.t) (x : Comment.t) :
  Forall (λ y, Comment.created_at y < Comment.created_at x) l →
  last (order_by_created_at (l ++ [x])) = Some x.
Proof.
  intros Hall. unfold order_by_created_at.
  set (s := merge_sort created_before (l ++ [x])).
  assert (s ≡ₚ (l ++ [x])%list) as Hperm by apply merge_sort_Permutation.
  assert (StronglySorted created_before s) as Hs
    by (apply StronglySorted_merge_sort; apply _).
  destruct (last s) as [y|] eqn:Hlast.
  - apply last_Some in Hlast as [s' Hs']. rewrite Hs' in Hs, Hperm.
    apply StronglySorted_snoc_inv in Hs.
    assert (y ∈ (l ++ [x])%list) as Hy.
    { rewrite <- Hperm. apply elem_of_app. right.
      by apply list_elem_of_singleton. }
    assert (x ∈ (s' ++ [y])%list) as Hx.
    { rewrite Hperm. apply elem_of_app. right.
      by apply list_elem_of_singleton. }
    apply elem_of_app in Hy as [Hy|Hy].
    + rewrite Forall_forall in Hall. specialize (Hall y Hy).
      apply elem_of_app in Hx as [Hx|Hx].
      * rewrite Forall_forall in Hs. specialize (Hs x Hx).
        unfold created_before in Hs. lia.
      * apply list_elem_of_singleton in Hx. subst. lia.
    + apply list_elem_of_singleton in Hy. by subst.
  - apply last_None in Hlast. rewrite Hlast in Hperm.
    apply Permutation_nil_l in Hperm. by destruct l.
Qed.

Lemma task_comments_append (db : Store) (cm : Comment.t) (seq now k : nat) :
  task_comments (set_comments db (comments db ++ [cm])%list seq now) k
  = (task_comments db k
     ++ if bool_decide (Comment.task cm = k) then [cm] else [])%list.
Proof.
  unfold task_comments. simpl. rewrite filter_app. f_equal.
  rewrite filter_cons, filter_nil. case_bool_decide.
  - by rewrite decide_True.
  - by rewrite decide_False.
Qed.

(** What a successful creation of a comment has done, first variant. *)
Lemma v1_comment_create_success
    (perms : list (Permission Store Comment.t)) (db db' : Store)
    (u : option nat) (task_pk : nat) (content : option string) (status : nat)
    (cm : Comment.t) (name : string) :
  Variant1.tasks_app.TaskCommentsViewSet.create perms db u task_pk content
  = (Success status (cm, name), db') →
  ∃ c t b raw,
    u = Some c
    ∧ get_task db task_pk = Some t
    ∧ get_board db (Task.board t) = Some b
    ∧ may_access c b
    ∧ content = Some raw ∧ strip raw ≠ "" ∧ has_null (strip raw) = false
    ∧ cm = {| Comment.id := comment_seq db; Comment.task := task_pk;
              Comment.author := c; Comment.content := strip raw;
              Comment.created_at := clock db |}
    ∧ get_user db c ≫= User.fullname = Some name
    ∧ db' = set_comments db (comments db ++ [cm])%list (S (comment_seq db))
              (S (clock db)).
Proof.
  unfold Variant1.tasks_app.TaskCommentsViewSet.create.
  destruct (check_permissions perms db _) as [[]|e]; [|destruct e; done].
  simpl. destruct (get_task db task_pk) as [t|] eqn:Ht; [|done]. simpl.
  unfold task_board.
  destruct (get_board db (Task.board t)) as [b|] eqn:Hb; [|done]. simpl.
  destruct (negb _ && negb _) eqn:Hp; [done|].
  apply not_access_bool_inv in Hp as (c & Hc & Hacc). simpl in Hc. subst u.
  unfold Variant1.tasks_app.TaskCommentSerializer.is_valid.
  destruct content as [raw|]; [|done].
  unfold CharField, CharFieldWith, null_errors. cbv zeta.
  case_bool_decide as Hne; simpl; [done|].
  destruct (has_null (strip raw)) eqn:Hnull; simpl; [done|].
  rewrite v1_comment_validate_stripped by done. simpl.
  destruct (get_user db c ≫= User.fullname) as [fn|] eqn:Hfn; [|done].
  pose proof Ht as Hid. apply get_Some_inv in Hid as [_ Hid].
  rewrite Hid. intros [= <- <- <- <-].
  exists c, t, b, raw. done.
Qed.

(** X21.  First variant: when the permission classes let the caller in
    and every stored comment is older than the clock, a comment the
    caller has just created is the last entry of the task's comment list;
    the list is otherwise the one from before.  The comment's author is
    the caller, its task the task of the URL and its content the content
    of the request trimmed as [str.strip] trims, which is not empty.
    Afterwards every stored comment is again older than the clock. *)
Theorem comment_create_then_list
    (perms : list (Permission Store Comment.t)) (db db' : Store)
    (c task_pk : nat) (content : option string) (status : nat)
    (cm : Comment.t) (name : string) :
  (∀ db a,
     check_permissions perms db
       (Variant1.tasks_app.TaskCommentsViewSet.request_of (Some c) a)
     = Ok ()) →
  comments_in_past db →
  Variant1.tasks_app.TaskCommentsViewSet.create perms db (Some c) task_pk
    content = (Success status (cm, name), db') →
  ∃ before after,
    Variant1.tasks_app.TaskCommentsViewSet.list perms db (Some c) task_pk
    = (Success HTTP_200_OK before, db)
    ∧ Variant1.tasks_app.TaskCommentsViewSet.list perms db' (Some c) task_pk
      = (Success HTTP_200_OK after, db')
    ∧ after ≡ₚ (before ++ [cm])%list
    ∧ last after = Some cm
    ∧ Comment.author cm = c
    ∧ Comment.task cm = task_pk
    ∧ (∃ raw, content = Some raw ∧ Comment.content cm = strip raw)
    ∧ Comment.content cm ≠ ""
    ∧ comments_in_past db'.
Proof.
  unfold comments_in_past. intros Hperms Hpast Hc.
  apply v1_comment_create_success in Hc
    as (c' & t & b & raw & [= <-] & Ht & Hb & Hacc & -> & Hne & Hnull & ->
        & Hfn & ->).
  set (cm := {| Comment.id := comment_seq db; Comment.task := task_pk;
                Comment.author := c; Comment.content := strip raw;
                Comment.created_at := clock db |}).
  assert (Task.id t = task_pk) as Hid
    by (by apply (get_Some_inv Task.id) in Ht as [_ ?]).
  exists (order_by_created_at (task_comments db task_pk)),
    (order_by_created_at (task_comments db task_pk ++ [cm])%list).
  assert (∀ db0, get_task db0 task_pk = Some t →
            get_board db0 (Task.board t) = Some b →
            Variant1.tasks_app.TaskCommentsViewSet.list perms db0 (Some c)
              task_pk
            = (Success HTTP_200_OK
                 (order_by_created_at (task_comments db0 task_pk)), db0))
    as Hlist.
  { intros db0 Ht0 Hb0.
    unfold Variant1.tasks_app.TaskCommentsViewSet.list,
      Variant1.tasks_app.TaskCommentsViewSet.get_queryset.
    rewrite Hperms. simpl. rewrite Ht0. simpl. unfold task_board.
    rewrite Hb0. simpl.
    unfold Variant1.tasks_app.TaskCommentsViewSet.request_of.
    assert (negb (user_is {| user := Some c; action := list_action;
                             data_board := None |} (Board.owner b))
            && negb (user_in {| user := Some c; action := list_action;
                                data_board := None |} (Board.members b))
            = false) as ->.
    { pose proof (access_bool_spec list_action None c b) as Hs.
      rewrite bool_decide_eq_true_2 in Hs by done.
      destruct (user_is _ _), (user_in _ _); done. }
    by rewrite Hid. }
  split; [by apply Hlist|]. split.
  { rewrite Hlist by done. rewrite task_comments_append. simpl.
    by rewrite bool_decide_eq_true_2. }
  split.
  { unfold order_by_created_at. by rewrite !merge_sort_Permutation. }
  split.
  { apply order_by_created_at_last. unfold task_comments.
    apply Forall_forall. intros x Hx.
    apply list_elem_of_filter in Hx as [_ Hx].
    rewrite Forall_forall in Hpast. by apply Hpast. }
  split; [done|]. split; [done|]. split; [by exists raw|]. split; [done|].
  simpl. apply Forall_app. split.
  - eapply Forall_impl; [exact Hpast|]. simpl. intros. lia.
  - apply Forall_singleton. simpl. lia.
Qed.

Lemma comment_create_then_list_witness :
  ∃ cm db' after,
    comments_in_past Fixtures.db0
    ∧ Variant1.tasks_app.TaskCommentsViewSet.create [IsAuthenticated]
        Fixtures.db0 (Some 2) 1 (Some "  Done  ")
      = (Success HTTP_201_CREATED (cm, "Bob"), db')
    ∧ Variant1.tasks_app.TaskCommentsViewSet.list [IsAuthenticated] db'
        (Some 2) 1 = (Success HTTP_200_OK after, db')
    ∧ last after = Some cm
    ∧ Comment.content cm = "Done".
Proof.
  assert (comments_in_past Fixtures.db0) as Hpast
    by (apply (bool_decide_unpack _); vm_compute; exact I).
  assert (∀ (db : Store) a,
            check_permissions
              ([IsAuthenticated] : list (Permission Store Comment.t)) db
              (Variant1.tasks_app.TaskCommentsViewSet.request_of (Some 2) a)
            = Ok ()) as Hperms by (intros db a; reflexivity).
  eexists _, _.
  assert (Variant1.tasks_app.TaskCommentsViewSet.create [IsAuthenticated]
            Fixtures.db0 (Some 2) 1 (Some "  Done  ")
          = (Success HTTP_201_CREATED
               ({| Comment.id := 2; Comment.task := 1; Comment.author := 2;
                   Comment.content := "Done"; Comment.created_at := 1 |},
                "Bob"),
             set_comments Fixtures.db0
               (comments Fixtures.db0
                ++ [{| Comment.id := 2; Comment.task := 1;
                       Comment.author := 2; Comment.content := "Done";
                       Comment.created_at := 1 |}])%list 3 2)) as Hc
    by (vm_compute; reflexivity).
  destruct (comment_create_then_list _ _ _ _ _ _ _ _ _ Hperms Hpast Hc)
    as (before & after & _ & Hafter & _ & Hlast & _).
  exists after. split; [exact Hpast|]. split; [exact Hc|].
  split; [exact Hafter|]. split; [exact Hlast|reflexivity].
Defined.

(** What a successful creation of a comment has done, second variant. *)
Lemma v2_comment_create_success (db db' : Store) (u : option nat)
    (task_pk : nat) (board : option nat) (content : option string)
    (status : nat) (cm : Comment.t) :
  Variant2.tasks_app.CommentViewSet.create db u task_pk board content
  = (Success status cm, db') →
  ∃ c t raw,
    u = Some c
    ∧ get_task db task_pk = Some t
    ∧ content = Some raw ∧ strip raw ≠ ""
    ∧ cm = {| Comment.id := comment_seq db; Comment.task := task_pk;
              Comment.author := c; Comment.content := strip raw;
              Comment.created_at := clock db |}
    ∧ db' = set_comments db (comments db ++ [cm])%list (S (comment_seq db))
              (S (clock db)).
Proof.
  unfold Variant2.tasks_app.CommentViewSet.create.
  destruct (check_permissions _ db _) as [[]|e]; [|destruct e; done].
  simpl. destruct (get_task db task_pk) as [t|] eqn:Ht; [|done].
  unfold Variant2.tasks_app.CommentSerializer.is_valid.
  destruct content as [raw|]; [|done].
  unfold CharField, CharFieldWith, null_errors. cbv zeta.
  case_bool_decide as Hblank; simpl; [done|].
  destruct (has_null (strip raw)); simpl; [done|].
  destruct u as [c|]; [|done].
  pose proof Ht as Hid. apply get_Some_inv in Hid as [_ Hid]. rewrite Hid.
  intros [= <- <- <-]. exists c, t, raw. done.
Qed.

Lemma v2_comment_list_eq (db : Store) (reader task_pk : nat) (t : Task.t) :
  get_task db task_pk = Some t →
  Variant2.tasks_app.CommentViewSet.list db (Some reader) task_pk
  = (Success HTTP_200_OK (order_by_created_at (task_comments db task_pk)), db).
Proof.
  intros Ht. unfold Variant2.tasks_app.CommentViewSet.list. simpl.
  rewrite Ht. apply get_Some_inv in Ht as [_ Ht]. by rewrite Ht.
Qed.

(** X22.  Second variant: a comment is only created by an authenticated
    caller on a stored task; it records the caller as author and the task
    of the URL.  After the creation every authenticated reader gets the
    task's comment list from before with the new comment added. *)
Theorem comment_create_then_list_compact (db db' : Store) (u : option nat)
    (reader task_pk : nat) (board : option nat) (content : option string)
    (status : nat) (cm : Comment.t) :
  Variant2.tasks_app.CommentViewSet.create db u task_pk board content
  = (Success status cm, db') →
  ∃ before after,
    Variant2.tasks_app.CommentViewSet.list db (Some reader) task_pk
    = (Success HTTP_200_OK before, db)
    ∧ Variant2.tasks_app.CommentViewSet.list db' (Some reader) task_pk
      = (Success HTTP_200_OK after, db')
    ∧ after ≡ₚ (before ++ [cm])%list
    ∧ u = Some (Comment.author cm)
    ∧ Comment.task cm = task_pk
    ∧ is_Some (get_task db task_pk)
    ∧ tasks db' = tasks db ∧ boards db' = boards db ∧ users db' = users db.
Proof.
  intros Hc.
  apply v2_comment_create_success in Hc
    as (c & t & raw & -> & Ht & -> & Hne & -> & ->).
  set (cm := {| Comment.id := comment_seq db; Comment.task := task_pk;
                Comment.author := c; Comment.content := strip raw;
                Comment.created_at := clock db |}).
  exists (order_by_created_at (task_comments db task_pk)),
    (order_by_created_at (task_comments db task_pk ++ [cm])%list).
  split; [by apply (v2_comment_list_eq db reader task_pk t)|]. split.
  { rewrite (v2_comment_list_eq _ reader task_pk t) by done.
    rewrite task_comments_append. simpl. by rewrite bool_decide_eq_true_2. }
  split.
  { unfold order_by_created_at. by rewrite !merge_sort_Permutation. }
  split; [done|]. split; [done|]. split; [by rewrite Ht|]. done.
Qed.

Lemma comment_create_then_list_compact_witness :
  ∃ cm db' after,
    Variant2.tasks_app.CommentViewSet.create Fixtures.db0 (Some 2) 1 None
      (Some "Done") = (Success HTTP_201_CREATED cm, db')
    ∧ Variant2.tasks_app.CommentViewSet.list db' (Some 3) 1
      = (Success HTTP_200_OK after, db')
    ∧ after ≡ₚ [Fixtures.remark; cm].
Proof.
  eexists _, _.
  assert (Variant2.tasks_app.CommentViewSet.create Fixtures.db0 (Some 2) 1
            None (Some "Done")
          = (Success HTTP_201_CREATED
               {| Comment.id := 2; Comment.task := 1; Comment.author := 2;
                  Comment.content := "Done"; Comment.created_at := 1 |},
             set_comments Fixtures.db0
               (comments Fixtures.db0
                ++ [{| Comment.id := 2; Comment.task := 1;
                       Comment.author := 2; Comment.content := "Done";
                       Comment.created_at := 1 |}])%list 3 2)) as Hc
    by (vm_compute; reflexivity).
  destruct (comment_create_then_list_compact _ _ _ 3 _ _ _ _ _ Hc)
    as (before & after & Hbefore & Hafter & Hperm & _).
  exists after. split; [exact Hc|]. split; [exact Hafter|].
  rewrite Hperm. injection Hbefore as <-. reflexivity.
Defined.

(** X23.  In both variants a successful listing of a task's comments
    returns exactly the stored comments of that task, oldest first, and
    changes nothing; it succeeds only for a stored task. *)
Theorem comments_listed_oldest_first
    (perms : list (Permission Store Comment.t)) (db : Store) (u : option nat)
    (task_pk : nat) :
  (∀ status l db',
     Variant1.tasks_app.TaskCommentsViewSet.list perms db u task_pk
     = (Success status l, db') →
     StronglySorted created_before l
     ∧ (∀ x, x ∈ l ↔ x ∈ comments db ∧ Comment.task x = task_pk)
     ∧ l ≡ₚ task_comments db task_pk
     ∧ is_Some (get_task db task_pk)
     ∧ db' = db)
  ∧ (∀ status l db',
     Variant2.tasks_app.CommentViewSet.list db u task_pk
     = (Success status l, db') →
     StronglySorted created_before l
     ∧ (∀ x, x ∈ l ↔ x ∈ comments db ∧ Comment.task x = task_pk)
     ∧ l ≡ₚ task_comments db task_pk
     ∧ is_Some (get_task db task_pk)
     ∧ db' = db)
  ∧ (get_task db task_pk = None →
     is_success
       (Variant1.tasks_app.TaskCommentsViewSet.list perms db u task_pk).1
     = false
     ∧ is_success (Variant2.tasks_app.CommentViewSet.list db u task_pk).1
       = false).
Proof.
  assert (∀ l, l = order_by_created_at (task_comments db task_pk) →
            StronglySorted created_before l
            ∧ (∀ x, x ∈ l ↔ x ∈ comments db ∧ Comment.task x = task_pk)
            ∧ l ≡ₚ task_comments db task_pk) as Hsorted.
  { intros l ->. split; [apply StronglySorted_merge_sort; apply _|].
    split; [|apply merge_sort_Permutation].
    intros x. unfold order_by_created_at.
    rewrite merge_sort_Permutation. unfold task_comments.
    rewrite list_elem_of_filter. tauto. }
  split; [|split].
  - intros status l db'.
    unfold Variant1.tasks_app.TaskCommentsViewSet.list,
      Variant1.tasks_app.TaskCommentsViewSet.get_queryset.
    destruct (check_permissions perms db _) as [[]|e]; [|destruct e; done].
    simpl. destruct (get_task db task_pk) as [t|] eqn:Ht; [|done]. simpl.
    destruct (task_board db t) as [b|e]; [|destruct e; done]. simpl.
    destruct (negb _ && negb _); [done|]. simpl.
    apply get_Some_inv in Ht as [_ Ht]. rewrite Ht.
    intros [= <- <- <-].
    destruct (Hsorted _ eq_refl) as (? & ? & ?). eauto 10.
  - intros status l db'.
    unfold Variant2.tasks_app.CommentViewSet.list.
    destruct (check_permissions _ db _) as [[]|e]; [|destruct e; done].
    simpl. destruct (get_task db task_pk) as [t|] eqn:Ht; [|done].
    apply get_Some_inv in Ht as [_ Ht]. rewrite Ht.
    intros [= <- <- <-].
    destruct (Hsorted _ eq_refl) as (? & ? & ?). eauto 10.
  - intros Hnone. split.
    + unfold Variant1.tasks_app.TaskCommentsViewSet.list,
        Variant1.tasks_app.TaskCommentsViewSet.get_queryset.
      destruct (check_permissions perms db _) as [[]|e]; [|by destruct e].
      simpl. by rewrite Hnone.
    + unfold Variant2.tasks_app.CommentViewSet.list.
      destruct (check_permissions _ db _) as [[]|e]; [|by destruct e].
      simpl. by rewrite Hnone.
Qed.

(** ** The preview of a comment in the admin site *)

Lemma length_append (s1 s2 : string) :
  String.length (s1 +:+ s2) = (String.length s1 + String.length s2)%nat.
Proof. induction s1 as [|c s1 IH]; simpl; [done|]. by rewrite IH. Qed.

Lemma substring0_length (n : nat) (s : string) :
  String.length (String.substring 0 n s) = (n `min` String.length s)%nat.
Proof.
  revert s. induction n as [|n IH]; intros [|c s]; simpl; try done.
  by rewrite IH.
Qed.

Lemma substring0_append (n : nat) (s1 s2 : string) :
  String.length s1 = n → String.substring 0 n (s1 +:+ s2) = s1.
Proof.
  revert s1. induction n as [|n IH]; intros [|c s1]; simpl; try done.
  - intros _. by destruct s2.
  - intros [= Hlen]. by rewrite IH.
Qed.

(** X24.  The admin preview of a comment is the content itself when it
    has at most 50 characters, and otherwise its first 50 characters
    followed by three dots.  A preview is never longer than 53 characters
    and always starts like the content.  Lengths are counted in
    characters (code points), not in bytes of an encoding. *)
Theorem content_preview_bounds (obj : Comment.t) :
  let content := Comment.content obj in
  let preview := Variant1.tasks_app.TaskCommentAdmin.content_preview obj in
  (String.length preview ≤ 53)%nat
  ∧ (String.length preview ≤ String.length content + 3)%nat
  ∧ ((String.length content ≤ 50)%nat → preview = content)
  ∧ ((50 < String.length content)%nat →
     String.length preview = 53
     ∧ preview = String.substring 0 50 content +:+ "...")
  ∧ String.substring 0 50 preview = String.substring 0 50 content.
Proof.
  intros content preview. subst content preview.
  unfold Variant1.tasks_app.TaskCommentAdmin.content_preview.
  destruct (50 <? String.length (Comment.content obj))%nat eqn:E.
  - apply Nat.ltb_lt in E.
    assert (String.length (String.substring 0 50 (Comment.content obj)) = 50)
      as Hlen by (rewrite substring0_length; lia).
    rewrite length_append, Hlen. simpl.
    split; [lia|]. split; [lia|]. split; [lia|]. split; [done|].
    by rewrite substring0_append.
  - apply Nat.ltb_ge in E.
    split; [lia|]. split; [lia|]. split; [done|]. split; [lia|]. done.
Qed.

(** ** A refused request changes nothing *)

Lemma run_fail_closed {A : Type} (db : Store)
    (body : Result (Response A * Store)) :
  (∀ out, body = Ok out → fail_closed db out) → fail_closed db (run db body).
Proof.
  intros Hout. destruct body as [out|e]; simpl; [by apply Hout|].
  by right.
Qed.

Ltac closed :=
  apply run_fail_closed; intros out Hout; peel;
  first [by left | by right].

Lemma run_refusal_closed {A : Type} (db : Store)
    (body : Result (Response A * Store)) :
  (∀ out, body = Ok out → refused out.1 = true → out.2 = db) →
  refusal_closed db (run db body).
Proof.
  intros Hout. unfold refusal_closed.
  destruct body as [out|e]; simpl; [by apply Hout|done].
Qed.

(** An answer built after a save is a success or a server error. *)
Lemma respond_after_save_not_refused {A : Type} (status : nat) (db' : Store)
    (data : Result A) :
  (∀ e, data = Raise e → ∃ exc, e = Uncaught exc) →
  refused (respond_after_save status db' data).1 = false.
Proof.
  intros Hraise.
  destruct (respond_after_save_cases status db' data Hraise)
    as (_ & [(? & _ & ->)|(? & _ & ->)]); done.
Qed.

(** X25.  First variant: creating or deleting a board, deleting a task or
    a comment and registering either succeed or leave the store exactly
    as it was.  Updating a board, creating or updating a task, creating a
    comment and logging in build their answer after the write: when one
    of them is refused with a client error (400, 401, 403 or 404) nothing
    was written, whereas a server error can follow a completed write.
    Retrieving and listing boards and listing comments never change the
    store. *)
Theorem failed_writes_change_nothing `{!Externals}
    (perms : list (Permission Store Comment.t)) (db : Store) (u : option nat)
    (pk task_pk : nat) (partial : bool)
    (board_data : Variant1.boards_app.BoardData)
    (task_data : Variant1.tasks_app.TaskData.t) (content : option string)
    (registration_data : Variant1.auth_app.RegistrationData.t)
    (login_data : Variant1.auth_app.LoginData.t) :
  fail_closed db (Variant1.boards_app.BoardViewSet.create db u board_data)
  ∧ fail_closed db (Variant1.boards_app.BoardViewSet.destroy db u pk)
  ∧ fail_closed db (Variant1.tasks_app.TaskViewSet.destroy db u pk)
  ∧ fail_closed db
      (Variant1.tasks_app.TaskCommentsViewSet.destroy perms db u task_pk pk)
  ∧ fail_closed db
      (Variant1.auth_app.RegistrationView.create db registration_data)
  ∧ refusal_closed db
      (Variant1.boards_app.BoardViewSet.update_with partial db u pk board_data)
  ∧ refusal_closed db (Variant1.tasks_app.TaskViewSet.create db u task_data)
  ∧ refusal_closed db
      (Variant1.tasks_app.TaskViewSet.update_with partial db u pk task_data)
  ∧ refusal_closed db
      (Variant1.tasks_app.TaskCommentsViewSet.create perms db u task_pk
         content)
  ∧ refusal_closed db (Variant1.auth_app.LoginView.post db login_data)
  ∧ (Variant1.boards_app.BoardViewSet.retrieve db u pk).2 = db
  ∧ (Variant1.boards_app.BoardViewSet.list db u).2 = db
  ∧ (Variant1.tasks_app.TaskCommentsViewSet.list perms db u task_pk).2 = db.
Proof.
  split_and!.
  - unfold Variant1.boards_app.BoardViewSet.create. cbv zeta. closed.
  - unfold Variant1.boards_app.BoardViewSet.destroy. cbv zeta. closed.
  - unfold Variant1.tasks_app.TaskViewSet.destroy. cbv zeta. closed.
  - unfold Variant1.tasks_app.TaskCommentsViewSet.destroy. cbv zeta. closed.
  - unfold Variant1.auth_app.RegistrationView.create. cbv zeta.
    apply run_fail_closed; intros out Hout; peel.
    unfold Variant1.auth_app.RegistrationSerializer.save in *. peel.
    unfold Variant1.auth_app.token_response. simpl. by left.
  - unfold Variant1.boards_app.BoardViewSet.update_with. cbv zeta.
    apply run_refusal_closed. intros out Hout Href. peel.
    rewrite respond_after_save_not_refused in Href; [done|].
    apply v1_updated_Raise.
  - unfold Variant1.tasks_app.TaskViewSet.create. cbv zeta.
    apply run_refusal_closed. intros out Hout Href. peel.
    rewrite respond_after_save_not_refused in Href; [done|].
    apply v1_task_representation_Raise.
  - unfold Variant1.tasks_app.TaskViewSet.update_with. cbv zeta.
    apply run_refusal_closed. intros out Hout Href. peel.
    rewrite respond_after_save_not_refused in Href; [done|].
    apply v1_task_representation_Raise.
  - unfold Variant1.tasks_app.TaskCommentsViewSet.create. cbv zeta.
    apply run_refusal_closed. intros out Hout Href. peel; done.
  - unfold Variant1.auth_app.LoginView.post. cbv zeta.
    apply run_refusal_closed. intros out Hout Href. peel.
    unfold Variant1.auth_app.token_response in Href.
    by destruct (User.fullname _).
  - unfold Variant1.boards_app.BoardViewSet.retrieve. cbv zeta.
    assert (∀ A (body : Result (Response A * Store)),
              (∀ out, body = Ok out → out.2 = db) → (run db body).2 = db)
      as Hrun.
    { intros A [out|e] Hout; simpl; [by apply Hout|done]. }
    apply Hrun. intros out Hout. peel. done.
  - unfold Variant1.boards_app.BoardViewSet.list. cbv zeta.
    assert (∀ A (body : Result (Response A * Store)),
              (∀ out, body = Ok out → out.2 = db) → (run db body).2 = db)
      as Hrun.
    { intros A [out|e] Hout; simpl; [by apply Hout|done]. }
    apply Hrun. intros out Hout. peel. done.
  - unfold Variant1.tasks_app.TaskCommentsViewSet.list. cbv zeta.
    assert (∀ A (body : Result (Response A * Store)),
              (∀ out, body = Ok out → out.2 = db) → (run db body).2 = db)
      as Hrun.
    { intros A [out|e] Hout; simpl; [by apply Hout|done]. }
    apply Hrun. intros out Hout. peel. done.
Qed.

(** X26.  Second variant: creating, updating and deleting a board or a
    task, creating and deleting a comment, registering and logging in
    either succeed or leave the store exactly as it was.  Retrieving and
    listing boards and listing comments never change the store. *)
Theorem failed_writes_change_nothing_compact `{!Externals}
    (db : Store) (u : option nat) (a : Action)
    (pk task_pk : nat) (board : option nat) (content : option string)
    (board_data : Variant2.boards_app.BoardData)
    (task_data : Variant2.tasks_app.TaskData.t)
    (registration_data : Variant2.auth_app.RegistrationData.t)
    (login_data : Variant2.auth_app.LoginData.t) :
  fail_closed db (Variant2.boards_app.BoardViewSet.create db u board_data)
  ∧ fail_closed db
      (Variant2.boards_app.BoardViewSet.update_as a db u pk board_data)
  ∧ fail_closed db (Variant2.boards_app.BoardViewSet.destroy db u pk)
  ∧ fail_closed db (Variant2.tasks_app.TaskViewSet.create db u task_data)
  ∧ fail_closed db
      (Variant2.tasks_app.TaskViewSet.update_as a db u pk task_data)
  ∧ fail_closed db (Variant2.tasks_app.TaskViewSet.destroy db u pk)
  ∧ fail_closed db
      (Variant2.tasks_app.CommentViewSet.create db u task_pk board content)
  ∧ fail_closed db (Variant2.tasks_app.CommentViewSet.destroy db u task_pk pk)
  ∧ fail_closed db (Variant2.auth_app.registration db registration_data)
  ∧ fail_closed db (Variant2.auth_app.login db login_data)
  ∧ (Variant2.boards_app.BoardViewSet.retrieve db u pk).2 = db
  ∧ (Variant2.boards_app.BoardViewSet.list db u).2 = db
  ∧ (Variant2.tasks_app.CommentViewSet.list db u task_pk).2 = db.
Proof.
  split; [|split; [|split; [|split; [|split; [|split; [|split; [|split;
    [|split; [|split]]]]]]]]].
  - unfold Variant2.boards_app.BoardViewSet.create. cbv zeta. closed.
  - unfold Variant2.boards_app.BoardViewSet.update_as. cbv zeta. closed.
  - unfold Variant2.boards_app.BoardViewSet.destroy. cbv zeta. closed.
  - unfold Variant2.tasks_app.TaskViewSet.create. cbv zeta. closed.
  - unfold Variant2.tasks_app.TaskViewSet.update_as. cbv zeta. closed.
  - unfold Variant2.tasks_app.TaskViewSet.destroy. cbv zeta. closed.
  - unfold Variant2.tasks_app.CommentViewSet.create. cbv zeta. closed.
  - unfold Variant2.tasks_app.CommentViewSet.destroy. cbv zeta. closed.
  - unfold Variant2.auth_app.registration.
    destruct (Variant2.auth_app.RegistrationSerializer.is_valid _ _)
      as [v|[]]; try (by right).
    apply run_fail_closed; intros out Hout; peel.
    unfold Variant2.auth_app.token_response. by left.
  - unfold Variant2.auth_app.login.
    destruct (Variant2.auth_app.LoginSerializer_is_valid _) as [v|[]];
      try (by right).
    destruct (objects_get _); try (by right).
    destruct (Variant2.auth_app.authenticate _ _ _); [|by right].
    unfold Variant2.auth_app.token_response. by left.
  - assert (∀ A (body : Result (Response A * Store)),
              (∀ out, body = Ok out → out.2 = db) → (run db body).2 = db)
      as Hrun.
    { intros A [out|e] Hout; simpl; [by apply Hout|done]. }
    split; [|split].
    + unfold Variant2.boards_app.BoardViewSet.retrieve. cbv zeta.
      apply Hrun. intros out Hout. peel. done.
    + unfold Variant2.boards_app.BoardViewSet.list. cbv zeta.
      apply Hrun. intros out Hout. peel. done.
    + unfold Variant2.tasks_app.CommentViewSet.list. cbv zeta.
      apply Hrun. intros out Hout. peel; done.
Qed.

(** ** References between the tables stay valid *)

(** The invariant speaks of the ids in the three tables only. *)
Lemma refs_ok_ids (db db' : Store) :
  refs_ok db →
  (∀ k, k ∈ Board.id <$> boards db → k ∈ Board.id <$> boards db') →
  (∀ t, t ∈ tasks db' →
     t ∈ tasks db ∨ Task.board t ∈ Board.id <$> boards db') →
  (∀ k, k ∈ Task.id <$> tasks db → k ∈ Task.id <$> tasks db') →
  (∀ c, c ∈ comments db' →
     c ∈ comments db ∨ Comment.task c ∈ Task.id <$> tasks db') →
  refs_ok db'.
Proof.
  intros [Ht Hc] Hb Ht' Hk Hc'. split; apply Forall_forall.
  - intros t Hin. unfold get_board. apply get_is_Some.
    destruct (Ht' t Hin) as [Hold|Hnew]; [|done].
    apply Hb. rewrite Forall_forall in Ht. specialize (Ht t Hold).
    by apply get_is_Some in Ht.
  - intros c Hin. unfold get_task. apply get_is_Some.
    destruct (Hc' c Hin) as [Hold|Hnew]; [|done].
    apply Hk. rewrite Forall_forall in Hc. specialize (Hc c Hold).
    by apply get_is_Some in Hc.
Qed.

Lemma refs_ok_same (db db' : Store) :
  refs_ok db → boards db' = boards db → tasks db' = tasks db →
  comments db' = comments db → refs_ok db'.
Proof.
  intros Hok Hb Ht Hc. apply (refs_ok_ids db); [done|..];
    rewrite ?Hb, ?Ht, ?Hc; auto.
Qed.

Lemma refs_ok_run {A : Type} (db : Store)
    (body : Result (Response A * Store)) :
  refs_ok db → (∀ out, body = Ok out → refs_ok out.2) →
  refs_ok (run db body).2.
Proof. intros Hok Hout. destruct body as [out|e]; simpl; [by apply Hout|done]. Qed.

Lemma refs_ok_delete_board (db : Store) (b : Board.t) :
  refs_ok db → refs_ok (delete_board db b).
Proof.
  intros [Ht Hc]. unfold delete_board. split; apply Forall_forall; simpl.
  - intros t Hin. apply list_elem_of_filter in Hin as [Hb Hin].
    unfold get_board. simpl. apply get_is_Some.
    rewrite Forall_forall in Ht. specialize (Ht t Hin).
    apply get_is_Some in Ht.
    apply list_elem_of_fmap in Ht as (x & Hx & Hxin).
    apply list_elem_of_fmap. exists x. split; [done|].
    apply list_elem_of_filter. split; [congruence|done].
  - intros c Hin. apply list_elem_of_filter in Hin as [Hdoomed Hin].
    unfold get_task. simpl. apply get_is_Some.
    rewrite Forall_forall in Hc. specialize (Hc c Hin).
    apply get_is_Some in Hc.
    apply list_elem_of_fmap in Hc as (x & Hx & Hxin).
    apply list_elem_of_fmap. exists x. split; [done|].
    apply list_elem_of_filter. split; [|done].
    intros Hxb. apply Hdoomed. rewrite Hx. apply list_elem_of_fmap_2.
    unfold board_tasks. by apply list_elem_of_filter.
Qed.

Lemma refs_ok_delete_task (db : Store) (t : Task.t) :
  refs_ok db → refs_ok (delete_task db t).
Proof.
  intros [Ht Hc]. unfold delete_task. split; apply Forall_forall; simpl.
  - intros x Hin. apply list_elem_of_filter in Hin as [_ Hin].
    rewrite Forall_forall in Ht. by apply Ht.
  - intros c Hin. apply list_elem_of_filter in Hin as [Hne Hin].
    unfold get_task. simpl. apply get_is_Some.
    rewrite Forall_forall in Hc. specialize (Hc c Hin).
    apply get_is_Some in Hc.
    apply list_elem_of_fmap in Hc as (x & Hx & Hxin).
    apply list_elem_of_fmap. exists x. split; [done|].
    apply list_elem_of_filter. split; [congruence|done].
Qed.

Lemma refs_ok_delete_comment (db : Store) (c : Comment.t) :
  refs_ok db → refs_ok (delete_comment db c).
Proof.
  intros [Ht Hc]. unfold delete_comment. split; [done|].
  apply Forall_forall. simpl. intros x Hin.
  apply list_elem_of_filter in Hin as [_ Hin].
  rewrite Forall_forall in Hc. by apply Hc.
Qed.

Lemma refs_ok_add_board (db : Store) (b : Board.t) (seq : nat) :
  refs_ok db → refs_ok (set_boards db (boards db ++ [b])%list seq).
Proof.
  intros Hok. apply (refs_ok_ids db); simpl; auto.
  intros k Hk. rewrite fmap_app. apply elem_of_app. by left.
Qed.

Lemma refs_ok_replace_board (db : Store) (f : Board.t → Board.t) (seq : nat) :
  (∀ b, Board.id (f b) = Board.id b) →
  refs_ok db → refs_ok (set_boards db (f <$> boards db) seq).
Proof.
  intros Hf Hok. apply (refs_ok_ids db); simpl; auto.
  intros k Hk. rewrite <- list_fmap_compose.
  erewrite list_fmap_ext; [exact Hk|]. intros i b _. simpl. apply Hf.
Qed.

Lemma refs_ok_add_task (db : Store) (t : Task.t) (seq : nat) :
  is_Some (get_board db (Task.board t)) →
  refs_ok db → refs_ok (set_tasks db (tasks db ++ [t])%list seq).
Proof.
  intros Hb Hok. apply (refs_ok_ids db); simpl; auto.
  - intros x Hx. apply elem_of_app in Hx as [Hx|Hx]; [by left|].
    apply list_elem_of_singleton in Hx. subst x. right.
    by apply get_is_Some in Hb.
  - intros k Hk. rewrite fmap_app. apply elem_of_app. by left.
Qed.

Lemma refs_ok_replace_task (db : Store) (instance new : Task.t) (seq : nat) :
  Task.id new = Task.id instance →
  is_Some (get_board db (Task.board new)) →
  refs_ok db →
  refs_ok
    (set_tasks db
       ((λ t, if bool_decide (Task.id t = Task.id instance) then new else t)
          <$> tasks db) seq).
Proof.
  intros Hid Hb Hok. apply (refs_ok_ids db); simpl; auto.
  - intros x Hx. apply list_elem_of_fmap in Hx as (y & -> & Hy).
    destruct (bool_decide _); [right|by left]. by apply get_is_Some in Hb.
  - intros k Hk. rewrite <- list_fmap_compose.
    erewrite list_fmap_ext; [exact Hk|]. intros i t _. simpl.
    case_bool_decide; congruence.
Qed.

Lemma refs_ok_add_comment (db : Store) (c : Comment.t) (seq now : nat) :
  is_Some (get_task db (Comment.task c)) →
  refs_ok db → refs_ok (set_comments db (comments db ++ [c])%list seq now).
Proof.
  intros Ht Hok. apply (refs_ok_ids db); simpl; auto.
  intros x Hx. apply elem_of_app in Hx as [Hx|Hx]; [by left|].
  apply list_elem_of_singleton in Hx. subst x. right.
  by apply get_is_Some in Ht.
Qed.

Lemma v1_attrs_board_exists `{!Externals} (db : Store) (partial : bool)
    (d : Variant1.tasks_app.TaskData.t)
    (a : Variant1.tasks_app.TaskSerializer.attrs) (b : Board.t) :
  Variant1.tasks_app.TaskSerializer.to_internal_value db partial d = Ok a →
  Variant1.tasks_app.TaskSerializer.board a = Some b →
  get_board db (Board.id b) = Some b.
Proof.
  unfold Variant1.tasks_app.TaskSerializer.to_internal_value. cbv zeta.
  destruct (field_errors "board" _ ++ _)%list as [|e es] eqn:E; [|done].
  intros [= <-]. cbn [Variant1.tasks_app.TaskSerializer.board].
  destruct (Variant1.tasks_app.TaskData.board d) as [k|]; simpl.
  - destruct (get_board db k) as [b'|] eqn:Hb; simpl; [|done].
    intros [= <-]. pose proof Hb as Hid.
    apply get_Some_inv in Hid as [_ Hid]. by rewrite Hid.
  - by destruct partial.
Qed.

(** X27.  First variant: when every stored task belongs to a stored
    board and every stored comment to a stored task, this is still so
    after any request: creating, updating or deleting a board or a task,
    creating or deleting a comment, registering and logging in, whether
    the request succeeds or not.  Deleting a board or a task takes its
    tasks and comments along, and a task is never moved to a board that
    does not exist. *)
Theorem references_stay_valid `{!Externals}
    (perms : list (Permission Store Comment.t)) (db : Store) (u : option nat)
    (pk task_pk : nat) (partial : bool)
    (board_data : Variant1.boards_app.BoardData)
    (task_data : Variant1.tasks_app.TaskData.t) (content : option string)
    (registration_data : Variant1.auth_app.RegistrationData.t)
    (login_data : Variant1.auth_app.LoginData.t) :
  refs_ok db →
  refs_ok (Variant1.boards_app.BoardViewSet.create db u board_data).2
  ∧ refs_ok
      (Variant1.boards_app.BoardViewSet.update_with partial db u pk
         board_data).2
  ∧ refs_ok (Variant1.boards_app.BoardViewSet.destroy db u pk).2
  ∧ refs_ok (Variant1.tasks_app.TaskViewSet.create db u task_data).2
  ∧ refs_ok
      (Variant1.tasks_app.TaskViewSet.update_with partial db u pk task_data).2
  ∧ refs_ok (Variant1.tasks_app.TaskViewSet.destroy db u pk).2
  ∧ refs_ok
      (Variant1.tasks_app.TaskCommentsViewSet.create perms db u task_pk
         content).2
  ∧ refs_ok
      (Variant1.tasks_app.TaskCommentsViewSet.destroy perms db u task_pk pk).2
  ∧ refs_ok (Variant1.auth_app.RegistrationView.create db registration_data).2
  ∧ refs_ok (Variant1.auth_app.LoginView.post db login_data).2.
Proof.
  intros Hok.
  split; [|split; [|split; [|split; [|split; [|split; [|split; [|split;
    [|split]]]]]]]].
  - unfold Variant1.boards_app.BoardViewSet.create. cbv zeta.
    apply refs_ok_run; [done|]. intros out Hout. peel.
    unfold Variant1.boards_app.BoardCreateSerializer.create in *.
    simplify_eq. by apply refs_ok_add_board.
  - unfold Variant1.boards_app.BoardViewSet.update_with. cbv zeta.
    apply refs_ok_run; [done|]. intros out Hout. peel.
    rewrite respond_after_save_snd.
    unfold Variant1.boards_app.BoardUpdateSerializer.update in *.
    simplify_eq. simpl. apply refs_ok_replace_board; [|done].
    intros b0. case_bool_decide; [|done].
    destruct a1 as [[t|] [ms|]]; simpl; congruence.
  - unfold Variant1.boards_app.BoardViewSet.destroy. cbv zeta.
    apply refs_ok_run; [done|]. intros out Hout. peel; simpl; [done|].
    by apply refs_ok_delete_board.
  - unfold Variant1.tasks_app.TaskViewSet.create. cbv zeta.
    apply refs_ok_run; [done|]. intros out Hout. peel.
    rewrite respond_after_save_snd.
    unfold Variant1.tasks_app.TaskSerializer.create in *. peel. simpl.
    apply refs_ok_add_task; [|done]. simpl.
    unfold Variant1.tasks_app.TaskSerializer.is_valid in *. peel.
    unfold Variant1.tasks_app.TaskSerializer.validate in *. peel.
    all: erewrite v1_attrs_board_exists by done; by eexists.
  - unfold Variant1.tasks_app.TaskViewSet.update_with. cbv zeta.
    apply refs_ok_run; [done|]. intros out Hout. peel.
    rewrite respond_after_save_snd. simpl.
    apply refs_ok_replace_task; [done| |done]. simpl.
    unfold Variant1.tasks_app.TaskSerializer.is_valid in *. peel.
    unfold Variant1.tasks_app.TaskSerializer.validate in *. peel.
    all: destruct (Variant1.tasks_app.TaskSerializer.board _) as [b|] eqn:Hb;
      simpl; [erewrite v1_attrs_board_exists by done; by eexists|].
    all: unfold Variant1.tasks_app.TaskViewSet.get_object in *.
    all: match goal with
         | Hobj : Drf.get_object _ _ _ _ = Ok _ |- _ =>
             apply get_object_Ok in Hobj as [Ht _];
             apply get_Some_inv in Ht as [Hin _]
         end.
    all: destruct Hok as [Hok _]; rewrite Forall_forall in Hok; by apply Hok.
  - unfold Variant1.tasks_app.TaskViewSet.destroy. cbv zeta.
    apply refs_ok_run; [done|]. intros out Hout. peel. simpl.
    by apply refs_ok_delete_task.
  - unfold Variant1.tasks_app.TaskCommentsViewSet.create. cbv zeta.
    apply refs_ok_run; [done|]. intros out Hout.
    peel; simpl; try done.
    all: unfold Variant1.tasks_app.TaskCommentSerializer.save; simpl.
    all: apply refs_ok_add_comment; [|done]; simpl.
    all: match goal with
         | Ht : get_object_or_404 (get_task ?d ?k) = Ok ?t |- _ =>
             destruct (get_task d k) as [t'|] eqn:Hg; [|done];
             injection Ht as ->;
             pose proof Hg as Hid; apply get_Some_inv in Hid as [_ Hid];
             rewrite Hid, Hg; by eexists
         end.
  - unfold Variant1.tasks_app.TaskCommentsViewSet.destroy. cbv zeta.
    apply refs_ok_run; [done|]. intros out Hout. peel; simpl; [done|].
    by apply refs_ok_delete_comment.
  - unfold Variant1.auth_app.RegistrationView.create.
    apply refs_ok_run; [done|]. intros out Hout. peel.
    unfold Variant1.auth_app.RegistrationSerializer.save in *. peel.
    unfold Variant1.auth_app.token_response.
    set (db1 := set_users _ _ _).
    destruct (get_or_create_token_spec
                (generate_key (length (tokens db1))) db1 (user_seq db))
      as (_ & _ & Hb & Ht & Hc).
    simpl. eapply refs_ok_same; [exact Hok|..]; done.
  - unfold Variant1.auth_app.LoginView.post.
    apply refs_ok_run; [done|]. intros out Hout. peel.
    unfold Variant1.auth_app.token_response.
    destruct (get_or_create_token_spec
                (generate_key (length (tokens db))) db (User.id a0))
      as (_ & _ & Hb & Ht & Hc).
    destruct (User.fullname a0); simpl;
      (eapply refs_ok_same; [exact Hok|..]; done).
Qed.

Lemma references_stay_valid_witness :
  refs_ok Fixtures.db0
  ∧ tasks (Variant1.boards_app.BoardViewSet.destroy Fixtures.db0 (Some 1) 1).2
    = []
  ∧ refs_ok (Variant1.boards_app.BoardViewSet.destroy Fixtures.db0 (Some 1) 1).2.
Proof.
  assert (refs_ok Fixtures.db0) as Hok
    by (apply (bool_decide_unpack _); vm_compute; exact I).
  split; [exact Hok|]. split; [vm_compute; reflexivity|].
  apply (references_stay_valid (H := Fixtures.plain) [IsAuthenticated]
           Fixtures.db0 (Some 1) 1 1 true Fixtures.rename_v1
           Fixtures.unassign_v1 None Fixtures.dave_v1
           {| Variant1.auth_app.LoginData.email := None;
              Variant1.auth_app.LoginData.password := None |} Hok).
Defined.
